(** * RipForge community disc database worker: model and properties

    A shallow embedding of [worker/index.js] (the Cloudflare Worker serving
    [GET /db], [GET /lookup] and [POST /contribute]) together with the
    properties of its lookup and contribution protocol.

    The worker is written against the JavaScript platform: [JSON.parse],
    [JSON.stringify], [atob], [btoa], [parseInt], [fetch] and the clock.
    Those are not part of the repository; the model takes them as a
    [Platform] record and a [host] oracle, and every general theorem holds
    for all of them.  Module [Ref] at the end of the definitions gives a small
    executable platform on which the model is run on concrete requests. *)

From Stdlib Require Import List NArith ZArith Bool String Ascii Floats Uint63 Lia.
Import ListNotations.

Set Warnings "-register-all,-inexact-float".

(** ** JavaScript strings

    A JS string is a sequence of UTF-16 code units.  [atob] yields code units
    below 256 and [btoa] refuses any code unit above 255, so the distinction
    matters to the worker and code units are kept as numbers. *)

Definition jsstring := list N.

Definition js (s : string) : jsstring :=
  map N_of_ascii (list_ascii_of_string s).

Fixpoint str_eqb (a b : jsstring) : bool :=
  match a, b with
  | [], [] => true
  | x :: a', y :: b' => N.eqb x y && str_eqb a' b'
  | _, _ => false
  end.

Definition is_empty (s : jsstring) : bool :=
  match s with [] => true | _ => false end.

(** [Boolean(s)] for a string: the predicate of [.filter(Boolean)]. *)
Definition Boolean_str (s : jsstring) : bool := negb (is_empty s).

(** Code units removed by [String.prototype.trim]: WhiteSpace and
    LineTerminator of ECMA-262. *)
Definition is_ws (c : N) : bool :=
  existsb (N.eqb c)
    [9; 10; 11; 12; 13; 32; 160; 5760; 8192; 8193; 8194; 8195; 8196; 8197;
     8198; 8199; 8200; 8201; 8202; 8232; 8233; 8239; 8287; 12288; 65279]%N.

Fixpoint trim_start (s : jsstring) : jsstring :=
  match s with
  | [] => []
  | c :: r => if is_ws c then trim_start r else s
  end.

Definition trim_end (s : jsstring) : jsstring := rev (trim_start (rev s)).

Definition trim (s : jsstring) : jsstring := trim_end (trim_start s).

Definition LF : N := 10%N.

(** [s.split(sep)] for a one-code-unit separator; [''.split(sep)] is [['']]. *)
Fixpoint split_on (sep : N) (s : jsstring) : list jsstring :=
  match s with
  | [] => [[]]
  | c :: r =>
      if N.eqb c sep then [] :: split_on sep r
      else match split_on sep r with
           | h :: t => (c :: h) :: t
           | [] => [[c]]
           end
  end.

(** [s.replace(/\n/g, '')] *)
Definition remove_newlines (s : jsstring) : jsstring :=
  filter (fun c => negb (N.eqb c LF)) s.

(** [text.trim().split('\n').filter(Boolean)]: the record lines of a blob,
    the one notion of line all three handlers share. *)
Definition blob_lines (text : jsstring) : list jsstring :=
  filter Boolean_str (split_on LF (trim text)).

(** ** JavaScript values *)

Inductive JsValue : Type :=
| JUndefined
| JNull
| JBool (b : bool)
| JNum (x : float)
| JStr (s : jsstring)
| JArr (items : list JsValue)
| JObj (props : list (jsstring * JsValue)).

Inductive Exn : Type :=
| TypeError
| SyntaxError
| InvalidCharacterError
| NetworkError.

Inductive Outcome (A : Type) : Type :=
| Ok (a : A)
| Throw (e : Exn).
Arguments Ok {A} a.
Arguments Throw {A} e.

Definition obind {A B} (c : Outcome A) (k : A -> Outcome B) : Outcome B :=
  match c with
  | Ok a => k a
  | Throw e => Throw e
  end.

Declare Scope js_scope.
Delimit Scope js_scope with jsm.
Notation "x <-? c ;; k" := (obind c (fun x => k))
  (at level 61, c at next level, right associativity) : js_scope.
Open Scope js_scope.

(** [try { body } catch { handler }] *)
Definition try_catch {A} (body : Outcome A) (handler : Exn -> Outcome A)
  : Outcome A :=
  match body with
  | Ok a => Ok a
  | Throw e => handler e
  end.

(** ToBoolean *)
Definition truthy (v : JsValue) : bool :=
  match v with
  | JUndefined | JNull => false
  | JBool b => b
  | JNum x => negb (PrimFloat.eqb x 0 || PrimFloat.is_nan x)
  | JStr s => negb (is_empty s)
  | JArr _ | JObj _ => true
  end.

(** [a || b] *)
Definition js_or (a b : JsValue) : JsValue := if truthy a then a else b.

Fixpoint lookup (k : jsstring) (props : list (jsstring * JsValue))
  : option JsValue :=
  match props with
  | [] => None
  | (k', v) :: r => if str_eqb k' k then Some v else lookup k r
  end.

(** [v[k]] / [v.k] for the property names the worker reads ([disc_label],
    [disc_type], [duration_secs], [track_count], [title], [year], [tmdb_id],
    [content], [sha]); none of them is defined on a built-in prototype, so on
    a string, number, boolean or array the read gives [undefined], and on
    [null] or [undefined] it throws. *)
Definition get_prop (v : JsValue) (k : jsstring) : Outcome JsValue :=
  match v with
  | JUndefined | JNull => Throw TypeError
  | JObj props =>
      Ok (match lookup k props with Some x => x | None => JUndefined end)
  | JBool _ | JNum _ | JStr _ | JArr _ => Ok JUndefined
  end.

(** [a === b] where the two operands do not alias: every comparison in the
    worker is between a value parsed from one text and a string literal, a
    query parameter, or a value parsed from another text.  Objects and arrays
    are compared by identity, hence never equal here. *)
Definition strict_eq (a b : JsValue) : bool :=
  match a, b with
  | JUndefined, JUndefined => true
  | JNull, JNull => true
  | JBool x, JBool y => Bool.eqb x y
  | JNum x, JNum y => PrimFloat.eqb x y
  | JStr x, JStr y => str_eqb x y
  | _, _ => false
  end.

Definition float_of_nat (n : nat) : float :=
  PrimFloat.of_uint63 (Uint63.of_Z (Z.of_nat n)).

Fixpoint join (sep : jsstring) (parts : list jsstring) : jsstring :=
  match parts with
  | [] => []
  | [p] => p
  | p :: r => p ++ sep ++ join sep r
  end.

(** ** The platform *)

Record Platform : Type := {
  (** [JSON.parse(text)]; [None] is a thrown SyntaxError *)
  JSON_parse : jsstring -> option JsValue;
  (** [JSON.stringify(value, null, space)]; [JSON.stringify(value)] is space 0 *)
  JSON_stringify : JsValue -> N -> jsstring;
  (** [atob(b64)]; [None] is a thrown InvalidCharacterError *)
  atob : jsstring -> option jsstring;
  (** [btoa(binary)]; [None] is a thrown InvalidCharacterError *)
  btoa : jsstring -> option jsstring;
  (** [parseInt(s)] *)
  parseInt : jsstring -> float;
  (** Number::toString and StringToNumber, used by the implicit conversions *)
  Number_toString : float -> jsstring;
  StringToNumber : jsstring -> float;
  (** [err.message] of an exception raised by the platform *)
  message : Exn -> jsstring
}.

(** ** The network

    [fetch(url, init)] sends a request and resolves to a response, or rejects
    when the network fails.  The remote hosts are an oracle [host]: given the
    requests already sent during this run and the next one, it answers.  A
    handler is a computation that may throw and that records the requests it
    sent, so that "no write was attempted" is a statement about its trace. *)

Record Request : Type := {
  req_method : jsstring;
  req_url : jsstring;
  req_headers : list (jsstring * jsstring);
  req_body : option jsstring
}.

(** What the worker reads of a fetched response: [response.ok] and the body,
    through [response.text()] or [response.json()]. *)
Record FetchResponse : Type := {
  ok : bool;
  text : jsstring
}.

(** The worker's own reply. *)
Record Response : Type := {
  body : option jsstring;
  status : N;
  headers : list (jsstring * jsstring)
}.

Definition Host := list Request -> Request -> Outcome FetchResponse.

Definition M (A : Type) : Type := list Request -> Outcome A * list Request.

Definition ret {A} (a : A) : M A := fun tr => (Ok a, tr).

Definition bind {A B} (c : M A) (k : A -> M B) : M B :=
  fun tr =>
    match c tr with
    | (Ok a, tr') => k a tr'
    | (Throw e, tr') => (Throw e, tr')
    end.

Definition lift {A} (c : Outcome A) : M A := fun tr => (c, tr).

Definition catch {A} (c : M A) (handler : Exn -> M A) : M A :=
  fun tr =>
    match c tr with
    | (Ok a, tr') => (Ok a, tr')
    | (Throw e, tr') => handler e tr'
    end.

Notation "x <- c ;; k" := (bind c (fun x => k))
  (at level 61, c at next level, right associativity) : js_scope.

Definition of_option {A} (e : Exn) (o : option A) : Outcome A :=
  match o with
  | Some a => Ok a
  | None => Throw e
  end.

(** ** The worker *)

Definition GITHUB_REPO : jsstring := js "paul-tastic/ripforge-disc-db".
Definition DB_FILE : jsstring := js "disc_database.jsonl".
Definition RAW_URL : jsstring :=
  js "https://raw.githubusercontent.com/" ++ GITHUB_REPO ++ js "/main/" ++ DB_FILE.
Definition CONTENTS_URL : jsstring :=
  js "https://api.github.com/repos/" ++ GITHUB_REPO ++ js "/contents/" ++ DB_FILE.

Definition corsHeaders : list (jsstring * jsstring) :=
  [ (js "Access-Control-Allow-Origin", js "*");
    (js "Access-Control-Allow-Methods", js "GET, POST, OPTIONS");
    (js "Access-Control-Allow-Headers", js "Content-Type") ].

(** [env]: the worker's bindings; [GITHUB_TOKEN] is a secret string or unset. *)
Record Env : Type := {
  GITHUB_TOKEN : option jsstring
}.

(** The inbound request as the router reads it: [request.method],
    [new URL(request.url).pathname], [url.searchParams] and
    [await request.json()]. *)
Record HttpRequest : Type := {
  method : jsstring;
  pathname : jsstring;
  searchParams : list (jsstring * jsstring);
  json : Outcome JsValue
}.

(** [url.searchParams.get(name)]: the first value of that name, or [null]. *)
Fixpoint searchParams_get (name : jsstring) (ps : list (jsstring * jsstring))
  : option jsstring :=
  match ps with
  | [] => None
  | (k, v) :: r => if str_eqb k name then Some v else searchParams_get name r
  end.

Definition required : list jsstring :=
  [js "disc_label"; js "disc_type"; js "duration_secs"; js "title"].

Section Worker.

Variable P : Platform.
Variable host : Host.

(** ToString, as a template literal applies it.  A value parsed from JSON
    holds no function, so on an object ToPrimitive finds a callable method
    only where the object inherits it: an object with an own [toString]
    property shadows [Object.prototype.toString] by a value that cannot be
    called, [valueOf] returns the object itself, and the conversion throws a
    TypeError; any other object gives [[object Object]].  An array inherits
    [Array.prototype.toString], which joins the conversions of its items,
    [undefined] and [null] as empty strings. *)
Fixpoint ToString (v : JsValue) : Outcome jsstring :=
  match v with
  | JUndefined => Ok (js "undefined")
  | JNull => Ok (js "null")
  | JBool true => Ok (js "true")
  | JBool false => Ok (js "false")
  | JNum x => Ok (Number_toString P x)
  | JStr s => Ok s
  | JArr items =>
      parts <-?
        (fix items_to_strings (l : list JsValue) : Outcome (list jsstring) :=
           match l with
           | [] => Ok []
           | i :: r =>
               p <-? match i with
                     | JUndefined | JNull => Ok []
                     | _ => ToString i
                     end ;;
               ps <-? items_to_strings r ;;
               Ok (p :: ps)
           end) items ;;
      Ok (join (js ",") parts)
  | JObj props =>
      match lookup (js "toString") props with
      | Some _ => Throw TypeError
      | None => Ok (js "[object Object]")
      end
  end.

(** ToNumber, as the [-] operator applies it.  On an object or an array
    ToPrimitive with hint number ends in the same string as with hint string,
    or in the same TypeError: [valueOf] is inherited and returns the object,
    or is an own value that cannot be called. *)
Definition ToNumber (v : JsValue) : Outcome float :=
  match v with
  | JUndefined => Ok nan
  | JNull => Ok 0%float
  | JBool true => Ok 1%float
  | JBool false => Ok 0%float
  | JNum x => Ok x
  | JStr s => Ok (StringToNumber P s)
  | JArr _ | JObj _ =>
      s <-? ToString v ;;
      Ok (StringToNumber P s)
  end.

Definition fetch_ (r : Request) : M FetchResponse :=
  fun tr => (host tr r, tr ++ [r]).

(** [response.json()] *)
Definition response_json (r : FetchResponse) : Outcome JsValue :=
  of_option SyntaxError (JSON_parse P (text r)).

(** [jsonResponse(data, status = 200)] *)
Definition jsonResponse (data : JsValue) (st : N) : Response :=
  {| body := Some (JSON_stringify P data 2);
     status := st;
     headers := (js "Content-Type", js "application/json") :: corsHeaders |}.

Definition raw_request : Request :=
  {| req_method := js "GET";
     req_url := RAW_URL;
     req_headers := [(js "User-Agent", js "RipForge-DiscDB-Worker")];
     req_body := None |}.

(** [lines.map(line => JSON.parse(line))]: the first unparseable line throws. *)
Fixpoint parse_lines (lines : list jsstring) : Outcome (list JsValue) :=
  match lines with
  | [] => Ok []
  | line :: r =>
      e <-? of_option SyntaxError (JSON_parse P line) ;;
      es <-? parse_lines r ;;
      Ok (e :: es)
  end.

Definition getDatabase : M Response :=
  response <- fetch_ raw_request ;;
  if negb (ok response) then
    ret (jsonResponse (JObj [(js "error", JStr (js "Failed to fetch database"))]) 500)
  else
    let text := text response in
    entries <- lift (parse_lines (blob_lines text)) ;;
    ret (jsonResponse
           (JObj [(js "count", JNum (float_of_nat (List.length entries)));
                  (js "entries", JArr entries)]) 200).

(** [entries.find(pred)]: the first element on which [pred] is true, or
    [undefined]; an exception in [pred] ends the scan. *)
Fixpoint find_ (pred : JsValue -> Outcome bool) (entries : list JsValue)
  : Outcome JsValue :=
  match entries with
  | [] => Ok JUndefined
  | e :: r =>
      b <-? pred e ;;
      if b then Ok e else find_ pred r
  end.

(** [e => e.disc_label === label] *)
Definition exact_pred (label : jsstring) (e : JsValue) : Outcome bool :=
  l <-? get_prop e (js "disc_label") ;;
  Ok (strict_eq l (JStr label)).

(** [e => Math.abs(e.duration_secs - duration) <= tolerance &&
          e.disc_type === 'dvd'] *)
Definition fuzzy_pred (duration tolerance : float) (e : JsValue)
  : Outcome bool :=
  d <-? get_prop e (js "duration_secs") ;;
  x <-? ToNumber d ;;
  if PrimFloat.leb (PrimFloat.abs (PrimFloat.sub x duration)) tolerance
  then
    t <-? get_prop e (js "disc_type") ;;
    Ok (strict_eq t (JStr (js "dvd")))
  else Ok false.

Definition lookupDisc (label : option jsstring) (duration : float)
  : M Response :=
  match label with
  | None | Some [] =>
      ret (jsonResponse (JObj [(js "error", JStr (js "Missing label parameter"))]) 400)
  | Some label =>
      response <- fetch_ raw_request ;;
      if negb (ok response) then
        ret (jsonResponse (JObj [(js "error", JStr (js "Failed to fetch database"))]) 500)
      else
        let text := text response in
        entries <- lift (parse_lines (blob_lines text)) ;;
        (* Exact label match *)
        match0 <- lift (find_ (exact_pred label) entries) ;;
        (* If no exact match and duration provided, try fuzzy match *)
        match1 <- (if negb (truthy match0) && PrimFloat.ltb 0 duration then
                     let tolerance := PrimFloat.mul duration 0.05 in
                     lift (find_ (fuzzy_pred duration tolerance) entries)
                   else ret match0) ;;
        if truthy match1 then
          ret (jsonResponse
                 (JObj [(js "found", JBool true); (js "entry", match1)]) 200)
        else
          ret (jsonResponse
                 (JObj [(js "found", JBool false);
                        (js "label", JStr label);
                        (js "duration", JNum duration)]) 200)
  end.

(** The validation loop: [for (const field of required)
    if (!data[field]) return ...]; the result is the first required field
    whose value is falsy, if any. *)
Fixpoint first_missing (data : JsValue) (fields : list jsstring)
  : Outcome (option jsstring) :=
  match fields with
  | [] => Ok None
  | field :: r =>
      v <-? get_prop data field ;;
      if negb (truthy v) then Ok (Some field) else first_missing data r
  end.

(** The object literal [entry]; [now] is [new Date().toISOString()]. *)
Definition make_entry (data : JsValue) (now : jsstring) : Outcome JsValue :=
  disc_label <-? get_prop data (js "disc_label") ;;
  disc_type <-? get_prop data (js "disc_type") ;;
  duration_secs <-? get_prop data (js "duration_secs") ;;
  track_count <-? get_prop data (js "track_count") ;;
  title <-? get_prop data (js "title") ;;
  year <-? get_prop data (js "year") ;;
  tmdb_id <-? get_prop data (js "tmdb_id") ;;
  Ok (JObj [ (js "disc_label", disc_label);
             (js "disc_type", disc_type);
             (js "duration_secs", duration_secs);
             (js "track_count", js_or track_count (JNum 0));
             (js "title", title);
             (js "year", js_or year JNull);
             (js "tmdb_id", js_or tmdb_id JNull);
             (js "contributed_at", JStr now) ]).

Definition file_request (token : jsstring) : Request :=
  {| req_method := js "GET";
     req_url := CONTENTS_URL;
     req_headers :=
       [ (js "Authorization", js "token " ++ token);
         (js "User-Agent", js "RipForge-DiscDB-Worker");
         (js "Accept", js "application/vnd.github.v3+json") ];
     req_body := None |}.

Definition update_request (token : jsstring) (payload : jsstring) : Request :=
  {| req_method := js "PUT";
     req_url := CONTENTS_URL;
     req_headers :=
       [ (js "Authorization", js "token " ++ token);
         (js "User-Agent", js "RipForge-DiscDB-Worker");
         (js "Accept", js "application/vnd.github.v3+json");
         (js "Content-Type", js "application/json") ];
     req_body := Some payload |}.

(** [array.some(pred)] *)
Fixpoint some_ (pred : jsstring -> Outcome bool) (lines : list jsstring)
  : Outcome bool :=
  match lines with
  | [] => Ok false
  | line :: r =>
      b <-? pred line ;;
      if b then Ok true else some_ pred r
  end.

(** [line => { try { const existing = JSON.parse(line);
                     return existing.disc_label === entry.disc_label; }
               catch { return false; } }] *)
Definition duplicate_pred (entry : JsValue) (line : jsstring) : Outcome bool :=
  try_catch
    (existing <-? of_option SyntaxError (JSON_parse P line) ;;
     a <-? get_prop existing (js "disc_label") ;;
     b <-? get_prop entry (js "disc_label") ;;
     Ok (strict_eq a b))
    (fun _ => Ok false).

(** [fileData.content.replace(/\n/g, '')]: only a string has [replace]. *)
Definition content_replace (content : JsValue) : Outcome jsstring :=
  match content with
  | JStr s => Ok (remove_newlines s)
  | _ => Throw TypeError
  end.

(** [`Add disc: ${entry.disc_label} -> ${entry.title}`]: each substitution
    is read and converted in turn. *)
Definition commit_message (entry : JsValue) : Outcome jsstring :=
  entry_label <-? get_prop entry (js "disc_label") ;;
  label_text <-? ToString entry_label ;;
  entry_title <-? get_prop entry (js "title") ;;
  title_text <-? ToString entry_title ;;
  Ok (js "Add disc: " ++ label_text ++ js " -> " ++ title_text).

(** [currentContent.trim() + '\n' + JSON.stringify(entry) + '\n'] *)
Definition newContent_of (currentContent : jsstring) (entry : JsValue)
  : jsstring :=
  trim currentContent ++ [LF] ++ JSON_stringify P entry 0 ++ [LF].

Definition contributeDisc (data : JsValue) (env : Env) (now : jsstring)
  : M Response :=
  (* Validate required fields *)
  missing <- lift (first_missing data required) ;;
  match missing with
  | Some field =>
      ret (jsonResponse
             (JObj [(js "error", JStr (js "Missing required field: " ++ field))]) 400)
  | None =>
  (* Check for GitHub token *)
  match GITHUB_TOKEN env with
  | None | Some [] =>
      ret (jsonResponse
             (JObj [(js "error", JStr (js "Server not configured for contributions"))]) 500)
  | Some token =>
  (* Prepare the entry *)
  entry <- lift (make_entry data now) ;;
  (* Get current file content *)
  fileResponse <- fetch_ (file_request token) ;;
  if negb (ok fileResponse) then
    ret (jsonResponse
           (JObj [(js "error", JStr (js "Failed to fetch current database"))]) 500)
  else
  fileData <- lift (response_json fileResponse) ;;
  content <- lift (get_prop fileData (js "content")) ;;
  stripped <- lift (content_replace content) ;;
  currentContent <- lift (of_option InvalidCharacterError (atob P stripped)) ;;
  (* Check for duplicates *)
  let existingEntries := blob_lines currentContent in
  isDuplicate <- lift (some_ (duplicate_pred entry) existingEntries) ;;
  if isDuplicate then
    ret (jsonResponse
           (JObj [(js "success", JBool true);
                  (js "message", JStr (js "Entry already exists"));
                  (js "duplicate", JBool true)]) 200)
  else
  (* Append new entry *)
  let newContent := newContent_of currentContent entry in
  (* Commit to GitHub *)
  message <- lift (commit_message entry) ;;
  encoded <- lift (of_option InvalidCharacterError (btoa P newContent)) ;;
  sha <- lift (get_prop fileData (js "sha")) ;;
  updateResponse <-
    fetch_ (update_request token
              (JSON_stringify P
                 (JObj [ (js "message", JStr message);
                         (js "content", JStr encoded);
                         (js "sha", sha) ]) 0)) ;;
  if negb (ok updateResponse) then
    let err := text updateResponse in
    ret (jsonResponse
           (JObj [(js "error", JStr (js "Failed to commit contribution"));
                  (js "details", JStr err)]) 500)
  else
    ret (jsonResponse
           (JObj [(js "success", JBool true);
                  (js "message", JStr (js "Contribution added"));
                  (js "entry", entry)]) 200)
  end
  end.

Definition api_info : JsValue :=
  JObj [ (js "name", JStr (js "RipForge Community Disc Database API"));
         (js "endpoints",
          JObj [ (js "GET /db", JStr (js "Get full database"));
                 (js "GET /lookup?label=X&duration=Y", JStr (js "Look up a disc"));
                 (js "POST /contribute", JStr (js "Submit a new disc mapping")) ]);
         (js "repo", JStr (js "https://github.com/" ++ GITHUB_REPO)) ].

(** [x || '0'] on the result of [searchParams.get] *)
Definition or_zero (x : option jsstring) : jsstring :=
  match x with
  | None | Some [] => js "0"
  | Some s => s
  end.

(** The exported [fetch(request, env)] handler. *)
Definition fetch (request : HttpRequest) (env : Env) (now : jsstring)
  : M Response :=
  if str_eqb (method request) (js "OPTIONS") then
    ret {| body := None; status := 200; headers := corsHeaders |}
  else
    let path := pathname request in
    catch
      (if str_eqb path (js "/db") && str_eqb (method request) (js "GET") then
         getDatabase
       else if str_eqb path (js "/lookup") && str_eqb (method request) (js "GET") then
         let label := searchParams_get (js "label") (searchParams request) in
         let duration :=
           parseInt P (or_zero (searchParams_get (js "duration") (searchParams request))) in
         lookupDisc label duration
       else if str_eqb path (js "/contribute") && str_eqb (method request) (js "POST") then
         data <- lift (json request) ;;
         contributeDisc data env now
       else if str_eqb path (js "/") || str_eqb path (js "") then
         ret (jsonResponse api_info 200)
       else
         ret (jsonResponse (JObj [(js "error", JStr (js "Not found"))]) 404))
      (fun err =>
         ret (jsonResponse (JObj [(js "error", JStr (message P err))]) 500)).

End Worker.

(** ** A reference platform

    An executable instance of [Platform], used to run the handlers on concrete
    requests: base64, JSON (objects whose keys are not array indices),
    [parseInt], Number::toString and StringToNumber, with numbers converted
    between decimal text and binary64 by correct rounding. *)

Module Ref.

Local Open Scope N_scope.

(** *** base64 *)

Definition b64_char (i : N) : N :=
  if i <? 26 then 65 + i
  else if i <? 52 then 97 + (i - 26)
  else if i <? 62 then 48 + (i - 52)
  else if i =? 62 then 43
  else 47.

Definition b64_index (c : N) : option N :=
  if (65 <=? c) && (c <=? 90) then Some (c - 65)
  else if (97 <=? c) && (c <=? 122) then Some (c - 71)
  else if (48 <=? c) && (c <=? 57) then Some (c + 4)
  else if c =? 43 then Some 62
  else if c =? 47 then Some 63
  else None.

Fixpoint b64_encode (s : list N) : list N :=
  match s with
  | [] => []
  | [a] => [b64_char (a / 4); b64_char ((a mod 4) * 16); 61; 61]
  | [a; b] =>
      [b64_char (a / 4); b64_char ((a mod 4) * 16 + b / 16);
       b64_char ((b mod 16) * 4); 61]
  | a :: b :: c :: r =>
      b64_char (a / 4) :: b64_char ((a mod 4) * 16 + b / 16)
      :: b64_char ((b mod 16) * 4 + c / 64) :: b64_char (c mod 64)
      :: b64_encode r
  end.

Definition btoa (s : jsstring) : option jsstring :=
  if forallb (fun c => c <=? 255) s then Some (b64_encode s) else None.

Fixpoint b64_indices (s : list N) : option (list N) :=
  match s with
  | [] => Some []
  | c :: r =>
      match b64_index c, b64_indices r with
      | Some i, Some ix => Some (i :: ix)
      | _, _ => None
      end
  end.

Fixpoint b64_decode (s : list N) : option (list N) :=
  match s with
  | [] => Some []
  | [_] => None
  | [a; b] => Some [a * 4 + b / 16]
  | [a; b; c] => Some [a * 4 + b / 16; (b mod 16) * 16 + c / 4]
  | a :: b :: c :: d :: r =>
      match b64_decode r with
      | Some t =>
          Some (a * 4 + b / 16 :: (b mod 16) * 16 + c / 4
                :: (c mod 4) * 64 + d :: t)
      | None => None
      end
  end.

Definition ascii_ws (c : N) : bool :=
  existsb (N.eqb c) [9; 10; 12; 13; 32].

(** Up to two [=] at the end are padding when the length is a multiple of 4. *)
Definition strip_padding (s : list N) : list N :=
  if (N.of_nat (List.length s) mod 4 =? 0) then
    match rev s with
    | 61 :: 61 :: r => rev r
    | 61 :: r => rev r
    | _ => s
    end
  else s.

Definition atob (s : jsstring) : option jsstring :=
  let s := strip_padding (filter (fun c => negb (ascii_ws c)) s) in
  match b64_indices s with
  | Some ix => b64_decode ix
  | None => None
  end.

(** *** numbers *)

Definition is_digit (c : N) : bool := (48 <=? c) && (c <=? 57).

Fixpoint take_digits (s : jsstring) : list N * jsstring :=
  match s with
  | c :: r =>
      if is_digit c then let (ds, rest) := take_digits r in (c :: ds, rest)
      else ([], s)
  | [] => ([], [])
  end.

Definition digits_value (ds : list N) : N :=
  fold_left (fun acc d => acc * 10 + (d - 48)) ds 0.

(** The double nearest to [m * 10^e], ties to even.  For a negative [e] the
    quotient is taken with more than 64 bits and a sticky bit, so that the one
    rounding done by [binary_normalize] is the correct one. *)
Definition decimal_to_float (m : N) (e : Z) : float :=
  if m =? 0 then 0%float
  else if (0 <=? e)%Z then
    SF2Prim (binary_normalize prec emax (Z.of_N m * 10 ^ e) 0 false)
  else
    let d := (10 ^ (- e))%Z in
    let s := (Z.log2 d + 65)%Z in
    let num := (Z.of_N m * 2 ^ s)%Z in
    let sticky := if (num mod d =? 0)%Z then 0%Z else 1%Z in
    SF2Prim (binary_normalize prec emax (2 * (num / d) + sticky) (- s - 1) false).

Definition float_of_N (n : N) : float := decimal_to_float n 0.

Definition signed (neg : bool) (x : float) : float :=
  if neg then PrimFloat.opp x else x.

Definition take_sign (s : jsstring) : bool * jsstring :=
  match s with
  | 45 :: r => (true, r)
  | 43 :: r => (false, r)
  | _ => (false, s)
  end.

Definition digit_in_radix (radix c : N) : option N :=
  let v := if is_digit c then Some (c - 48)
           else if (97 <=? c) && (c <=? 122) then Some (c - 87)
           else if (65 <=? c) && (c <=? 90) then Some (c - 55)
           else None in
  match v with
  | Some d => if d <? radix then Some d else None
  | None => None
  end.

(** The longest prefix of digits of the radix: their number and value. *)
Fixpoint take_radix_digits (radix : N) (s : jsstring) (count acc : N)
  : N * N * jsstring :=
  match s with
  | c :: r =>
      match digit_in_radix radix c with
      | Some d => take_radix_digits radix r (count + 1) (acc * radix + d)
      | None => (count, acc, s)
      end
  | [] => (count, acc, [])
  end.

Definition strip_radix_prefix (letter : N) (s : jsstring) : option jsstring :=
  match s with
  | 48 :: x :: r => if (x =? letter) || (x =? letter - 32) then Some r else None
  | _ => None
  end.

(** [parseInt(s)] without a radix argument. *)
Definition parseInt (s : jsstring) : float :=
  let (neg, r) := take_sign (trim_start s) in
  let (radix, r) := match strip_radix_prefix 120 r with
                    | Some r' => (16, r')
                    | None => (10, r)
                    end in
  match take_radix_digits radix r 0 0 with
  | (0, _, _) => nan
  | (_, v, _) => signed neg (float_of_N v)
  end.

(** [e] or [E], an optional sign and at least one digit. *)
Definition take_exponent (s : jsstring) : option (Z * jsstring) :=
  match s with
  | c :: r =>
      if (c =? 101) || (c =? 69) then
        let (neg, r') := take_sign r in
        match take_digits r' with
        | ([], _) => None
        | (ds, rest) =>
            let v := Z.of_N (digits_value ds) in
            Some (if neg then (- v)%Z else v, rest)
        end
      else None
  | [] => None
  end.

(** An unsigned decimal literal [int . frac e exp]: mantissa, decimal
    exponent, the numbers of integer and fraction digits, and the rest. *)
Definition take_decimal (s : jsstring) : N * Z * nat * nat * jsstring :=
  let (ip, r1) := take_digits s in
  let '(fp, dot, r2) :=
    match r1 with
    | 46 :: r => let (fp, r') := take_digits r in (fp, true, r')
    | _ => ([], false, r1)
    end in
  let '(ex, r3) :=
    match ip, fp with
    | [], [] => (0%Z, r2)
    | _, _ => match take_exponent r2 with
              | Some (ex, r) => (ex, r)
              | None => (0%Z, r2)
              end
    end in
  (digits_value (ip ++ fp), (ex - Z.of_nat (List.length fp))%Z,
   List.length ip, List.length fp,
   match ip, fp, dot with
   | [], [], true => s       (* a lone dot is no literal *)
   | _, _, _ => r3
   end).

(** StringToNumber. *)
Definition StringToNumber (s : jsstring) : float :=
  match trim s with
  | [] => 0%float
  | t =>
      match strip_radix_prefix 120 t, strip_radix_prefix 111 t,
            strip_radix_prefix 98 t with
      | Some r, _, _ =>
          match take_radix_digits 16 r 0 0 with
          | (0, _, _) => nan
          | (_, v, []) => float_of_N v
          | _ => nan
          end
      | _, Some r, _ =>
          match take_radix_digits 8 r 0 0 with
          | (0, _, _) => nan
          | (_, v, []) => float_of_N v
          | _ => nan
          end
      | _, _, Some r =>
          match take_radix_digits 2 r 0 0 with
          | (0, _, _) => nan
          | (_, v, []) => float_of_N v
          | _ => nan
          end
      | None, None, None =>
          let (neg, r) := take_sign t in
          if str_eqb r (js "Infinity") then signed neg infinity
          else
            match take_decimal r with
            | (m, e, ni, nf, []) =>
                match ni, nf with
                | O, O => nan
                | _, _ => signed neg (decimal_to_float m e)
                end
            | _ => nan
            end
      end
  end.

Fixpoint N_digits (fuel : nat) (n : N) (acc : list N) : list N :=
  match fuel with
  | O => acc
  | S f =>
      let acc' := (48 + n mod 10) :: acc in
      if n <? 10 then acc' else N_digits f (n / 10) acc'
  end.

Definition N_toString (n : N) : jsstring := N_digits 400 n [].

(** Comparison of [a * 10^i] with [b] for positive rationals given as
    fractions [an/ad] and [bn/bd]. *)
Definition pow10_times_le (i : Z) (an ad bn bd : Z) : bool :=
  if (0 <=? i)%Z then (an * 10 ^ i * bd <=? bn * ad)%Z
  else (an * bd <=? bn * ad * 10 ^ (- i))%Z.

(** The decimal exponent [n] with [10^(n-1) <= x < 10^n] for [x = xn/xd]. *)
Fixpoint adjust_up (fuel : nat) (xn xd n : Z) : Z :=
  match fuel with
  | O => n
  | S f => if pow10_times_le n 1 1 xn xd then adjust_up f xn xd (n + 1)%Z else n
  end.

Fixpoint adjust_down (fuel : nat) (xn xd n : Z) : Z :=
  match fuel with
  | O => n
  | S f =>
      if pow10_times_le (n - 1) 1 1 xn xd then n
      else adjust_down f xn xd (n - 1)%Z
  end.

Definition decimal_exponent (xn xd : Z) : Z :=
  let guess := ((Z.log2 xn - Z.log2 xd) * 30103 / 100000)%Z in
  adjust_up 8 xn xd (adjust_down 8 xn xd (guess + 2)%Z).

(** The shortest digit string that reads back as [x = xn/xd], as
    Number::toString chooses it: [(s, k, n)] with [k] digits [s] and decimal
    exponent [n]. *)
Fixpoint shortest_digits (fuel : nat) (x : float) (xn xd n k : Z)
  : N * Z * Z :=
  let shift := (k - n)%Z in
  let num := if (0 <=? shift)%Z then (xn * 10 ^ shift)%Z else xn in
  let den := if (0 <=? shift)%Z then xd else (xd * 10 ^ (- shift))%Z in
  let lo := (num / den)%Z in
  let hi := (lo + 1)%Z in
  let ok_lo := PrimFloat.eqb (decimal_to_float (Z.to_N lo) (n - k)) x in
  let ok_hi := PrimFloat.eqb (decimal_to_float (Z.to_N hi) (n - k)) x in
  let lo_closer := (2 * (num - lo * den) <=? den)%Z in
  let tie := (2 * (num - lo * den) =? den)%Z in
  let pick_hi :=
    if (hi =? 10 ^ k)%Z then (Z.to_N (10 ^ (k - 1)), k, (n + 1)%Z)
    else (Z.to_N hi, k, n) in
  let pick_lo := (Z.to_N lo, k, n) in
  let here :=
    match ok_lo, ok_hi with
    | true, true =>
        Some (if tie then (if Z.even lo then pick_lo else pick_hi)
              else if lo_closer then pick_lo else pick_hi)
    | true, false => Some pick_lo
    | false, true => Some pick_hi
    | false, false => None
    end in
  match here with
  | Some r => r
  | None =>
      match fuel with
      | O => pick_lo
      | S f => shortest_digits f x xn xd n (k + 1)%Z
      end
  end.

Definition zeros (n : Z) : jsstring := repeat 48 (Z.to_nat n).

Definition format_digits (ds : jsstring) (k n : Z) : jsstring :=
  if ((k <=? n) && (n <=? 21))%Z then ds ++ zeros (n - k)
  else if ((0 <? n) && (n <=? 21))%Z then
    firstn (Z.to_nat n) ds ++ [46] ++ skipn (Z.to_nat n) ds
  else if ((-6 <? n) && (n <=? 0))%Z then
    [48; 46] ++ zeros (- n) ++ ds
  else
    let e := (n - 1)%Z in
    let exp := [101; if (e <? 0)%Z then 45 else 43] ++ N_toString (Z.abs_N e) in
    match ds with
    | [d] => [d] ++ exp
    | d :: r => [d; 46] ++ r ++ exp
    | [] => exp
    end.

(** Number::toString, radix 10. *)
Definition Number_toString (x : float) : jsstring :=
  match Prim2SF x with
  | S754_nan => js "NaN"
  | S754_zero _ => js "0"
  | S754_infinity sg => if sg then js "-Infinity" else js "Infinity"
  | S754_finite sg m e =>
      let xn := if (0 <=? e)%Z then (Z.pos m * 2 ^ e)%Z else Z.pos m in
      let xd := if (0 <=? e)%Z then 1%Z else (2 ^ (- e))%Z in
      let n := decimal_exponent xn xd in
      let '(s, k, n') := shortest_digits 17 (PrimFloat.abs x) xn xd n 1 in
      (if sg then [45] else []) ++ format_digits (N_toString s) k n'
  end.

(** *** JSON.stringify *)

Definition hex_digit (n : N) : N := if n <? 10 then 48 + n else 87 + n.

Definition unicode_escape (c : N) : jsstring :=
  [92; 117; hex_digit (c / 4096); hex_digit ((c / 256) mod 16);
   hex_digit ((c / 16) mod 16); hex_digit (c mod 16)].

Definition is_high_surrogate (c : N) : bool := (55296 <=? c) && (c <=? 56319).
Definition is_low_surrogate (c : N) : bool := (56320 <=? c) && (c <=? 57343).

Definition quote_unit (c : N) : jsstring :=
  if c =? 34 then [92; 34]
  else if c =? 92 then [92; 92]
  else if c =? 8 then [92; 98]
  else if c =? 12 then [92; 102]
  else if c =? 10 then [92; 110]
  else if c =? 13 then [92; 114]
  else if c =? 9 then [92; 116]
  else if c <? 32 then unicode_escape c
  else if is_high_surrogate c || is_low_surrogate c then unicode_escape c
  else [c].

Fixpoint quote_units (s : jsstring) : jsstring :=
  match s with
  | [] => []
  | c :: r =>
      match r with
      | d :: r' =>
          if is_high_surrogate c && is_low_surrogate d
          then c :: d :: quote_units r'
          else quote_unit c ++ quote_units r
      | [] => quote_unit c
      end
  end.

Definition JSON_quote (s : jsstring) : jsstring :=
  34 :: quote_units s ++ [34].

Definition is_finite (x : float) : bool :=
  negb (PrimFloat.is_nan x || PrimFloat.is_infinity x).

Definition wrap (opening closing : N) (gap indent : jsstring)
    (parts : list jsstring) : jsstring :=
  match parts, gap with
  | [], _ => [opening; closing]
  | _, [] => opening :: join [44] parts ++ [closing]
  | _, _ =>
      opening :: LF :: (indent ++ gap)
      ++ join (44 :: LF :: indent ++ gap) parts
      ++ LF :: indent ++ [closing]
  end.

(** SerializeJSONProperty; [None] is [undefined]. *)
Fixpoint ser (gap indent : jsstring) (v : JsValue) {struct v}
  : option jsstring :=
  match v with
  | JUndefined => None
  | JNull => Some (js "null")
  | JBool b => Some (if b then js "true" else js "false")
  | JNum x => Some (if is_finite x then Number_toString x else js "null")
  | JStr s => Some (JSON_quote s)
  | JArr items =>
      Some (wrap 91 93 gap indent
              (map (fun i => match ser gap (indent ++ gap) i with
                             | Some t => t
                             | None => js "null"
                             end) items))
  | JObj props =>
      Some (wrap 123 125 gap indent
              (flat_map
                 (fun kv =>
                    match ser gap (indent ++ gap) (snd kv) with
                    | Some t =>
                        [JSON_quote (fst kv)
                         ++ (match gap with [] => [58] | _ => [58; 32] end)
                         ++ t]
                    | None => []
                    end) props))
  end.

Definition JSON_stringify (v : JsValue) (space : N) : jsstring :=
  match ser (repeat 32 (N.to_nat (N.min space 10))) [] v with
  | Some t => t
  | None => js "undefined"
  end.

(** *** JSON.parse *)

Definition json_ws (c : N) : bool := existsb (N.eqb c) [9; 10; 13; 32].

Fixpoint skip_ws (s : jsstring) : jsstring :=
  match s with
  | c :: r => if json_ws c then skip_ws r else s
  | [] => []
  end.

Fixpoint strip_prefix (lit s : jsstring) : option jsstring :=
  match lit, s with
  | [], _ => Some s
  | a :: lit', b :: s' => if a =? b then strip_prefix lit' s' else None
  | _ :: _, [] => None
  end.

Definition hex_value (c : N) : option N :=
  if is_digit c then Some (c - 48)
  else if (97 <=? c) && (c <=? 102) then Some (c - 87)
  else if (65 <=? c) && (c <=? 70) then Some (c - 55)
  else None.

Definition hex4 (a b c d : N) : option N :=
  match hex_value a, hex_value b, hex_value c, hex_value d with
  | Some w, Some x, Some y, Some z => Some (w * 4096 + x * 256 + y * 16 + z)
  | _, _, _, _ => None
  end.

Definition simple_escape (e : N) : option N :=
  if e =? 34 then Some 34
  else if e =? 92 then Some 92
  else if e =? 47 then Some 47
  else if e =? 98 then Some 8
  else if e =? 102 then Some 12
  else if e =? 110 then Some 10
  else if e =? 114 then Some 13
  else if e =? 116 then Some 9
  else None.

(** The characters of a string literal after its opening quote. *)
Fixpoint parse_chars (s : jsstring) (acc : jsstring)
  : option (jsstring * jsstring) :=
  match s with
  | [] => None
  | c :: r =>
      if c =? 34 then Some (rev acc, r)
      else if c =? 92 then
        match r with
        | e :: r' =>
            if e =? 117 then
              match r' with
              | h1 :: h2 :: h3 :: h4 :: r'' =>
                  match hex4 h1 h2 h3 h4 with
                  | Some u => parse_chars r'' (u :: acc)
                  | None => None
                  end
              | _ => None
              end
            else
              match simple_escape e with
              | Some u => parse_chars r' (u :: acc)
              | None => None
              end
        | [] => None
        end
      else if c <? 32 then None
      else parse_chars r (c :: acc)
  end.

(** A JSON number: [-? int frac? exp?], with no leading zero. *)
Definition parse_number (s : jsstring) : option (JsValue * jsstring) :=
  let (neg, r) := match s with 45 :: r => (true, r) | _ => (false, s) end in
  match take_digits r with
  | ([], _) => None
  | (d :: ds, r1) =>
      if (d =? 48) && negb (is_empty ds) then None
      else
        let frac :=
          match r1 with
          | 46 :: r' =>
              match take_digits r' with
              | ([], _) => None
              | (fp, r2) => Some (fp, r2)
              end
          | _ => Some ([], r1)
          end in
        match frac with
        | None => None
        | Some (fp, r2) =>
            let expo :=
              match r2 with
              | c :: _ =>
                  if (c =? 101) || (c =? 69) then
                    match take_exponent r2 with
                    | Some (ex, r3) => Some (ex, r3)
                    | None => None
                    end
                  else Some (0%Z, r2)
              | [] => Some (0%Z, r2)
              end in
            match expo with
            | None => None
            | Some (ex, r3) =>
                Some (JNum (signed neg
                              (decimal_to_float (digits_value ((d :: ds) ++ fp))
                                 (ex - Z.of_nat (List.length fp)))),
                      r3)
            end
        end
  end.

(** A later member of the same name replaces the value of the earlier one. *)
Fixpoint set_prop (k : jsstring) (v : JsValue)
    (props : list (jsstring * JsValue)) : list (jsstring * JsValue) :=
  match props with
  | [] => [(k, v)]
  | (k', v') :: r =>
      if str_eqb k' k then (k', v) :: r else (k', v') :: set_prop k v r
  end.

Fixpoint parse_value (fuel : nat) (s : jsstring) {struct fuel}
  : option (JsValue * jsstring) :=
  match fuel with
  | O => None
  | S f =>
      match skip_ws s with
      | [] => None
      | c :: r =>
          if c =? 34 then
            match parse_chars r [] with
            | Some (str, rest) => Some (JStr str, rest)
            | None => None
            end
          else if c =? 91 then
            match skip_ws r with
            | 93 :: rest => Some (JArr [], rest)
            | _ =>
                match parse_elems f r [] with
                | Some (items, rest) => Some (JArr items, rest)
                | None => None
                end
            end
          else if c =? 123 then
            match skip_ws r with
            | 125 :: rest => Some (JObj [], rest)
            | _ =>
                match parse_members f r [] with
                | Some (props, rest) => Some (JObj props, rest)
                | None => None
                end
            end
          else if (c =? 45) || is_digit c then parse_number (c :: r)
          else
            match strip_prefix (js "null") (c :: r) with
            | Some rest => Some (JNull, rest)
            | None =>
            match strip_prefix (js "true") (c :: r) with
            | Some rest => Some (JBool true, rest)
            | None =>
            match strip_prefix (js "false") (c :: r) with
            | Some rest => Some (JBool false, rest)
            | None => None
            end end end
      end
  end

with parse_elems (fuel : nat) (s : jsstring) (acc : list JsValue)
    {struct fuel} : option (list JsValue * jsstring) :=
  match fuel with
  | O => None
  | S f =>
      match parse_value f s with
      | Some (v, rest) =>
          match skip_ws rest with
          | 44 :: rest' => parse_elems f rest' (v :: acc)
          | 93 :: rest' => Some (rev (v :: acc), rest')
          | _ => None
          end
      | None => None
      end
  end

with parse_members (fuel : nat) (s : jsstring)
    (acc : list (jsstring * JsValue)) {struct fuel}
  : option (list (jsstring * JsValue) * jsstring) :=
  match fuel with
  | O => None
  | S f =>
      match skip_ws s with
      | 34 :: r =>
          match parse_chars r [] with
          | Some (k, rest) =>
              match skip_ws rest with
              | 58 :: rest' =>
                  match parse_value f rest' with
                  | Some (v, rest'') =>
                      match skip_ws rest'' with
                      | 44 :: t => parse_members f t (set_prop k v acc)
                      | 125 :: t => Some (set_prop k v acc, t)
                      | _ => None
                      end
                  | None => None
                  end
              | _ => None
              end
          | None => None
          end
      | _ => None
      end
  end.

Definition JSON_parse (s : jsstring) : option JsValue :=
  match parse_value (2 * List.length s + 2) s with
  | Some (v, rest) => if is_empty (skip_ws rest) then Some v else None
  | None => None
  end.

Definition message (e : Exn) : jsstring :=
  match e with
  | TypeError => js "Cannot read properties of null"
  | SyntaxError => js "Unexpected token in JSON"
  | InvalidCharacterError => js "Invalid character"
  | NetworkError => js "Network connection lost"
  end.

Definition platform : Platform :=
  Build_Platform JSON_parse JSON_stringify atob btoa parseInt
    Number_toString StringToNumber message.

End Ref.


(** ** Vocabulary of the properties *)

(** [null] and [undefined]: the values on which a property read throws. *)
Definition nullish (v : JsValue) : Prop := v = JNull \/ v = JUndefined.

(** What [trim] leaves is empty or starts and ends with a kept code unit. *)
Definition tight (m : jsstring) : Prop :=
  match m with
  | [] => True
  | c :: _ => is_ws c = false /\ is_ws (last m c) = false
  end.

(** A serialized record occupies one line: it is not empty, holds no line
    feed, and neither starts nor ends with a code unit that [trim] removes
    (a [JSON.stringify] of an object starts with a brace and ends with one). *)
Definition one_line (s : jsstring) : bool :=
  match s with
  | [] => false
  | c :: _ =>
      negb (is_ws c) && negb (is_ws (last s c))
      && forallb (fun x => negb (N.eqb x LF)) s
  end.

(** Step 3 of a contribution succeeded: the credential is configured, the
    contents API answered the authenticated read with [fileData], and its
    [content] decodes to the blob [cur]. *)
Definition reads_blob (P : Platform) (host : Host) (env : Env)
    (token : jsstring) (fileData : JsValue) (cur : jsstring) : Prop :=
  GITHUB_TOKEN env = Some token /\ token <> [] /\
  exists fileResponse b64,
    host [] (file_request token) = Ok fileResponse /\
    ok fileResponse = true /\
    JSON_parse P (text fileResponse) = Some fileData /\
    get_prop fileData (js "content") = Ok (JStr b64) /\
    atob P (remove_newlines b64) = Some cur.

(** The [disc_label] strings of the parseable record lines of a blob, in
    line order. *)
Definition label_of_line (P : Platform) (line : jsstring) : list jsstring :=
  match JSON_parse P line with
  | Some existing =>
      match get_prop existing (js "disc_label") with
      | Ok (JStr l) => [l]
      | _ => []
      end
  | None => []
  end.

Definition labels (P : Platform) (blob : jsstring) : list jsstring :=
  flat_map (label_of_line P) (blob_lines blob).

(** The request body of the conditional update: the commit message, the
    encoded new content and the version token. *)
Definition update_payload (P : Platform) (message encoded : jsstring)
    (sha : JsValue) : jsstring :=
  JSON_stringify P
    (JObj [ (js "message", JStr message);
            (js "content", JStr encoded);
            (js "sha", sha) ]) 0.

(** The test the duplicate scan applies to one line, exceptions caught. *)
Definition same_label (P : Platform) (entry : JsValue) (line : jsstring)
  : bool :=
  match JSON_parse P line with
  | Some existing =>
      match get_prop existing (js "disc_label"),
            get_prop entry (js "disc_label") with
      | Ok a, Ok b => strict_eq a b
      | _, _ => false
      end
  | None => false
  end.

(** The normalized record built from the properties of a request body. *)
Definition entry_of (data : JsValue) (now : jsstring) : JsValue :=
  let field k := match get_prop data k with
                 | Ok v => v
                 | Throw _ => JUndefined
                 end in
  JObj [ (js "disc_label", field (js "disc_label"));
         (js "disc_type", field (js "disc_type"));
         (js "duration_secs", field (js "duration_secs"));
         (js "track_count", js_or (field (js "track_count")) (JNum 0));
         (js "title", field (js "title"));
         (js "year", js_or (field (js "year")) JNull);
         (js "tmdb_id", js_or (field (js "tmdb_id")) JNull);
         (js "contributed_at", JStr now) ].

Definition duplicate_response (P : Platform) : Response :=
  jsonResponse P
    (JObj [(js "success", JBool true);
           (js "message", JStr (js "Entry already exists"));
           (js "duplicate", JBool true)]) 200.

Definition added_response (P : Platform) (entry : JsValue) : Response :=
  jsonResponse P
    (JObj [(js "success", JBool true);
           (js "message", JStr (js "Contribution added"));
           (js "entry", entry)]) 200.

Definition commit_failed_response (P : Platform) (details : jsstring)
  : Response :=
  jsonResponse P
    (JObj [(js "error", JStr (js "Failed to commit contribution"));
           (js "details", JStr details)]) 500.

(** The ways a contribution that has read the blob [cur] can end: a duplicate
    is answered without a write; otherwise the commit message is built and the
    new content encoded, either of which can throw before anything is sent;
    then one conditional update is sent and the host's answer decides. *)
Definition contribute_outcome (P : Platform) (host : Host)
    (token : jsstring) (entry sha : JsValue) (cur : jsstring)
  : Outcome Response * list Request :=
  if existsb (same_label P entry) (blob_lines cur) then
    (Ok (duplicate_response P), [file_request token])
  else
    match commit_message P entry with
    | Throw e => (Throw e, [file_request token])
    | Ok message =>
        match btoa P (newContent_of P cur entry) with
        | None => (Throw InvalidCharacterError, [file_request token])
        | Some encoded =>
            let put :=
              update_request token (update_payload P message encoded sha) in
            match host [file_request token] put with
            | Ok upd =>
                (Ok (if ok upd then added_response P entry
                     else commit_failed_response P (text upd)),
                 [file_request token; put])
            | Throw e => (Throw e, [file_request token; put])
            end
        end
    end.

Definition found_response (P : Platform) (entry : JsValue) : Response :=
  jsonResponse P (JObj [(js "found", JBool true); (js "entry", entry)]) 200.

Definition not_found_response (P : Platform) (label : jsstring)
    (duration : float) : Response :=
  jsonResponse P
    (JObj [(js "found", JBool false);
           (js "label", JStr label);
           (js "duration", JNum duration)]) 200.

(** The anonymous snapshot path answered with the blob [blob]. *)
Definition serves_snapshot (host : Host) (blob : jsstring) : Prop :=
  exists response,
    host [] raw_request = Ok response /\ ok response = true /\
    text response = blob.

(** The fuzzy test of [lookupDisc] on one record whose [duration_secs]
    converts to a number. *)
Definition within_tolerance (P : Platform) (duration : float) (e : JsValue)
  : bool :=
  match get_prop e (js "duration_secs") with
  | Ok d =>
      match ToNumber P d with
      | Ok x =>
          PrimFloat.leb (PrimFloat.abs (PrimFloat.sub x duration))
            (PrimFloat.mul duration 0.05)
      | Throw _ => false
      end
  | Throw _ => false
  end.

(** The [duration_secs] of a record converts to a number: the subtraction of
    the fuzzy test does not throw on it. *)
Definition duration_converts (P : Platform) (e : JsValue) : Prop :=
  exists d x, get_prop e (js "duration_secs") = Ok d /\ ToNumber P d = Ok x.

(** [field] is the first required field, in the order of [required], whose
    value in [data] is falsy (absent, [null], [false], [0], [NaN] or the empty
    string). *)
Definition first_falsy (data : JsValue) (field : jsstring) : Prop :=
  exists pre post,
    required = pre ++ field :: post /\
    Forall (fun f => exists v, get_prop data f = Ok v /\ truthy v = true) pre /\
    exists v, get_prop data field = Ok v /\ truthy v = false.

Definition missing_field_response (P : Platform) (field : jsstring)
  : Response :=
  jsonResponse P
    (JObj [(js "error", JStr (js "Missing required field: " ++ field))]) 400.

(** The field names of the disc record, in the order of the object literal. *)
Definition schema : list jsstring :=
  [js "disc_label"; js "disc_type"; js "duration_secs"; js "track_count";
   js "title"; js "year"; js "tmdb_id"; js "contributed_at"].

(** The reply to a CORS preflight: [new Response(null, { headers })]. *)
Definition preflight_response : Response :=
  {| body := None; status := 200; headers := corsHeaders |}.

(** A reply built by [jsonResponse] with one of the statuses the worker
    uses. *)
Definition json_reply (P : Platform) (r : Response) : Prop :=
  exists data st,
    r = jsonResponse P data st /\ In st [200; 400; 404; 500]%N.

(** Every reply a computation returns satisfies [Q]. *)
Definition replies (Q : Response -> Prop) (c : M Response) : Prop :=
  forall tr r tr', c tr = (Ok r, tr') -> Q r.

(** The test of the exact scan and the test of the fuzzy scan, as booleans
    on a record. *)
Definition has_label (label : jsstring) (e : JsValue) : bool :=
  match get_prop e (js "disc_label") with
  | Ok l => strict_eq l (JStr label)
  | Throw _ => false
  end.

Definition qualifies (P : Platform) (duration : float) (e : JsValue) : bool :=
  within_tolerance P duration e
  && match get_prop e (js "disc_type") with
     | Ok t => strict_eq t (JStr (js "dvd"))
     | Throw _ => false
     end.

(** The reply of [getDatabase] for the parsed entries. *)
Definition database_response (P : Platform) (entries : list JsValue)
  : Response :=
  jsonResponse P
    (JObj [(js "count", JNum (float_of_nat (List.length entries)));
           (js "entries", JArr entries)]) 200.

Definition not_configured_response (P : Platform) : Response :=
  jsonResponse P
    (JObj [(js "error", JStr (js "Server not configured for contributions"))]) 500.

Definition missing_label_response (P : Platform) : Response :=
  jsonResponse P (JObj [(js "error", JStr (js "Missing label parameter"))]) 400.

Definition not_found_route_response (P : Platform) : Response :=
  jsonResponse P (JObj [(js "error", JStr (js "Not found"))]) 404.

Definition read_failed_response (P : Platform) : Response :=
  jsonResponse P
    (JObj [(js "error", JStr (js "Failed to fetch current database"))]) 500.

Definition fetch_failed_response (P : Platform) : Response :=
  jsonResponse P (JObj [(js "error", JStr (js "Failed to fetch database"))]) 500.

(** ** Sample data

    Requests and blobs on which the handlers are run with the reference
    platform. *)

Module Sample.

(** JSON text written with an apostrophe for the double quote. *)
Definition json_text (s : string) : jsstring :=
  map (fun c => if N.eqb c 39 then 34%N else c) (js s).

(** The record of the README. *)
Definition santa_line : jsstring :=
  json_text "{'disc_label':'SC30NNW1','disc_type':'dvd','duration_secs':5501,'track_count':12,'title':'The Santa Clause 3: The Escape Clause','year':2006,'tmdb_id':10431,'contributed_at':'2026-01-23T14:23:13Z'}".

Definition santa : JsValue :=
  JObj [ (js "disc_label", JStr (js "SC30NNW1"));
         (js "disc_type", JStr (js "dvd"));
         (js "duration_secs", JNum 5501);
         (js "track_count", JNum 12);
         (js "title", JStr (js "The Santa Clause 3: The Escape Clause"));
         (js "year", JNum 2006);
         (js "tmdb_id", JNum 10431);
         (js "contributed_at", JStr (js "2026-01-23T14:23:13Z")) ].

(** A Blu-ray of the same running time, and a DVD one minute longer. *)
Definition bluray_line : jsstring :=
  json_text "{'disc_label':'SANTA_BD','disc_type':'bluray','duration_secs':5501,'track_count':14,'title':'The Santa Clause 3: The Escape Clause','year':2006,'tmdb_id':10431,'contributed_at':'2026-02-01T09:00:00Z'}".

Definition bluray : JsValue :=
  JObj [ (js "disc_label", JStr (js "SANTA_BD"));
         (js "disc_type", JStr (js "bluray"));
         (js "duration_secs", JNum 5501);
         (js "track_count", JNum 14);
         (js "title", JStr (js "The Santa Clause 3: The Escape Clause"));
         (js "year", JNum 2006);
         (js "tmdb_id", JNum 10431);
         (js "contributed_at", JStr (js "2026-02-01T09:00:00Z")) ].

Definition other_dvd_line : jsstring :=
  json_text "{'disc_label':'DISC_7','disc_type':'dvd','duration_secs':5561,'track_count':9,'title':'Elf','year':2003,'tmdb_id':10719,'contributed_at':'2026-02-02T09:00:00Z'}".

Definition other_dvd : JsValue :=
  JObj [ (js "disc_label", JStr (js "DISC_7"));
         (js "disc_type", JStr (js "dvd"));
         (js "duration_secs", JNum 5561);
         (js "track_count", JNum 9);
         (js "title", JStr (js "Elf"));
         (js "year", JNum 2003);
         (js "tmdb_id", JNum 10719);
         (js "contributed_at", JStr (js "2026-02-02T09:00:00Z")) ].

(** A line that is not JSON. *)
Definition broken_line : jsstring := json_text "{'disc_label':'SC30".

Definition blob_of (lines : list jsstring) : jsstring :=
  flat_map (fun l => l ++ [LF]) lines.

(** The database holding the README's record alone. *)
Definition santa_blob : jsstring := blob_of [santa_line].

(** The static file host serving [blob]. *)
Definition snapshot_host (blob : jsstring) : Host :=
  fun _ _ => Ok {| ok := true; text := blob |}.

(** What the contents API returns for a file: its base64 content
    (line-broken, as the API sends it) and its version token. *)
Definition file_data (blob sha : jsstring) : JsValue :=
  JObj [ (js "content",
          JStr (match Ref.btoa blob with
                | Some b => b ++ [LF]
                | None => []
                end));
         (js "sha", JStr sha) ].

(** The contents API over a blob with version token [sha]: the read answers
    with [file_data]; the update is answered by [accept]. *)
Definition contents_host (blob sha : jsstring) (accept : bool) : Host :=
  fun tr _ =>
    match tr with
    | [] =>
        Ok {| ok := true;
              text := Ref.JSON_stringify (file_data blob sha) 0 |}
    | _ =>
        Ok {| ok := accept;
              text := if accept then js "{}"
                      else json_text "{'message':'is at a different sha','status':'409'}" |}
    end.

(** The base64 text of the content that contributing [entry] to [blob]
    submits. *)
Definition encoded_append (blob : jsstring) (entry : JsValue) : jsstring :=
  match Ref.btoa (newContent_of Ref.platform blob entry) with
  | Some e => e
  | None => []
  end.

Definition env : Env := {| GITHUB_TOKEN := Some (js "ghp_secret") |}.

Definition now : jsstring := js "2026-03-01T12:00:00.000Z".

(** A contribution carrying its own [contributed_at] and a field outside
    the schema. *)
Definition elf_input : JsValue :=
  JObj [ (js "disc_label", JStr (js "ELF_2003"));
         (js "disc_type", JStr (js "dvd"));
         (js "duration_secs", JNum 5820);
         (js "title", JStr (js "Elf"));
         (js "contributed_at", JStr (js "1999-01-01T00:00:00Z"));
         (js "path", JStr (js "/home/me/rips")) ].

Definition elf_entry : JsValue :=
  JObj [ (js "disc_label", JStr (js "ELF_2003"));
         (js "disc_type", JStr (js "dvd"));
         (js "duration_secs", JNum 5820);
         (js "track_count", JNum 0);
         (js "title", JStr (js "Elf"));
         (js "year", JNull);
         (js "tmdb_id", JNull);
         (js "contributed_at", JStr now) ].

(** The update that contributing [elf_input] to [blob] at version [sha]
    sends. *)
Definition elf_update (blob sha : jsstring) : Request :=
  {| req_method := js "PUT";
     req_url :=
       js "https://api.github.com/repos/paul-tastic/ripforge-disc-db/contents/disc_database.jsonl";
     req_headers :=
       [ (js "Authorization", js "token ghp_secret");
         (js "User-Agent", js "RipForge-DiscDB-Worker");
         (js "Accept", js "application/vnd.github.v3+json");
         (js "Content-Type", js "application/json") ];
     req_body :=
       Some (Ref.JSON_stringify
               (JObj [ (js "message", JStr (js "Add disc: ELF_2003 -> Elf"));
                       (js "content", JStr (encoded_append blob elf_entry));
                       (js "sha", JStr sha) ]) 0) |}.

(** A second submission of the README's label. *)
Definition santa_again : JsValue :=
  JObj [ (js "disc_label", JStr (js "SC30NNW1"));
         (js "disc_type", JStr (js "dvd"));
         (js "duration_secs", JNum 5500);
         (js "title", JStr (js "Santa Clause 3")) ].

(** All four required fields present, with a duration of zero seconds. *)
Definition zero_duration_input : JsValue :=
  JObj [ (js "disc_label", JStr (js "EMPTY_DISC"));
         (js "disc_type", JStr (js "dvd"));
         (js "duration_secs", JNum 0);
         (js "title", JStr (js "Blank")) ].

End Sample.

(** Inputs outside the data model. *)

Module Odd.

(** A contribution whose label is an array. *)
Definition array_label_input : JsValue :=
  JObj [ (js "disc_label", JArr [JStr (js "SC30NNW1")]);
         (js "disc_type", JStr (js "dvd"));
         (js "duration_secs", JNum 5501);
         (js "title", JStr (js "Santa Clause 3")) ].

(** The database after that contribution has been stored once. *)
Definition array_label_blob : jsstring :=
  newContent_of Ref.platform [] (entry_of array_label_input Sample.now).

(** A contribution whose label is an object with an own [toString]. *)
Definition shadowed_label_input : JsValue :=
  JObj [ (js "disc_label", JObj [(js "toString", JNum 1)]);
         (js "disc_type", JStr (js "dvd"));
         (js "duration_secs", JNum 5501);
         (js "title", JStr (js "Santa Clause 3")) ].

(** A record whose duration is such an object. *)
Definition shadowed_duration_line : jsstring :=
  Sample.json_text "{'disc_label':'ODD_1','disc_type':'dvd','duration_secs':{'toString':1},'title':'Odd'}".

Definition shadowed_duration : JsValue :=
  JObj [ (js "disc_label", JStr (js "ODD_1"));
         (js "disc_type", JStr (js "dvd"));
         (js "duration_secs", JObj [(js "toString", JNum 1)]);
         (js "title", JStr (js "Odd")) ].

(** Records without a duration. *)
Definition no_duration_line : jsstring :=
  Sample.json_text "{'disc_label':'NO_DURATION','disc_type':'dvd','title':'Untimed'}".

Definition no_duration : JsValue :=
  JObj [ (js "disc_label", JStr (js "NO_DURATION"));
         (js "disc_type", JStr (js "dvd"));
         (js "title", JStr (js "Untimed")) ].

End Odd.

(** ** Strings: equality, trimming, splitting *)

Lemma str_eqb_refl (a : jsstring) : str_eqb a a = true.
Proof.
  induction a as [|x a IH]; simpl; [reflexivity|].
  now rewrite N.eqb_refl, IH.
Qed.

Lemma str_eqb_eq (a b : jsstring) : str_eqb a b = true <-> a = b.
Proof.
  split.
  - revert b; induction a as [|x a IH]; intros [|y b]; simpl; try discriminate; auto.
    intros H. apply andb_true_iff in H as [Hx Hr].
    apply N.eqb_eq in Hx. f_equal; auto.
  - intros ->. apply str_eqb_refl.
Qed.

Lemma str_eqb_neq (a b : jsstring) : str_eqb a b = false <-> a <> b.
Proof.
  split.
  - intros H E. apply str_eqb_eq in E. congruence.
  - intros H. destruct (str_eqb a b) eqn:E; [|reflexivity].
    apply str_eqb_eq in E. contradiction.
Qed.

(** The code units [trim] removes. *)
Lemma is_ws_spec (c : N) :
  is_ws c = true <->
  In c [9; 10; 11; 12; 13; 32; 160; 5760; 8192; 8193; 8194; 8195; 8196; 8197;
        8198; 8199; 8200; 8201; 8202; 8232; 8233; 8239; 8287; 12288; 65279]%N.
Proof.
  unfold is_ws. rewrite existsb_exists. split.
  - intros (x & Hx & E). apply N.eqb_eq in E. now subst.
  - intros H. exists c. split; [exact H|apply N.eqb_refl].
Qed.

Lemma trim_start_all_ws (p : jsstring) :
  forallb is_ws p = true -> forall s, trim_start (p ++ s) = trim_start s.
Proof.
  induction p as [|c p IH]; simpl; intros H s; [reflexivity|].
  apply andb_true_iff in H as [Hc Hp]. rewrite Hc. now apply IH.
Qed.

Lemma trim_start_stop (c : N) (r : jsstring) :
  is_ws c = false -> trim_start (c :: r) = c :: r.
Proof. intros H. simpl. now rewrite H. Qed.

Lemma trim_start_head (s : jsstring) :
  match trim_start s with
  | [] => True
  | c :: _ => is_ws c = false
  end.
Proof.
  induction s as [|c s IH]; simpl; [exact I|].
  destruct (is_ws c) eqn:E; [exact IH|exact E].
Qed.

Lemma trim_start_keeps_last (x : jsstring) (c : N) :
  is_ws c = false -> exists x', trim_start (x ++ [c]) = x' ++ [c].
Proof.
  intros Hc. induction x as [|a x IH]; simpl.
  - rewrite Hc. now exists [].
  - destruct (is_ws a); [exact IH|]. now exists (a :: x).
Qed.

Lemma tight_trim (s : jsstring) : tight (trim s).
Proof.
  unfold trim, trim_end.
  pose proof (trim_start_head s) as Hs.
  destruct (trim_start s) as [|c r] eqn:Es; [exact I|].
  replace (rev (c :: r)) with (rev r ++ [c]) by reflexivity.
  destruct (trim_start_keeps_last (rev r) c Hs) as [x' Hx'].
  rewrite Hx', rev_app_distr.
  change (rev [c] ++ rev x') with (c :: rev x').
  split; [exact Hs|].
  pose proof (trim_start_head (rev r ++ [c])) as Hh. rewrite Hx' in Hh.
  destruct x' as [|a x'].
  - exact Hs.
  - simpl in Hh.
    change (c :: rev (a :: x')) with ((c :: rev x') ++ [a]).
    rewrite last_last. exact Hh.
Qed.

Lemma forallb_rev_true (f : N -> bool) (q : jsstring) :
  forallb f q = true -> forallb f (rev q) = true.
Proof.
  rewrite !forallb_forall. intros H x Hx. apply H. now apply in_rev.
Qed.

Lemma trim_frame (p m q : jsstring) :
  forallb is_ws p = true -> forallb is_ws q = true -> tight m ->
  trim (p ++ m ++ q) = m.
Proof.
  intros Hp Hq Hm. unfold trim, trim_end.
  rewrite trim_start_all_ws by exact Hp.
  destruct m as [|c m].
  - simpl.
    assert (E : trim_start q = []).
    { rewrite <- (app_nil_r q). rewrite trim_start_all_ws by exact Hq. reflexivity. }
    now rewrite E.
  - destruct Hm as [Hc Hl].
    change ((c :: m) ++ q) with (c :: (m ++ q)).
    rewrite trim_start_stop by exact Hc.
    change (c :: m ++ q) with ((c :: m) ++ q).
    rewrite rev_app_distr.
    rewrite trim_start_all_ws by (apply forallb_rev_true; exact Hq).
    destruct (rev (c :: m)) as [|d w] eqn:Er.
    + apply (f_equal (@rev N)) in Er. rewrite rev_involutive in Er. discriminate.
    + assert (Hd : d = last (c :: m) c).
      { apply (f_equal (@rev N)) in Er. rewrite rev_involutive in Er.
        rewrite Er. simpl. now rewrite last_last. }
      rewrite trim_start_stop by (rewrite Hd; exact Hl).
      rewrite <- Er. apply rev_involutive.
Qed.

Lemma split_on_not_nil (sep : N) (s : jsstring) : split_on sep s <> [].
Proof.
  destruct s as [|c r]; simpl; [discriminate|].
  destruct (N.eqb c sep); [discriminate|].
  destruct (split_on sep r); discriminate.
Qed.

Lemma split_on_app_sep (sep : N) (a b : jsstring) :
  split_on sep (a ++ sep :: b) = split_on sep a ++ split_on sep b.
Proof.
  induction a as [|c a IH]; simpl.
  - now rewrite N.eqb_refl.
  - destruct (N.eqb c sep); [now rewrite IH|].
    rewrite IH. pose proof (split_on_not_nil sep a) as Hn.
    destruct (split_on sep a) as [|h t]; [contradiction|reflexivity].
Qed.

Lemma split_on_no_sep (sep : N) (s : jsstring) :
  forallb (fun x => negb (N.eqb x sep)) s = true -> split_on sep s = [s].
Proof.
  induction s as [|c s IH]; simpl; intros H; [reflexivity|].
  apply andb_true_iff in H as [Hc Hs].
  apply negb_true_iff in Hc. rewrite Hc, (IH Hs). reflexivity.
Qed.

Lemma one_line_spec (s : jsstring) :
  one_line s = true ->
  s <> [] /\ tight s /\ forallb (fun x => negb (N.eqb x LF)) s = true.
Proof.
  destruct s as [|c r]; [discriminate|].
  unfold one_line. intros H.
  apply andb_true_iff in H as [H Hlf]. apply andb_true_iff in H as [Hc Hl].
  apply negb_true_iff in Hc, Hl.
  split; [discriminate|]. split; [split; assumption|exact Hlf].
Qed.

Lemma tight_app (a b : jsstring) :
  a <> [] -> b <> [] -> tight a -> tight b -> forall mid, tight (a ++ mid ++ b).
Proof.
  intros Ha Hb Hta Htb mid.
  destruct a as [|c a]; [contradiction|]. destruct Hta as [Hc _].
  destruct b as [|d b]; [contradiction|]. destruct Htb as [_ Hl].
  destruct (exists_last (l := d :: b)) as [w [z Hw]]; [discriminate|].
  rewrite Hw in *. rewrite last_last in Hl.
  assert (G : is_ws (last ((c :: a) ++ mid ++ w ++ [z]) c) = false).
  { rewrite !app_assoc. rewrite last_last. exact Hl. }
  exact (conj Hc G).
Qed.

Lemma trim_start_split (s : jsstring) :
  exists p, s = p ++ trim_start s /\ forallb is_ws p = true.
Proof.
  induction s as [|c s (p & Hs & Hp)]; simpl.
  - now exists [].
  - destruct (is_ws c) eqn:Ec.
    + exists (c :: p). simpl. rewrite Ec, Hp. split; [now f_equal|reflexivity].
    + now exists [].
Qed.

Lemma trim_split (s : jsstring) :
  exists p q,
    s = p ++ trim s ++ q /\ forallb is_ws p = true /\ forallb is_ws q = true.
Proof.
  destruct (trim_start_split s) as (p & Hs & Hp).
  destruct (trim_start_split (rev (trim_start s))) as (q & Hr & Hq).
  exists p, (rev q). repeat split.
  - unfold trim, trim_end. rewrite <- rev_app_distr, <- Hr, rev_involutive.
    exact Hs.
  - exact Hp.
  - now apply forallb_rev_true.
Qed.

Lemma forallb_app_true (f : N -> bool) (a b : jsstring) :
  forallb f a = true -> forallb f b = true -> forallb f (a ++ b) = true.
Proof. intros Ha Hb. rewrite forallb_app, Ha, Hb. reflexivity. Qed.

(** Appending a one-line record to a blob the way [contributeDisc] does keeps
    every record line, in order, and adds the record as the final line. *)
Lemma blob_lines_append (cur line : jsstring) :
  one_line line = true ->
  blob_lines (trim cur ++ [LF] ++ line ++ [LF]) = blob_lines cur ++ [line].
Proof.
  intros H. destruct (one_line_spec line H) as [Hne [Ht Hlf]].
  unfold blob_lines.
  assert (Hfl : filter Boolean_str [line] = [line]).
  { destruct line; [contradiction|reflexivity]. }
  destruct (trim cur) as [|c t] eqn:Et.
  - replace ([] ++ [LF] ++ line ++ [LF]) with ([LF] ++ line ++ [LF]) by reflexivity.
    rewrite trim_frame by (try reflexivity; exact Ht).
    rewrite split_on_no_sep by exact Hlf. simpl. exact Hfl.
  - assert (Htt : tight (c :: t)) by (rewrite <- Et; apply tight_trim).
    replace ((c :: t) ++ [LF] ++ line ++ [LF])
      with ([] ++ ((c :: t) ++ [LF] ++ line) ++ [LF])
      by (simpl; rewrite <- !app_assoc; reflexivity).
    rewrite trim_frame; try reflexivity.
    + change ((c :: t) ++ [LF] ++ line) with ((c :: t) ++ LF :: line).
      rewrite split_on_app_sep, filter_app.
      rewrite (split_on_no_sep LF line Hlf), Hfl. reflexivity.
    + apply tight_app; try assumption. discriminate.
Qed.


(** ** The handlers, step by step *)

Lemma bind_lift_ok {A B} (a : A) (k : A -> M B) (tr : list Request) :
  bind (lift (Ok a)) k tr = k a tr.
Proof. reflexivity. Qed.

Lemma bind_fetch {B} (host : Host) (r : Request) (k : FetchResponse -> M B)
    (tr : list Request) :
  bind (fetch_ host r) k tr =
  match host tr r with
  | Ok a => k a (tr ++ [r])
  | Throw e => (Throw e, tr ++ [r])
  end.
Proof. unfold bind, fetch_. destruct (host tr r); reflexivity. Qed.

Lemma get_prop_not_nullish (v : JsValue) (k : jsstring) (x : JsValue) :
  get_prop v k = Ok x -> ~ nullish v.
Proof. intros H [E|E]; subst v; discriminate. Qed.

Lemma get_prop_total (v : JsValue) (k : jsstring) :
  ~ nullish v -> exists x, get_prop v k = Ok x.
Proof.
  unfold nullish. intros H.
  destruct v; simpl; eauto; exfalso; apply H; auto.
Qed.

Lemma get_prop_truthy_object (v : JsValue) (k : jsstring) (x : JsValue) :
  get_prop v k = Ok x -> truthy x = true -> exists props, v = JObj props.
Proof.
  destruct v; simpl; intros H Hx; try discriminate;
    try (injection H as <-; discriminate).
  eauto.
Qed.

Lemma strict_eq_str (v : JsValue) (s : jsstring) :
  strict_eq v (JStr s) = true <-> v = JStr s.
Proof.
  destruct v; simpl; split; intros H; try discriminate.
  - apply str_eqb_eq in H. now subst.
  - injection H as ->. apply str_eqb_refl.
Qed.

(** ** Implicit conversions *)

(** A conversion to a string throws nothing but a TypeError. *)
Lemma ToString_throws (P : Platform) :
  forall (v : JsValue) (x : Exn), ToString P v = Throw x -> x = TypeError.
Proof.
  fix IH 1. intros [| | [|] | n | s | items | props] x; simpl; try discriminate.
  - match goal with
    | |- obind (?F items) _ = _ -> _ => set (items_to_strings := F)
    end.
    assert (G : forall l, items_to_strings l = Throw x -> x = TypeError).
    { fix IHl 1. intros [|i r]; [discriminate|].
      change (items_to_strings (i :: r))
        with (obind (match i with
                     | JUndefined | JNull => Ok []
                     | _ => ToString P i
                     end)
                (fun p => obind (items_to_strings r) (fun ps => Ok (p :: ps)))).
      destruct (match i with
                | JUndefined | JNull => Ok []
                | _ => ToString P i
                end) as [p|y] eqn:Ei; simpl.
      - intros H. apply (IHl r).
        destruct (items_to_strings r) as [ps|z]; [discriminate H|exact H].
      - intros H. injection H as ->. apply (IH i).
        destruct i; try discriminate Ei; exact Ei. }
    intros H. apply (G items).
    destruct (items_to_strings items) as [parts|z]; [discriminate H|].
    simpl in H. injection H as ->. reflexivity.
  - destruct (lookup _ props); [|discriminate].
    intros H. injection H as <-. reflexivity.
Qed.

Lemma ToNumber_throws (P : Platform) (v : JsValue) (x : Exn) :
  ToNumber P v = Throw x -> x = TypeError.
Proof.
  assert (G : (s <-? ToString P v ;; Ok (StringToNumber P s)) = Throw x ->
              x = TypeError).
  { intros H. apply (ToString_throws P v x).
    destruct (ToString P v); [discriminate H|].
    simpl in H. injection H as ->. reflexivity. }
  destruct v as [| | [|] | n | s | items | props]; try discriminate; exact G.
Qed.

(** An object conversion throws exactly when it has an own [toString]. *)
Lemma ToString_object (P : Platform) (props : list (jsstring * JsValue)) :
  ToString P (JObj props) =
  match lookup (js "toString") props with
  | Some _ => Throw TypeError
  | None => Ok (js "[object Object]")
  end.
Proof. reflexivity. Qed.

Lemma commit_message_throws (P : Platform) (entry : JsValue) (x : Exn) :
  commit_message P entry = Throw x -> x = TypeError.
Proof.
  unfold commit_message.
  destruct (get_prop entry (js "disc_label")) as [l|y] eqn:El; simpl.
  - destruct (ToString P l) as [lt|y] eqn:Elt; simpl.
    + destruct (get_prop entry (js "title")) as [t|y] eqn:Et; simpl.
      * destruct (ToString P t) as [tt|y] eqn:Ett; simpl; [discriminate|].
        intros H. injection H as <-. exact (ToString_throws P t y Ett).
      * intros H. injection H as <-. destruct entry; simpl in Et; congruence.
    + intros H. injection H as <-. exact (ToString_throws P l y Elt).
  - intros H. injection H as <-. destruct entry; simpl in El; congruence.
Qed.

(** The commit message of a record whose label and title are strings. *)
Lemma commit_message_strings (P : Platform) (entry : JsValue)
    (label title : jsstring) :
  get_prop entry (js "disc_label") = Ok (JStr label) ->
  get_prop entry (js "title") = Ok (JStr title) ->
  commit_message P entry = Ok (js "Add disc: " ++ label ++ js " -> " ++ title).
Proof. intros Hl Ht. unfold commit_message. rewrite Hl, Ht. reflexivity. Qed.

(** Validation passes only on an object all of whose required fields are
    truthy. *)
Lemma first_missing_none (data : JsValue) (fields : list jsstring) :
  first_missing data fields = Ok None ->
  forall f, In f fields ->
  exists x, get_prop data f = Ok x /\ truthy x = true.
Proof.
  induction fields as [|g fields IH]; simpl; intros H f Hf; [contradiction|].
  destruct (get_prop data g) as [x|e] eqn:Eg; simpl in H; [|discriminate].
  destruct (truthy x) eqn:Ex; simpl in H; [|discriminate].
  destruct Hf as [<-|Hf]; eauto.
Qed.

Lemma validated_object (data : JsValue) :
  first_missing data required = Ok None -> exists props, data = JObj props.
Proof.
  intros H.
  destruct (first_missing_none data required H (js "disc_label")) as [x [Hx Ht]].
  - left; reflexivity.
  - eapply get_prop_truthy_object; eauto.
Qed.

Lemma make_entry_object (props : list (jsstring * JsValue)) (now : jsstring) :
  make_entry (JObj props) now = Ok (entry_of (JObj props) now).
Proof. reflexivity. Qed.

Lemma make_entry_ok (data : JsValue) (now : jsstring) :
  ~ nullish data -> make_entry data now = Ok (entry_of data now).
Proof.
  unfold nullish. intros H.
  destruct data; try reflexivity; exfalso; apply H; auto.
Qed.

Section Scan.

Variable P : Platform.

(** The callback of the duplicate scan returns a boolean on every line. *)
Lemma duplicate_pred_eq (entry : JsValue) (line : jsstring) :
  duplicate_pred P entry line = Ok (same_label P entry line).
Proof.
  unfold duplicate_pred, same_label.
  destruct (JSON_parse P line) as [existing|]; simpl; [|reflexivity].
  destruct (get_prop existing (js "disc_label")); simpl; [|reflexivity].
  destruct (get_prop entry (js "disc_label")); reflexivity.
Qed.

Lemma some_duplicate (entry : JsValue) (lines : list jsstring) :
  some_ (duplicate_pred P entry) lines = Ok (existsb (same_label P entry) lines).
Proof.
  induction lines as [|l lines IH]; simpl; [reflexivity|].
  rewrite duplicate_pred_eq. simpl.
  destruct (same_label P entry l); [reflexivity|exact IH].
Qed.

End Scan.

Section Contribution.

Variable P : Platform.
Variable host : Host.

(** A contribution that fails validation is answered before any request. *)
Lemma contribute_missing (data : JsValue) (env : Env) (now field : jsstring) :
  first_missing data required = Ok (Some field) ->
  contributeDisc P host data env now [] =
  (Ok (jsonResponse P
         (JObj [(js "error", JStr (js "Missing required field: " ++ field))]) 400),
   []).
Proof.
  intros H. unfold contributeDisc. rewrite H, bind_lift_ok. reflexivity.
Qed.

Lemma contribute_throws (data : JsValue) (env : Env) (now : jsstring) (e : Exn) :
  first_missing data required = Throw e ->
  contributeDisc P host data env now [] = (Throw e, []).
Proof.
  intros H. unfold contributeDisc. rewrite H. reflexivity.
Qed.

(** Once validation has passed and the blob has been read, the rest of
    [contributeDisc] is [contribute_outcome]. *)
Lemma contribute_after_read (data : JsValue) (env : Env) (now token : jsstring)
    (fileData : JsValue) (cur : jsstring) :
  first_missing data required = Ok None ->
  reads_blob P host env token fileData cur ->
  exists sha,
    get_prop fileData (js "sha") = Ok sha /\
    contributeDisc P host data env now [] =
    contribute_outcome P host token (entry_of data now) sha cur.
Proof.
  intros Hv (Htok & Hne & fileResponse & b64 & Hget & Hok & Hparse & Hcontent & Hatob).
  destruct (validated_object data Hv) as [props ->].
  destruct (get_prop_total fileData (js "sha")
              (get_prop_not_nullish _ _ _ Hcontent)) as [sha Hsha].
  exists sha. split; [exact Hsha|].
  unfold contributeDisc. rewrite Hv, bind_lift_ok, Htok.
  destruct token as [|t0 token]; [contradiction|].
  rewrite make_entry_object, bind_lift_ok.
  rewrite bind_fetch, Hget, Hok. cbn [negb].
  unfold response_json. rewrite Hparse. cbn [of_option]. rewrite bind_lift_ok.
  rewrite Hcontent, bind_lift_ok. cbn [content_replace]. rewrite bind_lift_ok.
  rewrite Hatob. cbn [of_option]. rewrite bind_lift_ok.
  rewrite some_duplicate, bind_lift_ok.
  unfold contribute_outcome. cbn [app].
  destruct (existsb (same_label P (entry_of (JObj props) now)) (blob_lines cur));
    [reflexivity|].
  destruct (commit_message P (entry_of (JObj props) now)) as [message|e];
    [|reflexivity].
  rewrite bind_lift_ok.
  destruct (btoa P (newContent_of P cur (entry_of (JObj props) now))) as [encoded|];
    [|reflexivity].
  cbn [of_option]. rewrite bind_lift_ok, Hsha, bind_lift_ok.
  fold (update_payload P message encoded sha).
  rewrite bind_fetch. cbn [app].
  destruct (host [file_request (t0 :: token)]
              (update_request (t0 :: token)
                 (update_payload P message encoded sha)))
    as [upd|e]; [|reflexivity].
  destruct (ok upd); reflexivity.
Qed.

End Contribution.


Section Lookup.

Variable P : Platform.
Variable host : Host.

Lemma find_result (pred : JsValue -> Outcome bool) (entries : list JsValue)
    (m : JsValue) :
  find_ pred entries = Ok m ->
  (In m entries /\ pred m = Ok true) \/
  (m = JUndefined /\ Forall (fun e => pred e = Ok false) entries).
Proof.
  induction entries as [|e entries IH]; simpl; intros H.
  - injection H as <-. right. split; [reflexivity|constructor].
  - destruct (pred e) as [b|x] eqn:Ee; simpl in H; [|discriminate].
    destruct b.
    + injection H as <-. left. split; [now left|exact Ee].
    + destruct (IH H) as [[Hin Hp]|[Hu Hall]].
      * left. split; [now right|exact Hp].
      * right. split; [exact Hu|]. constructor; assumption.
Qed.

Lemma find_none (pred : JsValue -> Outcome bool) (entries : list JsValue) :
  Forall (fun e => pred e = Ok false) entries ->
  find_ pred entries = Ok JUndefined.
Proof.
  induction 1 as [|e entries He _ IH]; simpl; [reflexivity|].
  rewrite He. exact IH.
Qed.

Lemma find_throws (pred : JsValue -> Outcome bool) (entries : list JsValue)
    (x : Exn) :
  find_ pred entries = Throw x -> exists e, In e entries /\ pred e = Throw x.
Proof.
  induction entries as [|e entries IH]; simpl; intros H; [discriminate|].
  destruct (pred e) as [b|y] eqn:Ee; simpl in H.
  - destruct b; [discriminate|].
    destruct (IH H) as (m & Hin & Hm). exists m. auto.
  - injection H as ->. exists e. auto.
Qed.

Lemma find_total (pred : JsValue -> Outcome bool) (entries : list JsValue) :
  Forall (fun e => exists b, pred e = Ok b) entries ->
  exists m, find_ pred entries = Ok m.
Proof.
  induction 1 as [|e entries [b He] _ [m IH]]; simpl; [eauto|].
  rewrite He. simpl. destruct b; eauto.
Qed.

Lemma exact_pred_true (label : jsstring) (e : JsValue) :
  exact_pred label e = Ok true <-> get_prop e (js "disc_label") = Ok (JStr label).
Proof.
  unfold exact_pred.
  destruct (get_prop e (js "disc_label")) as [l|x]; simpl; split; intros H;
    try discriminate.
  - injection H as H. apply strict_eq_str in H. now subst.
  - injection H as ->. simpl. now rewrite str_eqb_refl.
Qed.

Lemma exact_pred_total (label : jsstring) (e : JsValue) :
  ~ nullish e -> exists b, exact_pred label e = Ok b.
Proof.
  intros H. destruct (get_prop_total e (js "disc_label") H) as [l Hl].
  unfold exact_pred. rewrite Hl. simpl. eauto.
Qed.

(** On a record the fuzzy test returns a boolean, or throws what the
    conversion of [duration_secs] throws. *)
Lemma fuzzy_pred_total (duration tolerance : float) (e : JsValue) :
  ~ nullish e ->
  (exists b, fuzzy_pred P duration tolerance e = Ok b) \/
  (exists d x,
     get_prop e (js "duration_secs") = Ok d /\ ToNumber P d = Throw x /\
     fuzzy_pred P duration tolerance e = Throw x).
Proof.
  intros H.
  destruct (get_prop_total e (js "duration_secs") H) as [d Hd].
  destruct (get_prop_total e (js "disc_type") H) as [t Ht].
  unfold fuzzy_pred. rewrite Hd. simpl.
  destruct (ToNumber P d) as [x|x] eqn:Ex; simpl.
  - left. rewrite Ht. simpl. destruct (PrimFloat.leb _ _); eauto.
  - right. exists d, x. auto.
Qed.

Lemma fuzzy_pred_converts (duration tolerance : float) (e : JsValue) :
  duration_converts P e -> exists b, fuzzy_pred P duration tolerance e = Ok b.
Proof.
  intros (d & x & Hd & Hx).
  destruct (get_prop_total e (js "disc_type")
              (get_prop_not_nullish _ _ _ Hd)) as [t Ht].
  unfold fuzzy_pred. rewrite Hd. simpl. rewrite Hx. simpl. rewrite Ht. simpl.
  destruct (PrimFloat.leb _ _); eauto.
Qed.

Lemma fuzzy_pred_true (duration : float) (e : JsValue) :
  fuzzy_pred P duration (PrimFloat.mul duration 0.05) e = Ok true ->
  within_tolerance P duration e = true /\
  get_prop e (js "disc_type") = Ok (JStr (js "dvd")).
Proof.
  unfold fuzzy_pred, within_tolerance.
  destruct (get_prop e (js "duration_secs")) as [d|x]; simpl; [|discriminate].
  destruct (ToNumber P d) as [n|x]; simpl; [|discriminate].
  destruct (PrimFloat.leb _ _); [|discriminate].
  destruct (get_prop e (js "disc_type")) as [t|x]; simpl; [|discriminate].
  intros H. injection H as H. apply strict_eq_str in H. subst t. auto.
Qed.

(** An entry on which a predicate of the scan is true is an object. *)
Lemma exact_match_truthy (label : jsstring) (e : JsValue) :
  get_prop e (js "disc_label") = Ok (JStr label) -> label <> [] ->
  truthy e = true.
Proof.
  intros H Hl.
  destruct (get_prop_truthy_object e _ _ H) as [props ->]; [|reflexivity].
  destruct label; [contradiction|reflexivity].
Qed.

Lemma dvd_truthy (e : JsValue) :
  get_prop e (js "disc_type") = Ok (JStr (js "dvd")) -> truthy e = true.
Proof.
  intros H.
  destruct (get_prop_truthy_object e _ _ H) as [props ->]; reflexivity.
Qed.

(** [lookupDisc] after a successful fetch and parse of the snapshot. *)
Lemma lookup_after_fetch (label : jsstring) (duration : float)
    (blob : jsstring) (entries : list JsValue) :
  label <> [] ->
  serves_snapshot host blob ->
  parse_lines P (blob_lines blob) = Ok entries ->
  lookupDisc P host (Some label) duration [] =
  match find_ (exact_pred label) entries with
  | Throw e => (Throw e, [raw_request])
  | Ok match0 =>
      match (if negb (truthy match0) && PrimFloat.ltb 0 duration
             then find_ (fuzzy_pred P duration (PrimFloat.mul duration 0.05)) entries
             else Ok match0) with
      | Throw e => (Throw e, [raw_request])
      | Ok match1 =>
          (Ok (if truthy match1 then found_response P match1
               else not_found_response P label duration),
           [raw_request])
      end
  end.
Proof.
  intros Hl (response & Hget & Hok & Htext) Hparse.
  destruct label as [|c label]; [contradiction|].
  unfold lookupDisc. rewrite bind_fetch, Hget, Hok. cbn [negb app].
  rewrite Htext, Hparse, bind_lift_ok.
  destruct (find_ (exact_pred (c :: label)) entries) as [match0|e];
    [|reflexivity].
  rewrite bind_lift_ok.
  destruct (negb (truthy match0) && PrimFloat.ltb 0 duration).
  - destruct (find_ _ entries) as [match1|e]; [|reflexivity].
    rewrite bind_lift_ok. destruct (truthy match1); reflexivity.
  - unfold bind, ret. destruct (truthy match0); reflexivity.
Qed.

End Lookup.


(** ** Running the model *)

Example parse_santa : Ref.JSON_parse Sample.santa_line = Some Sample.santa.
Proof. vm_compute. reflexivity. Qed.

Example stringify_santa : Ref.JSON_stringify Sample.santa 0 = Sample.santa_line.
Proof. vm_compute. reflexivity. Qed.

Example parse_broken : Ref.JSON_parse Sample.broken_line = None.
Proof. vm_compute. reflexivity. Qed.

Example base64_round_trip :
  Ref.btoa (js "hello world") = Some (js "aGVsbG8gd29ybGQ=")
  /\ Ref.atob (js "aGVsbG8gd29ybGQ=") = Some (js "hello world").
Proof. split; vm_compute; reflexivity. Qed.

(** Numbers on the reference platform: decimal text to binary64 and back. *)
Example numbers_of_the_platform :
  Ref.StringToNumber (js "5501") = 5501%float
  /\ Ref.StringToNumber (js " 12.5e1 ") = 125%float
  /\ Ref.StringToNumber (js "0x1F") = 31%float
  /\ Ref.StringToNumber (js "") = 0%float
  /\ PrimFloat.is_nan (Ref.StringToNumber (js "12px")) = true
  /\ Ref.parseInt (js "5501") = 5501%float
  /\ Ref.parseInt (js "  -42.9abc") = (-42)%float
  /\ Ref.parseInt (js "0x1F") = 31%float
  /\ Ref.parseInt (js "9223372036854775808") = 9223372036854775808%float
  /\ PrimFloat.is_nan (Ref.parseInt (js "abc")) = true
  /\ Ref.Number_toString 5501 = js "5501"
  /\ Ref.Number_toString 0.5 = js "0.5"
  /\ Ref.Number_toString 5776.05 = js "5776.05"
  /\ Ref.Number_toString (PrimFloat.mul 5501 1.05) = js "5776.05"
  /\ Ref.Number_toString 1e21 = js "1e+21"
  /\ Ref.Number_toString (-0.000001) = js "-0.000001"
  /\ Ref.Number_toString 1e-7 = js "1e-7"
  /\ Ref.JSON_parse (js "[1.5, -2e3, 0.1, 12345678901234567890]")
     = Some (JArr [JNum 1.5; JNum (-2000); JNum 0.1; JNum 12345678901234567890])
  /\ Ref.JSON_parse (js "01") = None
  /\ Ref.JSON_stringify (JArr [JNum 1.5; JNum 5776.05; JNum nan]) 0
     = js "[1.5,5776.05,null]".
Proof. repeat split; vm_compute; reflexivity. Qed.

(** The implicit conversions on objects and arrays. *)
Example conversions_of_objects :
  ToString Ref.platform (JObj [(js "a", JNum 1)]) = Ok (js "[object Object]")
  /\ ToString Ref.platform (JObj [(js "toString", JNum 1)]) = Throw TypeError
  /\ ToString Ref.platform (JArr [JNum 1; JNull; JStr (js "x"); JArr [JNum 2; JNum 3]])
     = Ok (js "1,,x,2,3")
  /\ ToString Ref.platform (JArr [JNum 1; JObj [(js "toString", JNull)]])
     = Throw TypeError
  /\ ToNumber Ref.platform (JArr [JStr (js "5501")]) = Ok 5501%float
  /\ ToNumber Ref.platform (JArr []) = Ok 0%float
  /\ ToNumber Ref.platform (JObj [(js "toString", JNum 1)]) = Throw TypeError
  /\ (exists x, ToNumber Ref.platform (JObj []) = Ok x /\ PrimFloat.is_nan x = true).
Proof.
  repeat split; try (vm_compute; reflexivity).
  eexists. split; vm_compute; reflexivity.
Qed.

Example lines_of_blob :
  blob_lines (Sample.blob_of [Sample.santa_line; []; Sample.other_dvd_line])
  = [Sample.santa_line; Sample.other_dvd_line].
Proof. vm_compute. reflexivity. Qed.

(** ** Lookup *)

Lemma first_exact_match (label : jsstring) (entries : list JsValue)
    (x : JsValue) :
  Forall (fun e => ~ nullish e) entries ->
  In x entries ->
  get_prop x (js "disc_label") = Ok (JStr label) ->
  exists pre e post,
    entries = pre ++ e :: post /\
    get_prop e (js "disc_label") = Ok (JStr label) /\
    Forall (fun p => get_prop p (js "disc_label") <> Ok (JStr label)) pre /\
    find_ (exact_pred label) entries = Ok e.
Proof.
  intros Hall. revert x.
  induction Hall as [|a entries Ha _ IH]; intros x Hin Hx; [contradiction|].
  destruct (exact_pred_total label a Ha) as [b Hb].
  destruct b.
  - exists [], a, entries. repeat split.
    + now apply exact_pred_true.
    + constructor.
    + simpl. now rewrite Hb.
  - assert (Hna : get_prop a (js "disc_label") <> Ok (JStr label)).
    { intros E. apply exact_pred_true in E. congruence. }
    destruct Hin as [->|Hin]; [contradiction|].
    destruct (IH x Hin Hx) as (pre & e & post & -> & He & Hpre & Hfind).
    exists (a :: pre), e, post. repeat split.
    + exact He.
    + constructor; assumption.
    + simpl. rewrite Hb. exact Hfind.
Qed.

(** C4. Exact match takes precedence: when the snapshot holds a record whose
    [disc_label] equals the queried non-empty label, [lookupDisc] answers
    [found: true] with the first such record in insertion order, whatever the
    duration argument and whatever the durations of the other records. *)
Theorem lookup_exact_match_first (P : Platform) (host : Host)
    (label blob : jsstring) (entries : list JsValue) (x : JsValue) :
  label <> [] ->
  serves_snapshot host blob ->
  parse_lines P (blob_lines blob) = Ok entries ->
  Forall (fun e => ~ nullish e) entries ->
  In x entries ->
  get_prop x (js "disc_label") = Ok (JStr label) ->
  exists pre e post,
    entries = pre ++ e :: post /\
    get_prop e (js "disc_label") = Ok (JStr label) /\
    Forall (fun p => get_prop p (js "disc_label") <> Ok (JStr label)) pre /\
    forall duration,
      lookupDisc P host (Some label) duration [] =
      (Ok (found_response P e), [raw_request]).
Proof.
  intros Hl Hs Hp Hall Hin Hx.
  destruct (first_exact_match label entries x Hall Hin Hx)
    as (pre & e & post & Hsplit & He & Hpre & Hfind).
  exists pre, e, post. repeat split; try assumption.
  intros duration.
  rewrite (lookup_after_fetch P host label duration blob entries Hl Hs Hp).
  rewrite Hfind, (exact_match_truthy label e He Hl). cbn [negb andb].
  rewrite (exact_match_truthy label e He Hl). reflexivity.
Qed.

(** On the blob [bluray; other_dvd; santa], the label of the third record is
    answered with the third record although the queried duration equals that
    of the first and is within tolerance of the second. *)
Lemma lookup_exact_match_first_witness :
  exists pre e post,
    [Sample.bluray; Sample.other_dvd; Sample.santa] = pre ++ e :: post /\
    get_prop e (js "disc_label") = Ok (JStr (js "SC30NNW1")) /\
    Forall (fun p => get_prop p (js "disc_label") <> Ok (JStr (js "SC30NNW1"))) pre /\
    forall duration,
      lookupDisc Ref.platform
        (Sample.snapshot_host
           (Sample.blob_of [Sample.bluray_line; Sample.other_dvd_line; Sample.santa_line]))
        (Some (js "SC30NNW1")) duration [] =
      (Ok (found_response Ref.platform e), [raw_request]).
Proof.
  apply (lookup_exact_match_first Ref.platform
           (Sample.snapshot_host
              (Sample.blob_of [Sample.bluray_line; Sample.other_dvd_line; Sample.santa_line]))
           (js "SC30NNW1")
           (Sample.blob_of [Sample.bluray_line; Sample.other_dvd_line; Sample.santa_line])
           [Sample.bluray; Sample.other_dvd; Sample.santa] Sample.santa).
  - discriminate.
  - eexists. repeat split.
  - vm_compute. reflexivity.
  - repeat constructor; intros [H|H]; discriminate H.
  - right. right. left. reflexivity.
  - reflexivity.
Defined.

Example lookup_exact_beats_fuzzy :
  lookupDisc Ref.platform
    (Sample.snapshot_host
       (Sample.blob_of [Sample.bluray_line; Sample.other_dvd_line; Sample.santa_line]))
    (Some (js "SC30NNW1")) 5561 [] =
  (Ok (found_response Ref.platform Sample.santa), [raw_request]).
Proof. vm_compute. reflexivity. Qed.

Lemma no_exact_match (label : jsstring) (entries : list JsValue) :
  Forall (fun e => ~ nullish e) entries ->
  Forall (fun e => get_prop e (js "disc_label") <> Ok (JStr label)) entries ->
  find_ (exact_pred label) entries = Ok JUndefined.
Proof.
  intros Hall Hno. apply find_none.
  rewrite Forall_forall in *. intros e He.
  destruct (exact_pred_total label e (Hall e He)) as [b Hb].
  destruct b; [|exact Hb].
  apply exact_pred_true in Hb. destruct (Hno e He Hb).
Qed.

(** The route [GET /lookup]: the handler runs on the [label] parameter and
    the parsed [duration] parameter, and what it throws is answered 500. *)
Lemma fetch_lookup (P : Platform) (host : Host) (request : HttpRequest)
    (env : Env) (now : jsstring) :
  method request = js "GET" ->
  pathname request = js "/lookup" ->
  fetch P host request env now [] =
  match lookupDisc P host (searchParams_get (js "label") (searchParams request))
          (parseInt P
             (or_zero (searchParams_get (js "duration") (searchParams request))))
          [] with
  | (Ok r, tr) => (Ok r, tr)
  | (Throw e, tr) =>
      (Ok (jsonResponse P (JObj [(js "error", JStr (message P e))]) 500), tr)
  end.
Proof.
  intros Hm Hp. unfold fetch. rewrite Hm, Hp.
  change (str_eqb (js "GET") (js "OPTIONS")) with false.
  change (str_eqb (js "/lookup") (js "/db")) with false.
  change (str_eqb (js "/lookup") (js "/lookup")) with true.
  change (str_eqb (js "GET") (js "GET")) with true.
  cbn [andb]. unfold catch.
  destruct (lookupDisc P host _ _ []) as [[r|e] tr]; reflexivity.
Qed.

(** C5. Without an exact match the fuzzy scan runs only for a duration above
    zero: for a duration that is zero, negative or NaN, and for a request that
    gives no duration at all, the answer is [found: false].  When it runs, the
    answer is either [found: false], or a record of the snapshot that is within
    tolerance and whose [disc_type] is the string dvd, or the scan stops with
    a TypeError at a record whose [duration_secs] does not convert to a number
    (an object with an own [toString] property, or an array holding one), and
    the router answers 500; no record of another type is returned. *)
Theorem lookup_fuzzy_dvd_only (P : Platform) (host : Host)
    (label blob : jsstring) (entries : list JsValue) :
  label <> [] ->
  serves_snapshot host blob ->
  parse_lines P (blob_lines blob) = Ok entries ->
  Forall (fun e => ~ nullish e) entries ->
  Forall (fun e => get_prop e (js "disc_label") <> Ok (JStr label)) entries ->
  (forall duration,
     PrimFloat.ltb 0 duration = false ->
     lookupDisc P host (Some label) duration [] =
     (Ok (not_found_response P label duration), [raw_request]))
  /\
  (forall duration,
     lookupDisc P host (Some label) duration [] =
     (Ok (not_found_response P label duration), [raw_request])
     \/
     (exists e,
        In e entries /\
        PrimFloat.ltb 0 duration = true /\
        within_tolerance P duration e = true /\
        get_prop e (js "disc_type") = Ok (JStr (js "dvd")) /\
        lookupDisc P host (Some label) duration [] =
        (Ok (found_response P e), [raw_request]))
     \/
     exists e d,
       In e entries /\
       PrimFloat.ltb 0 duration = true /\
       get_prop e (js "duration_secs") = Ok d /\
       ToNumber P d = Throw TypeError /\
       lookupDisc P host (Some label) duration [] =
       (Throw TypeError, [raw_request]) /\
       forall request env now,
         method request = js "GET" ->
         pathname request = js "/lookup" ->
         searchParams_get (js "label") (searchParams request) = Some label ->
         parseInt P
           (or_zero (searchParams_get (js "duration") (searchParams request)))
         = duration ->
         fetch P host request env now [] =
         (Ok (jsonResponse P
                (JObj [(js "error", JStr (message P TypeError))]) 500),
          [raw_request]))
  /\
  (forall request env now,
     method request = js "GET" ->
     pathname request = js "/lookup" ->
     searchParams_get (js "label") (searchParams request) = Some label ->
     searchParams_get (js "duration") (searchParams request) = None ->
     PrimFloat.ltb 0 (parseInt P (js "0")) = false ->
     fetch P host request env now [] =
     (Ok (not_found_response P label (parseInt P (js "0"))), [raw_request])).
Proof.
  intros Hl Hs Hp Hall Hno.
  pose proof (no_exact_match label entries Hall Hno) as Hfind.
  assert (Hskip : forall duration,
             PrimFloat.ltb 0 duration = false ->
             lookupDisc P host (Some label) duration [] =
             (Ok (not_found_response P label duration), [raw_request])).
  { intros duration Hd.
    rewrite (lookup_after_fetch P host label duration blob entries Hl Hs Hp).
    rewrite Hfind. cbn [truthy negb andb]. rewrite Hd. reflexivity. }
  split; [exact Hskip|]. split.
  - intros duration.
    destruct (PrimFloat.ltb 0 duration) eqn:Hd; [|left; now apply Hskip].
    rewrite (lookup_after_fetch P host label duration blob entries Hl Hs Hp).
    rewrite Hfind. cbn [truthy negb andb]. rewrite Hd.
    destruct (find_ (fuzzy_pred P duration (PrimFloat.mul duration 0.05)) entries)
      as [m|x] eqn:Hm.
    + destruct (find_result _ _ _ Hm) as [[Hin Hpred]|[-> _]].
      * right. left. exists m.
        destruct (fuzzy_pred_true P duration m Hpred) as [Hw Ht].
        rewrite (dvd_truthy m Ht). auto.
      * left. reflexivity.
    + right. right.
      destruct (find_throws _ _ _ Hm) as (e & Hin & He).
      rewrite Forall_forall in Hall.
      destruct (fuzzy_pred_total P duration (PrimFloat.mul duration 0.05) e
                  (Hall e Hin)) as [[b Hb]|(d & y & Hget & Hy & Hthrow)];
        [congruence|].
      assert (y = x) by congruence. subst y.
      pose proof (ToNumber_throws P d x Hy). subst x.
      exists e, d. repeat split; try assumption.
      intros request env now Hmeth Hpath Hlabel Hdur.
      rewrite (fetch_lookup P host request env now Hmeth Hpath), Hlabel, Hdur.
      rewrite (lookup_after_fetch P host label duration blob entries Hl Hs Hp).
      rewrite Hfind. cbn [truthy negb andb]. rewrite Hd, Hm. reflexivity.
  - intros request env now Hmeth Hpath Hlabel Hdur Hzero.
    unfold fetch. rewrite Hmeth, Hpath, Hlabel, Hdur.
    change (str_eqb (js "GET") (js "OPTIONS")) with false.
    change (str_eqb (js "/lookup") (js "/db")) with false.
    change (str_eqb (js "/lookup") (js "/lookup")) with true.
    change (str_eqb (js "GET") (js "GET")) with true.
    cbn [andb or_zero]. unfold catch.
    rewrite (Hskip _ Hzero). reflexivity.
Qed.

(** On the blob [bluray; other_dvd] an unknown label with duration 5501 is
    answered with the DVD, not with the Blu-ray that comes first and has
    exactly that duration; with duration 0, and with no duration parameter,
    the answer is [found: false]. *)
Lemma lookup_fuzzy_dvd_only_witness :
  (forall duration,
     PrimFloat.ltb 0 duration = false ->
     lookupDisc Ref.platform
       (Sample.snapshot_host (Sample.blob_of [Sample.bluray_line; Sample.other_dvd_line]))
       (Some (js "UNKNOWN")) duration [] =
     (Ok (not_found_response Ref.platform (js "UNKNOWN") duration), [raw_request]))
  /\
  (forall duration,
     lookupDisc Ref.platform
       (Sample.snapshot_host (Sample.blob_of [Sample.bluray_line; Sample.other_dvd_line]))
       (Some (js "UNKNOWN")) duration [] =
     (Ok (not_found_response Ref.platform (js "UNKNOWN") duration), [raw_request])
     \/
     (exists e,
        In e [Sample.bluray; Sample.other_dvd] /\
        PrimFloat.ltb 0 duration = true /\
        within_tolerance Ref.platform duration e = true /\
        get_prop e (js "disc_type") = Ok (JStr (js "dvd")) /\
        lookupDisc Ref.platform
          (Sample.snapshot_host (Sample.blob_of [Sample.bluray_line; Sample.other_dvd_line]))
          (Some (js "UNKNOWN")) duration [] =
        (Ok (found_response Ref.platform e), [raw_request]))
     \/
     exists e d,
       In e [Sample.bluray; Sample.other_dvd] /\
       PrimFloat.ltb 0 duration = true /\
       get_prop e (js "duration_secs") = Ok d /\
       ToNumber Ref.platform d = Throw TypeError /\
       lookupDisc Ref.platform
         (Sample.snapshot_host (Sample.blob_of [Sample.bluray_line; Sample.other_dvd_line]))
         (Some (js "UNKNOWN")) duration [] =
       (Throw TypeError, [raw_request]) /\
       forall request env now,
         method request = js "GET" ->
         pathname request = js "/lookup" ->
         searchParams_get (js "label") (searchParams request) = Some (js "UNKNOWN") ->
         parseInt Ref.platform
           (or_zero (searchParams_get (js "duration") (searchParams request)))
         = duration ->
         fetch Ref.platform
           (Sample.snapshot_host (Sample.blob_of [Sample.bluray_line; Sample.other_dvd_line]))
           request env now [] =
         (Ok (jsonResponse Ref.platform
                (JObj [(js "error", JStr (message Ref.platform TypeError))]) 500),
          [raw_request]))
  /\
  (forall request env now,
     method request = js "GET" ->
     pathname request = js "/lookup" ->
     searchParams_get (js "label") (searchParams request) = Some (js "UNKNOWN") ->
     searchParams_get (js "duration") (searchParams request) = None ->
     PrimFloat.ltb 0 (parseInt Ref.platform (js "0")) = false ->
     fetch Ref.platform
       (Sample.snapshot_host (Sample.blob_of [Sample.bluray_line; Sample.other_dvd_line]))
       request env now [] =
     (Ok (not_found_response Ref.platform (js "UNKNOWN") (parseInt Ref.platform (js "0"))),
      [raw_request])).
Proof.
  apply (lookup_fuzzy_dvd_only Ref.platform
           (Sample.snapshot_host (Sample.blob_of [Sample.bluray_line; Sample.other_dvd_line]))
           (js "UNKNOWN")
           (Sample.blob_of [Sample.bluray_line; Sample.other_dvd_line])
           [Sample.bluray; Sample.other_dvd]).
  - discriminate.
  - eexists. repeat split.
  - vm_compute. reflexivity.
  - repeat constructor; intros [H|H]; discriminate H.
  - repeat constructor; intros H; discriminate H.
Defined.

Example lookup_fuzzy_skips_bluray :
  lookupDisc Ref.platform
    (Sample.snapshot_host (Sample.blob_of [Sample.bluray_line; Sample.other_dvd_line]))
    (Some (js "UNKNOWN")) 5501 [] =
  (Ok (found_response Ref.platform Sample.other_dvd), [raw_request]).
Proof. vm_compute. reflexivity. Qed.

Example lookup_without_duration :
  fetch Ref.platform
    (Sample.snapshot_host (Sample.blob_of [Sample.bluray_line; Sample.other_dvd_line]))
    {| method := js "GET"; pathname := js "/lookup";
       searchParams := [(js "label", js "UNKNOWN")];
       json := Throw SyntaxError |}
    Sample.env Sample.now [] =
  (Ok (not_found_response Ref.platform (js "UNKNOWN") 0), [raw_request]).
Proof. vm_compute. reflexivity. Qed.

Lemma fuzzy_pred_dvd (P : Platform) (duration tolerance : float)
    (e d : JsValue) (x : float) :
  get_prop e (js "duration_secs") = Ok d ->
  ToNumber P d = Ok x ->
  get_prop e (js "disc_type") = Ok (JStr (js "dvd")) ->
  fuzzy_pred P duration tolerance e =
  Ok (PrimFloat.leb (PrimFloat.abs (PrimFloat.sub x duration)) tolerance).
Proof.
  intros Hd Hx Ht. unfold fuzzy_pred. rewrite Hd. simpl. rewrite Hx. simpl.
  rewrite Ht. simpl.
  destruct (PrimFloat.leb _ _); reflexivity.
Qed.

(** A snapshot whose only record is a DVD of 5501 seconds, queried under
    another label: the answer is decided by the fuzzy test alone. *)
Lemma lookup_single_dvd (P : Platform) (host : Host) (label blob : jsstring)
    (record : JsValue) (duration : float) :
  label <> [] ->
  serves_snapshot host blob ->
  parse_lines P (blob_lines blob) = Ok [record] ->
  get_prop record (js "disc_label") <> Ok (JStr label) ->
  get_prop record (js "duration_secs") = Ok (JNum 5501) ->
  get_prop record (js "disc_type") = Ok (JStr (js "dvd")) ->
  PrimFloat.ltb 0 duration = true ->
  lookupDisc P host (Some label) duration [] =
  (Ok (if PrimFloat.leb (PrimFloat.abs (PrimFloat.sub 5501 duration))
            (PrimFloat.mul duration 0.05)
       then found_response P record
       else not_found_response P label duration),
   [raw_request]).
Proof.
  intros Hl Hs Hp Hno Hd Ht Hpos.
  rewrite (lookup_after_fetch P host label duration blob [record] Hl Hs Hp).
  rewrite (no_exact_match label [record]).
  - cbn [truthy negb andb]. rewrite Hpos.
    cbn [find_]. rewrite (fuzzy_pred_dvd P _ _ record _ 5501 Hd eq_refl Ht).
    cbn [obind].
    destruct (PrimFloat.leb _ _); [|reflexivity].
    now rewrite (dvd_truthy record Ht).
  - constructor; [|constructor]. eapply get_prop_not_nullish; exact Hd.
  - constructor; [exact Hno|constructor].
Qed.

(** C3, as amended.  The tolerance is 5% of the supplied duration, not of the
    record's: a DVD record of 5501 seconds is returned for the duration
    5501*1.05, is still returned one second beyond it, is returned up to the
    duration 5790 (289 <= 289.5) and is not returned for 5791
    (290 > 289.55). *)
Theorem lookup_tolerance_boundary (P : Platform) (host : Host)
    (label blob : jsstring) (record : JsValue) :
  label <> [] ->
  serves_snapshot host blob ->
  parse_lines P (blob_lines blob) = Ok [record] ->
  get_prop record (js "disc_label") <> Ok (JStr label) ->
  get_prop record (js "duration_secs") = Ok (JNum 5501) ->
  get_prop record (js "disc_type") = Ok (JStr (js "dvd")) ->
  lookupDisc P host (Some label) (PrimFloat.mul 5501 1.05) [] =
    (Ok (found_response P record), [raw_request])
  /\ lookupDisc P host (Some label) (PrimFloat.add (PrimFloat.mul 5501 1.05) 1) [] =
    (Ok (found_response P record), [raw_request])
  /\ lookupDisc P host (Some label) 5790 [] =
    (Ok (found_response P record), [raw_request])
  /\ lookupDisc P host (Some label) 5791 [] =
    (Ok (not_found_response P label 5791), [raw_request]).
Proof.
  intros Hl Hs Hp Hno Hd Ht.
  repeat split;
    rewrite (lookup_single_dvd P host label blob record _ Hl Hs Hp Hno Hd Ht)
      by (vm_compute; reflexivity);
    match goal with
    | |- (Ok (if ?c then _ else _), _) = _ =>
        let b := eval vm_compute in c in
        replace c with b by (vm_compute; reflexivity)
    end;
    reflexivity.
Qed.

Lemma lookup_tolerance_boundary_witness :
  lookupDisc Ref.platform (Sample.snapshot_host (Sample.blob_of [Sample.santa_line]))
      (Some (js "UNKNOWN")) (PrimFloat.mul 5501 1.05) [] =
    (Ok (found_response Ref.platform Sample.santa), [raw_request])
  /\ lookupDisc Ref.platform (Sample.snapshot_host (Sample.blob_of [Sample.santa_line]))
      (Some (js "UNKNOWN")) (PrimFloat.add (PrimFloat.mul 5501 1.05) 1) [] =
    (Ok (found_response Ref.platform Sample.santa), [raw_request])
  /\ lookupDisc Ref.platform (Sample.snapshot_host (Sample.blob_of [Sample.santa_line]))
      (Some (js "UNKNOWN")) 5790 [] =
    (Ok (found_response Ref.platform Sample.santa), [raw_request])
  /\ lookupDisc Ref.platform (Sample.snapshot_host (Sample.blob_of [Sample.santa_line]))
      (Some (js "UNKNOWN")) 5791 [] =
    (Ok (not_found_response Ref.platform (js "UNKNOWN") 5791), [raw_request]).
Proof.
  apply (lookup_tolerance_boundary Ref.platform
           (Sample.snapshot_host (Sample.blob_of [Sample.santa_line]))
           (js "UNKNOWN") (Sample.blob_of [Sample.santa_line]) Sample.santa).
  - discriminate.
  - eexists. repeat split.
  - vm_compute. reflexivity.
  - intros H. discriminate H.
  - reflexivity.
  - reflexivity.
Defined.

(** C3 as stated fails: one second beyond 5501*1.05 the record of 5501
    seconds is still returned (276.05 <= 288.85), and so it is for 5777, the
    integer the route would pass. *)
Lemma lookup_one_second_beyond_still_matches :
  lookupDisc Ref.platform (Sample.snapshot_host (Sample.blob_of [Sample.santa_line]))
      (Some (js "UNKNOWN")) (PrimFloat.add (PrimFloat.mul 5501 1.05) 1) [] =
    (Ok (found_response Ref.platform Sample.santa), [raw_request])
  /\ lookupDisc Ref.platform (Sample.snapshot_host (Sample.blob_of [Sample.santa_line]))
      (Some (js "UNKNOWN")) (PrimFloat.add (PrimFloat.mul 5501 1.05) 1) [] <>
    (Ok (not_found_response Ref.platform (js "UNKNOWN")
           (PrimFloat.add (PrimFloat.mul 5501 1.05) 1)), [raw_request])
  /\ lookupDisc Ref.platform (Sample.snapshot_host (Sample.blob_of [Sample.santa_line]))
      (Some (js "UNKNOWN")) 5777 [] =
    (Ok (found_response Ref.platform Sample.santa), [raw_request]).
Proof.
  split; [vm_compute; reflexivity|]. split; [|vm_compute; reflexivity].
  vm_compute. intros H. discriminate H.
Qed.


(** ** Validation and normalization *)

Lemma first_missing_some (data : JsValue) (fields : list jsstring)
    (field : jsstring) :
  first_missing data fields = Ok (Some field) <->
  exists pre post,
    fields = pre ++ field :: post /\
    Forall (fun f => exists v, get_prop data f = Ok v /\ truthy v = true) pre /\
    exists v, get_prop data field = Ok v /\ truthy v = false.
Proof.
  split.
  - induction fields as [|g fields IH]; simpl; intros H; [discriminate|].
    destruct (get_prop data g) as [x|e] eqn:Eg; simpl in H; [|discriminate].
    destruct (truthy x) eqn:Ex; simpl in H.
    + destruct (IH H) as (pre & post & -> & Hpre & Hf).
      exists (g :: pre), post. repeat split; eauto.
    + injection H as <-. exists [], fields. repeat split; eauto.
  - intros (pre & post & -> & Hpre & v & Hv & Hf).
    induction Hpre as [|g pre (x & Hx & Ht) _ IH]; simpl.
    + rewrite Hv. simpl. now rewrite Hf.
    + rewrite Hx. simpl. rewrite Ht. simpl. exact IH.
Qed.

(** After validation every reply is a 200 or a 500. *)
Lemma contribute_validated_status (P : Platform) (host : Host)
    (data : JsValue) (env : Env) (now : jsstring) (r : Response)
    (tr : list Request) :
  first_missing data required = Ok None ->
  contributeDisc P host data env now [] = (Ok r, tr) ->
  status r = 200%N \/ status r = 500%N.
Proof.
  intros Hv. destruct (validated_object data Hv) as [props ->].
  unfold contributeDisc. rewrite Hv, bind_lift_ok.
  destruct (GITHUB_TOKEN env) as [[|t0 token]|];
    try (intros H; injection H as <- _; right; reflexivity).
  rewrite make_entry_object, bind_lift_ok, bind_fetch.
  destruct (host [] _) as [fileResponse|e]; [|discriminate].
  destruct (ok fileResponse); cbn [negb];
    [|intros H; injection H as <- _; right; reflexivity].
  destruct (response_json P fileResponse) as [fileData|e]; [|discriminate].
  rewrite bind_lift_ok.
  destruct (get_prop fileData (js "content")) as [content|e]; [|discriminate].
  rewrite bind_lift_ok.
  destruct (content_replace content) as [stripped|e]; [|discriminate].
  rewrite bind_lift_ok.
  destruct (atob P stripped) as [cur|]; [|discriminate].
  cbn [of_option]. rewrite bind_lift_ok, some_duplicate, bind_lift_ok.
  destruct (existsb _ _); [intros H; injection H as <- _; left; reflexivity|].
  destruct (commit_message P _) as [message|e]; [|discriminate].
  rewrite bind_lift_ok.
  destruct (btoa P _) as [encoded|]; [|discriminate].
  cbn [of_option]. rewrite bind_lift_ok.
  destruct (get_prop fileData (js "sha")) as [sha|e]; [|discriminate].
  rewrite bind_lift_ok, bind_fetch.
  destruct (host _ _) as [upd|e]; [|discriminate].
  destruct (ok upd); cbn [negb]; intros H; injection H as <- _;
    [left|right]; reflexivity.
Qed.

(** ** After the read *)

Section Append.

Variable P : Platform.
Variable host : Host.
Variables (data : JsValue) (env : Env) (now token : jsstring).
Variables (fileData : JsValue) (cur : jsstring).

Hypothesis Hvalid : first_missing data required = Ok None.
Hypothesis Hread : reads_blob P host env token fileData cur.

(** A contribution that is not a duplicate, whose commit message can be built
    and whose new content [btoa] accepts, sends the read and then one
    update. *)
Lemma contribute_appends (message encoded : jsstring) :
  some_ (duplicate_pred P (entry_of data now)) (blob_lines cur) = Ok false ->
  commit_message P (entry_of data now) = Ok message ->
  btoa P (newContent_of P cur (entry_of data now)) = Some encoded ->
  exists sha,
    get_prop fileData (js "sha") = Ok sha /\
    contributeDisc P host data env now [] =
    match host [file_request token]
            (update_request token
               (update_payload P message encoded sha)) with
    | Ok upd =>
        (Ok (if ok upd then added_response P (entry_of data now)
             else commit_failed_response P (text upd)),
         [file_request token;
          update_request token (update_payload P message encoded sha)])
    | Throw e =>
        (Throw e,
         [file_request token;
          update_request token (update_payload P message encoded sha)])
    end.
Proof.
  intros Hdup Hmsg Henc.
  destruct (contribute_after_read P host data env now token fileData cur Hvalid Hread)
    as [sha [Hsha Hrun]].
  exists sha. split; [exact Hsha|].
  rewrite Hrun. unfold contribute_outcome.
  rewrite some_duplicate in Hdup. injection Hdup as ->.
  rewrite Hmsg, Henc. reflexivity.
Qed.

Lemma contribute_duplicate :
  some_ (duplicate_pred P (entry_of data now)) (blob_lines cur) = Ok true ->
  contributeDisc P host data env now [] =
  (Ok (duplicate_response P), [file_request token]).
Proof.
  intros Hdup.
  destruct (contribute_after_read P host data env now token fileData cur Hvalid Hread)
    as [sha [Hsha Hrun]].
  rewrite Hrun. unfold contribute_outcome.
  rewrite some_duplicate in Hdup. injection Hdup as ->. reflexivity.
Qed.

(** A contribution that is not a duplicate and sends no update has thrown:
    the commit message could not be built, or [btoa] refused the content. *)
Lemma contribute_not_submitted :
  some_ (duplicate_pred P (entry_of data now)) (blob_lines cur) = Ok false ->
  snd (contributeDisc P host data env now []) = [file_request token] ->
  exists e,
    contributeDisc P host data env now [] = (Throw e, [file_request token]) /\
    (commit_message P (entry_of data now) = Throw e \/
     (e = InvalidCharacterError /\
      btoa P (newContent_of P cur (entry_of data now)) = None)).
Proof.
  intros Hdup.
  destruct (contribute_after_read P host data env now token fileData cur Hvalid Hread)
    as [sha [Hsha Hrun]].
  rewrite Hrun. unfold contribute_outcome.
  rewrite some_duplicate in Hdup. injection Hdup as ->.
  destruct (commit_message P _) as [message|e]; [|intros _; eauto].
  destruct (btoa P _) as [encoded|]; [|intros _; eauto].
  cbv zeta. destruct (host _ _); intros H; discriminate H.
Qed.

(** A run whose trace holds a second request has passed the scan, built the
    commit message and encoded the new content; the second request is the
    update, and the answer of the host to it decides the outcome. *)
Lemma contribute_submitted (put : Request) :
  snd (contributeDisc P host data env now []) = [file_request token; put] ->
  exists sha message encoded,
    get_prop fileData (js "sha") = Ok sha /\
    some_ (duplicate_pred P (entry_of data now)) (blob_lines cur) = Ok false /\
    commit_message P (entry_of data now) = Ok message /\
    btoa P (newContent_of P cur (entry_of data now)) = Some encoded /\
    put = update_request token (update_payload P message encoded sha) /\
    contributeDisc P host data env now [] =
    match host [file_request token] put with
    | Ok upd =>
        (Ok (if ok upd then added_response P (entry_of data now)
             else commit_failed_response P (text upd)),
         [file_request token; put])
    | Throw e => (Throw e, [file_request token; put])
    end.
Proof.
  destruct (contribute_after_read P host data env now token fileData cur Hvalid Hread)
    as [sha [Hsha Hrun]].
  rewrite Hrun. unfold contribute_outcome. rewrite some_duplicate.
  destruct (existsb _ _); [discriminate|].
  destruct (commit_message P _) as [message|e]; [|discriminate].
  destruct (btoa P _) as [encoded|]; [|discriminate].
  cbv zeta. intros H.
  assert (Hput : put = update_request token (update_payload P message encoded sha)).
  { destruct (host _ _); simpl in H; now injection H. }
  exists sha, message, encoded. rewrite <- Hput. auto 10.
Qed.

End Append.

Lemma snd_match_outcome (A : Type) (o : Outcome FetchResponse)
    (f : FetchResponse -> Outcome A) (g : Exn -> Outcome A) (tr : list Request) :
  snd (match o with
       | Ok upd => (f upd, tr)
       | Throw e => (g e, tr)
       end) = tr.
Proof. destruct o; reflexivity. Qed.

(** What the router makes of [POST /contribute]: the reply of
    [contributeDisc], or a 500 carrying the message of what it threw. *)
Lemma fetch_contribute (P : Platform) (host : Host) (request : HttpRequest)
    (data : JsValue) (env : Env) (now : jsstring) :
  method request = js "POST" ->
  pathname request = js "/contribute" ->
  json request = Ok data ->
  fetch P host request env now [] =
  match contributeDisc P host data env now [] with
  | (Ok r, tr) => (Ok r, tr)
  | (Throw e, tr) =>
      (Ok (jsonResponse P (JObj [(js "error", JStr (message P e))]) 500), tr)
  end.
Proof.
  intros Hm Hp Hj. unfold fetch. rewrite Hm, Hp, Hj.
  change (str_eqb (js "POST") (js "OPTIONS")) with false.
  change (str_eqb (js "/contribute") (js "/db")) with false.
  change (str_eqb (js "/contribute") (js "/lookup")) with false.
  change (str_eqb (js "/contribute") (js "/contribute")) with true.
  change (str_eqb (js "POST") (js "POST")) with true.
  cbn [andb]. unfold catch. rewrite bind_lift_ok.
  destruct (contributeDisc P host data env now []) as [[r|e] tr]; reflexivity.
Qed.

(** What a contribution that submits an update stores and returns: the body
    of the update carries the encoding of the trimmed blob, a line feed, the
    serialization of the normalized record and a line feed; when the host
    accepts the update the reply carries that record. *)
Lemma contribute_stores (P : Platform) (host : Host)
    (props : list (jsstring * JsValue)) (env : Env) (now token : jsstring)
    (fileData : JsValue) (cur : jsstring) (put : Request) :
  first_missing (JObj props) required = Ok None ->
  reads_blob P host env token fileData cur ->
  snd (contributeDisc P host (JObj props) env now []) = [file_request token; put] ->
  exists message encoded sha,
    btoa P (trim cur ++ [LF]
            ++ JSON_stringify P (entry_of (JObj props) now) 0 ++ [LF])
    = Some encoded /\
    req_body put =
      Some (JSON_stringify P
              (JObj [ (js "message", JStr message);
                      (js "content", JStr encoded);
                      (js "sha", sha) ]) 0) /\
    (forall upd,
       host [file_request token] put = Ok upd -> ok upd = true ->
       contributeDisc P host (JObj props) env now [] =
       (Ok (jsonResponse P
              (JObj [(js "success", JBool true);
                     (js "message", JStr (js "Contribution added"));
                     (js "entry", entry_of (JObj props) now)]) 200),
        [file_request token; put])).
Proof.
  intros Hv Hr Htr.
  destruct (contribute_submitted P host (JObj props) env now token fileData cur
              Hv Hr put Htr)
    as (sha & message & encoded & Hsha & Hdup & Hmsg & Henc & Hput & Hrun).
  exists message, encoded, sha. split; [exact Henc|]. split.
  - rewrite Hput. reflexivity.
  - intros upd Hu Hok. rewrite Hrun, Hu, Hok. reflexivity.
Qed.

(** The guard [!data[field]] of the validation loop: on a body whose
    properties can be read, [contributeDisc] answers 400 for the first of
    [disc_label], [disc_type], [duration_secs], [title] that is absent or
    holds a falsy value ([null], [false], [0], [NaN], the empty string), with
    no request sent, and it answers 400 in no other case (on a body that is
    [null] the first read throws).  An input in which
    all four are present with [duration_secs] equal to 0 is rejected, naming
    [duration_secs]. *)
Lemma contribute_validation (P : Platform) (host : Host) (data : JsValue)
    (env : Env) (now : jsstring) :
  (forall field,
     first_falsy data field ->
     contributeDisc P host data env now [] =
     (Ok (missing_field_response P field), []))
  /\
  ((exists r tr,
      contributeDisc P host data env now [] = (Ok r, tr) /\ status r = 400%N)
   <-> exists field, first_falsy data field)
  /\
  (forall label type title,
     get_prop data (js "disc_label") = Ok label -> truthy label = true ->
     get_prop data (js "disc_type") = Ok type -> truthy type = true ->
     get_prop data (js "title") = Ok title -> truthy title = true ->
     get_prop data (js "duration_secs") = Ok (JNum 0) ->
     contributeDisc P host data env now [] =
     (Ok (missing_field_response P (js "duration_secs")), [])).
Proof.
  assert (Hrej : forall field,
             first_falsy data field ->
             contributeDisc P host data env now [] =
             (Ok (missing_field_response P field), [])).
  { intros field Hf. apply contribute_missing. now apply first_missing_some. }
  split; [exact Hrej|]. split.
  - split.
    + intros (r & tr & Hrun & Hst).
      destruct (first_missing data required) as [[field|]|e] eqn:Hv.
      * exists field. now apply first_missing_some.
      * destruct (contribute_validated_status P host data env now r tr Hv Hrun)
          as [E|E]; rewrite E in Hst; discriminate.
      * rewrite (contribute_throws P host data env now e Hv) in Hrun. discriminate.
    + intros [field Hf]. rewrite (Hrej field Hf). eauto.
  - intros label type title Hl Htl Ht Htt Hti Htti Hd.
    apply Hrej.
    exists [js "disc_label"; js "disc_type"], [js "title"].
    split; [reflexivity|]. split.
    + repeat constructor; eauto.
    + exists (JNum 0). split; [exact Hd|reflexivity].
Qed.

(** C6.  The validation does not do what its comment and its message say:
    in this input all four required fields are present and [duration_secs] is
    the integer 0, yet the contribution is answered 400, missing required
    field [duration_secs], before any request.  The guard tests the
    truthiness of the value, not the presence of the field. *)
Lemma zero_duration_rejected :
  Forall (fun f => exists v, lookup f [ (js "disc_label", JStr (js "EMPTY_DISC"));
                                        (js "disc_type", JStr (js "dvd"));
                                        (js "duration_secs", JNum 0);
                                        (js "title", JStr (js "Blank")) ] = Some v)
    required
  /\ get_prop Sample.zero_duration_input (js "duration_secs") = Ok (JNum 0)
  /\ contributeDisc Ref.platform
       (Sample.contents_host (Sample.blob_of [Sample.santa_line]) (js "abc123") true)
       Sample.zero_duration_input Sample.env Sample.now [] =
     (Ok (missing_field_response Ref.platform (js "duration_secs")), [])
  /\ status (missing_field_response Ref.platform (js "duration_secs")) = 400%N.
Proof.
  split; [repeat constructor; eexists; reflexivity|]. split; [reflexivity|].
  split; [vm_compute; reflexivity|reflexivity].
Qed.

Lemma first_missing_ext (data data' : JsValue) (fields : list jsstring) :
  (forall f, In f fields -> get_prop data f = get_prop data' f) ->
  first_missing data fields = first_missing data' fields.
Proof.
  induction fields as [|g fields IH]; simpl; intros H; [reflexivity|].
  rewrite <- (H g (or_introl eq_refl)).
  destruct (get_prop data g) as [x|e]; simpl; [|reflexivity].
  destruct (truthy x); simpl; [|reflexivity].
  apply IH. intros f Hf. apply H. now right.
Qed.

Lemma entry_contributed_at (data : JsValue) (now : jsstring) (entry : JsValue) :
  make_entry data now = Ok entry ->
  get_prop entry (js "contributed_at") = Ok (JStr now).
Proof.
  unfold make_entry. intros H.
  repeat match type of H with
         | obind ?c _ = _ => destruct c; simpl in H; [|discriminate]
         end.
  injection H as <-. reflexivity.
Qed.

(** C7. The [contributed_at] of the normalized record is the clock reading
    [now] taken by the worker.  [contributeDisc] never reads the input's own
    [contributed_at]: two inputs that agree on every other property, whatever
    either says about [contributed_at], produce the same record, the same
    requests and the same reply.  When a contribution submits an update, the
    content in its body is the encoding of the trimmed blob followed by the
    serialization of that record, and when the host accepts the update the
    reply carries that record. *)
Theorem contributed_at_server_set (P : Platform) (host : Host)
    (data : JsValue) (env : Env) (now : jsstring) :
  (forall entry,
     make_entry data now = Ok entry ->
     get_prop entry (js "contributed_at") = Ok (JStr now))
  /\
  (forall data',
     (forall k, k <> js "contributed_at" -> get_prop data' k = get_prop data k) ->
     make_entry data' now = make_entry data now /\
     forall tr,
       contributeDisc P host data' env now tr = contributeDisc P host data env now tr)
  /\
  (forall token fileData cur put,
     first_missing data required = Ok None ->
     reads_blob P host env token fileData cur ->
     snd (contributeDisc P host data env now []) = [file_request token; put] ->
     exists stored message encoded sha,
       make_entry data now = Ok stored /\
       get_prop stored (js "contributed_at") = Ok (JStr now) /\
       btoa P (trim cur ++ [LF] ++ JSON_stringify P stored 0 ++ [LF])
       = Some encoded /\
       req_body put =
         Some (JSON_stringify P
                 (JObj [ (js "message", JStr message);
                         (js "content", JStr encoded);
                         (js "sha", sha) ]) 0) /\
       (forall upd,
          host [file_request token] put = Ok upd -> ok upd = true ->
          contributeDisc P host data env now [] =
          (Ok (jsonResponse P
                 (JObj [(js "success", JBool true);
                        (js "message", JStr (js "Contribution added"));
                        (js "entry", stored)]) 200),
           [file_request token; put]))).
Proof.
  split; [intros entry; apply entry_contributed_at|]. split.
  - intros data' Hsame.
    assert (Hm : make_entry data' now = make_entry data now).
    { unfold make_entry. rewrite !Hsame by discriminate. reflexivity. }
    split; [exact Hm|]. intros tr.
    unfold contributeDisc. rewrite Hm.
    rewrite (first_missing_ext data' data required); [reflexivity|].
    intros f Hf. apply Hsame.
    simpl in Hf. intuition (subst f; discriminate).
  - intros token fileData cur put Hv Hr Htr.
    destruct (validated_object data Hv) as [props ->].
    destruct (contribute_stores P host props env now token fileData cur put
                Hv Hr Htr) as (message & encoded & sha & Henc & Hbody & Hok).
    exists (entry_of (JObj props) now), message, encoded, sha.
    split; [reflexivity|]. split; [reflexivity|]. auto.
Qed.

(** The input of [elf_input] carries [contributed_at] 1999-01-01; the record
    stored and returned carries the clock reading. *)
Example contributed_at_overwritten :
  get_prop Sample.elf_input (js "contributed_at")
    = Ok (JStr (js "1999-01-01T00:00:00Z"))
  /\ make_entry Sample.elf_input Sample.now = Ok Sample.elf_entry
  /\ get_prop Sample.elf_entry (js "contributed_at") = Ok (JStr Sample.now)
  /\ fst (contributeDisc Ref.platform
            (Sample.contents_host (Sample.blob_of [Sample.santa_line]) (js "abc123") true)
            Sample.elf_input Sample.env Sample.now [])
     = Ok (added_response Ref.platform Sample.elf_entry).
Proof. repeat split; vm_compute; reflexivity. Qed.

(** C10. The normalized record has exactly the eight schema fields, in the
    order of the object literal: the four required fields are copied, any
    other property of the input is dropped, [track_count] is 0 when the
    input's is falsy, and [year] and [tmdb_id] are [null] when the input does
    not supply them.  That record is what a contribution stores and returns:
    the update it submits carries the encoding of the trimmed blob followed
    by the serialization of that record, and the reply to an accepted update
    carries the record itself. *)
Theorem entry_has_schema_fields (P : Platform) (host : Host)
    (data : JsValue) (env : Env) (now : jsstring) :
  (forall (Hdata : ~ nullish data),
   exists props,
     make_entry data now = Ok (JObj props) /\
     map fst props = schema /\
     (forall k, ~ In k schema -> get_prop (JObj props) k = Ok JUndefined) /\
     (forall f, In f required -> get_prop (JObj props) f = get_prop data f) /\
     (forall v, get_prop data (js "track_count") = Ok v ->
        get_prop (JObj props) (js "track_count")
        = Ok (if truthy v then v else JNum 0)) /\
     (get_prop data (js "year") = Ok JUndefined ->
        get_prop (JObj props) (js "year") = Ok JNull) /\
     (get_prop data (js "tmdb_id") = Ok JUndefined ->
        get_prop (JObj props) (js "tmdb_id") = Ok JNull))
  /\
  (forall token fileData cur put,
     first_missing data required = Ok None ->
     reads_blob P host env token fileData cur ->
     snd (contributeDisc P host data env now []) = [file_request token; put] ->
     exists props message encoded sha,
       make_entry data now = Ok (JObj props) /\
       map fst props = schema /\
       btoa P (trim cur ++ [LF] ++ JSON_stringify P (JObj props) 0 ++ [LF])
       = Some encoded /\
       req_body put =
         Some (JSON_stringify P
                 (JObj [ (js "message", JStr message);
                         (js "content", JStr encoded);
                         (js "sha", sha) ]) 0) /\
       (forall upd,
          host [file_request token] put = Ok upd -> ok upd = true ->
          contributeDisc P host data env now [] =
          (Ok (jsonResponse P
                 (JObj [(js "success", JBool true);
                        (js "message", JStr (js "Contribution added"));
                        (js "entry", JObj props)]) 200),
           [file_request token; put]))).
Proof.
  split.
  - intros Hdata. rewrite (make_entry_ok data now Hdata).
    eexists. split; [reflexivity|]. split; [reflexivity|].
    split; [|split; [|split; [|split]]].
    + intros k Hk. cbn [get_prop lookup].
      assert (Hl : forall s, In s schema -> str_eqb s k = false).
      { intros s Hs. apply str_eqb_neq. intros ->. contradiction. }
      rewrite !Hl by (unfold schema; simpl; tauto). reflexivity.
    + intros f Hf.
      destruct (get_prop_total data f Hdata) as [x Hx].
      simpl in Hf.
      destruct Hf as [<-|[<-|[<-|[<-|[]]]]];
        match goal with
        | |- ?lhs = get_prop data ?k =>
            change lhs with (Ok (match get_prop data k with
                                 | Ok v => v | Throw _ => JUndefined end))
        end; rewrite Hx; reflexivity.
    + intros v Hv. simpl. rewrite Hv. reflexivity.
    + intros Hy. simpl. rewrite Hy. reflexivity.
    + intros Hy. simpl. rewrite Hy. reflexivity.
  - intros token fileData cur put Hv Hr Htr.
    destruct (validated_object data Hv) as [props ->].
    destruct (contribute_stores P host props env now token fileData cur put
                Hv Hr Htr) as (message & encoded & sha & Henc & Hbody & Hok).
    eexists. exists message, encoded, sha.
    split; [reflexivity|]. split; [reflexivity|]. auto.
Qed.

Example extra_properties_dropped :
  get_prop Sample.elf_input (js "path") = Ok (JStr (js "/home/me/rips"))
  /\ get_prop Sample.elf_entry (js "path") = Ok JUndefined
  /\ make_entry Sample.elf_input Sample.now = Ok Sample.elf_entry.
Proof. repeat split. Qed.

(** ** The duplicate scan and the parse policy *)

Lemma parse_lines_fail (P : Platform) (lines : list jsstring) (line : jsstring) :
  In line lines -> JSON_parse P line = None ->
  parse_lines P lines = Throw SyntaxError.
Proof.
  induction lines as [|l lines IH]; simpl; intros Hin Hp; [contradiction|].
  destruct (JSON_parse P l) as [e|] eqn:El; simpl; [|reflexivity].
  destruct Hin as [->|Hin]; [congruence|].
  now rewrite (IH Hin Hp).
Qed.

Lemma existsb_filter_parseable (P : Platform) (entry : JsValue)
    (lines : list jsstring) :
  existsb (same_label P entry) lines =
  existsb (same_label P entry)
    (filter (fun l => match JSON_parse P l with Some _ => true | None => false end)
       lines).
Proof.
  induction lines as [|l lines IH]; simpl; [reflexivity|].
  unfold same_label at 1.
  destruct (JSON_parse P l) as [existing|] eqn:El; simpl.
  - unfold same_label at 2. rewrite El. now rewrite IH.
  - exact IH.
Qed.

(** C8. The two parse policies.  On the write path the callback of the
    duplicate scan catches every exception: an unparseable line counts as "not
    a duplicate", the scan returns a boolean on every blob, its result is that
    of the scan over the parseable lines alone, and a contribution that has
    read the blob can only throw after the scan has said "not a duplicate":
    a TypeError when the commit message cannot be built, [btoa] refusing the
    new content, or the update request failing.  On the read path an unparseable line makes [getDatabase] and [lookupDisc]
    throw the SyntaxError, which the router reports as a 500. *)
Theorem parse_policy (P : Platform) (host : Host) :
  (forall entry line,
     JSON_parse P line = None -> duplicate_pred P entry line = Ok false)
  /\
  (forall entry lines,
     some_ (duplicate_pred P entry) lines
     = Ok (existsb (same_label P entry) lines)
     /\ some_ (duplicate_pred P entry) lines
        = some_ (duplicate_pred P entry)
            (filter (fun l => match JSON_parse P l with
                              | Some _ => true | None => false end) lines))
  /\
  (forall data env now token fileData cur e tr,
     first_missing data required = Ok None ->
     reads_blob P host env token fileData cur ->
     contributeDisc P host data env now [] = (Throw e, tr) ->
     some_ (duplicate_pred P (entry_of data now)) (blob_lines cur) = Ok false /\
     ((e = TypeError /\ tr = [file_request token] /\
       commit_message P (entry_of data now) = Throw TypeError)
      \/
      (e = InvalidCharacterError /\ tr = [file_request token] /\
       btoa P (newContent_of P cur (entry_of data now)) = None)
      \/
      (exists put, tr = [file_request token; put] /\
                   host [file_request token] put = Throw e)))
  /\
  (forall blob line,
     serves_snapshot host blob ->
     In line (blob_lines blob) ->
     JSON_parse P line = None ->
     getDatabase P host [] = (Throw SyntaxError, [raw_request])
     /\ (forall label duration,
           label <> [] ->
           lookupDisc P host (Some label) duration [] =
           (Throw SyntaxError, [raw_request]))
     /\ (forall request env now,
           method request = js "GET" -> pathname request = js "/db" ->
           fetch P host request env now [] =
           (Ok (jsonResponse P
                  (JObj [(js "error", JStr (message P SyntaxError))]) 500),
            [raw_request]))).
Proof.
  split; [|split; [|split]].
  - intros entry line H. rewrite duplicate_pred_eq.
    unfold same_label. now rewrite H.
  - intros entry lines. split; [apply some_duplicate|].
    rewrite !some_duplicate. f_equal. apply existsb_filter_parseable.
  - intros data env now token fileData cur e tr Hv Hr Hrun.
    destruct (contribute_after_read P host data env now token fileData cur Hv Hr)
      as [sha [_ Hout]].
    rewrite Hout in Hrun. unfold contribute_outcome in Hrun.
    rewrite some_duplicate.
    destruct (existsb _ _); [discriminate|]. split; [reflexivity|].
    destruct (commit_message P _) as [message|x] eqn:Em.
    + destruct (btoa P _) as [encoded|] eqn:Eb.
      * cbv zeta in Hrun.
        destruct (host _ _) as [upd|e'] eqn:Eh; [discriminate|].
        injection Hrun as <- <-. right. right. eauto.
      * injection Hrun as <- <-. right. left. auto.
    + injection Hrun as <- <-.
      pose proof (commit_message_throws P _ x Em). subst x. left. auto.
  - intros blob line (response & Hget & Hok & Htext) Hin Hp.
    pose proof (parse_lines_fail P (blob_lines blob) line Hin Hp) as Hfail.
    assert (Hdb : getDatabase P host [] = (Throw SyntaxError, [raw_request])).
    { unfold getDatabase. rewrite bind_fetch, Hget, Hok. cbn [negb].
      rewrite Htext, Hfail. reflexivity. }
    split; [exact Hdb|]. split.
    + intros label duration Hl. destruct label as [|c label]; [contradiction|].
      unfold lookupDisc. rewrite bind_fetch, Hget, Hok. cbn [negb].
      rewrite Htext, Hfail. reflexivity.
    + intros request env now Hm Hpath. unfold fetch. rewrite Hm, Hpath.
      change (str_eqb (js "GET") (js "OPTIONS")) with false.
      change (str_eqb (js "/db") (js "/db")) with true.
      change (str_eqb (js "GET") (js "GET")) with true.
      cbn [andb]. unfold catch. rewrite Hdb. reflexivity.
Qed.

(** A blob whose second line is cut short: the contribution of a new label
    goes through and keeps the broken line, while the listing and the lookup
    throw. *)
Example broken_line_on_both_paths :
  contributeDisc Ref.platform
    (Sample.contents_host
       (Sample.blob_of [Sample.santa_line; Sample.broken_line]) (js "abc123") true)
    Sample.elf_input Sample.env Sample.now []
  = contribute_outcome Ref.platform
      (Sample.contents_host
         (Sample.blob_of [Sample.santa_line; Sample.broken_line]) (js "abc123") true)
      (js "ghp_secret") Sample.elf_entry (JStr (js "abc123"))
      (Sample.blob_of [Sample.santa_line; Sample.broken_line])
  /\ fst (contributeDisc Ref.platform
            (Sample.contents_host
               (Sample.blob_of [Sample.santa_line; Sample.broken_line]) (js "abc123") true)
            Sample.elf_input Sample.env Sample.now [])
     = Ok (added_response Ref.platform Sample.elf_entry)
  /\ blob_lines (newContent_of Ref.platform
                   (Sample.blob_of [Sample.santa_line; Sample.broken_line])
                   Sample.elf_entry)
     = [Sample.santa_line; Sample.broken_line;
        Ref.JSON_stringify Sample.elf_entry 0]
  /\ getDatabase Ref.platform
       (Sample.snapshot_host (Sample.blob_of [Sample.santa_line; Sample.broken_line])) []
     = (Throw SyntaxError, [raw_request])
  /\ lookupDisc Ref.platform
       (Sample.snapshot_host (Sample.blob_of [Sample.santa_line; Sample.broken_line]))
       (Some (js "SC30NNW1")) 5501 []
     = (Throw SyntaxError, [raw_request]).
Proof. repeat split; vm_compute; reflexivity. Qed.

(** ** The conditional append *)


(** C9. The update a contribution submits carries, encoded, the previous
    content without the white space around it (the WhiteSpace and
    LineTerminator code units of ECMA-262), a line feed (code unit 10),
    [JSON.stringify(entry)] and a line feed.  The new content ends with a
    line feed, and when the serialized record is one line its record lines
    are the record lines of the previous content, unchanged and in order,
    followed by the new record.  When the host accepts the update the reply
    is "Contribution added" with the record. *)
Theorem append_preserves_lines (P : Platform) (host : Host)
    (data : JsValue) (env : Env) (now token : jsstring)
    (fileData : JsValue) (cur : jsstring) (put : Request) :
  first_missing data required = Ok None ->
  reads_blob P host env token fileData cur ->
  snd (contributeDisc P host data env now []) = [file_request token; put] ->
  (forall c,
     is_ws c = true <->
     In c [9; 10; 11; 12; 13; 32; 160; 5760; 8192; 8193; 8194; 8195; 8196; 8197;
           8198; 8199; 8200; 8201; 8202; 8232; 8233; 8239; 8287; 12288; 65279]%N) /\
  LF = 10%N /\
  exists entry before kept after message encoded sha,
    make_entry data now = Ok entry /\
    cur = before ++ kept ++ after /\
    forallb is_ws before = true /\
    forallb is_ws after = true /\
    tight kept /\
    let line := JSON_stringify P entry 0 in
    let newContent := kept ++ [LF] ++ line ++ [LF] in
    btoa P newContent = Some encoded /\
    req_method put = js "PUT" /\
    req_url put =
      js "https://api.github.com/repos/paul-tastic/ripforge-disc-db/contents/disc_database.jsonl" /\
    req_body put =
      Some (JSON_stringify P
              (JObj [ (js "message", JStr message);
                      (js "content", JStr encoded);
                      (js "sha", sha) ]) 0) /\
    (forall upd,
       host [file_request token] put = Ok upd -> ok upd = true ->
       contributeDisc P host data env now [] =
       (Ok (jsonResponse P
              (JObj [(js "success", JBool true);
                     (js "message", JStr (js "Contribution added"));
                     (js "entry", entry)]) 200),
        [file_request token; put])) /\
    last newContent 0%N = LF /\
    (one_line line = true ->
     blob_lines newContent = blob_lines cur ++ [line]).
Proof.
  intros Hv Hr Htr.
  destruct (validated_object data Hv) as [props ->].
  destruct (contribute_submitted P host (JObj props) env now token fileData cur
              Hv Hr put Htr)
    as (sha & message & encoded & Hsha & Hdup & Hmsg & Henc & Hput & Hrun).
  destruct (trim_split cur) as (before & after & Hcur & Hb & Ha).
  split; [exact is_ws_spec|]. split; [reflexivity|].
  exists (entry_of (JObj props) now), before, (trim cur), after,
    message, encoded, sha.
  split; [reflexivity|]. split; [exact Hcur|].
  split; [exact Hb|]. split; [exact Ha|]. split; [apply tight_trim|].
  cbv zeta. split; [exact Henc|].
  subst put.
  split; [reflexivity|]. split; [reflexivity|]. split; [reflexivity|].
  split; [|split].
  - intros upd Hu Hok. rewrite Hrun, Hu, Hok. reflexivity.
  - rewrite !app_assoc. apply last_last.
  - intros Hline. apply blob_lines_append. exact Hline.
Qed.

(** ** Idempotence and uniqueness of labels *)

Lemma entry_label (data : JsValue) (now label : jsstring) :
  get_prop data (js "disc_label") = Ok (JStr label) ->
  get_prop (entry_of data now) (js "disc_label") = Ok (JStr label).
Proof.
  intros H.
  change (get_prop (entry_of data now) (js "disc_label"))
    with (Ok (match get_prop data (js "disc_label") with
              | Ok v => v | Throw _ => JUndefined end)).
  now rewrite H.
Qed.

Lemma same_label_occurs (P : Platform) (entry : JsValue) (label line : jsstring) :
  get_prop entry (js "disc_label") = Ok (JStr label) ->
  (same_label P entry line = true <-> In label (label_of_line P line)).
Proof.
  intros He. unfold same_label, label_of_line. rewrite He.
  destruct (JSON_parse P line) as [existing|]; [|split; [discriminate|contradiction]].
  destruct (get_prop existing (js "disc_label")) as [a|x];
    [|split; [discriminate|contradiction]].
  rewrite strict_eq_str. split.
  - intros ->. now left.
  - destruct a; simpl; try contradiction. intros [->|[]]. reflexivity.
Qed.

Lemma scan_finds_label (P : Platform) (entry : JsValue) (label : jsstring)
    (lines : list jsstring) :
  get_prop entry (js "disc_label") = Ok (JStr label) ->
  (existsb (same_label P entry) lines = true
   <-> In label (flat_map (label_of_line P) lines)).
Proof.
  intros He. rewrite existsb_exists, in_flat_map.
  split; intros (line & Hin & H); exists line; split; try assumption;
    now apply (same_label_occurs P entry label line He).
Qed.

Lemma NoDup_snoc (A : Type) (l : list A) (x : A) :
  NoDup l -> ~ In x l -> NoDup (l ++ [x]).
Proof.
  induction 1 as [|a l Ha Hl IH]; simpl; intros Hx.
  - constructor; [intros []|constructor].
  - constructor.
    + rewrite in_app_iff. simpl. intros [H|[H|[]]]; [contradiction|].
      apply Hx. now left.
    + apply IH. intros H. apply Hx. now right.
Qed.

(** C1, as amended.  A contribution whose [disc_label] is a string that is
    already the [disc_label] of a parseable line of the blob it read is
    answered with [success: true] and [duplicate: true] after the read alone:
    no update is sent.  Hence string labels stay unique: for a blob whose
    labels are pairwise distinct, a contribution with a string label either
    sends no update, or the content it submits has the labels of the blob
    followed by the new label, again pairwise distinct. *)
Theorem duplicate_contribution_is_idempotent (P : Platform) (host : Host)
    (data : JsValue) (env : Env) (now token : jsstring)
    (fileData : JsValue) (cur label : jsstring) :
  first_missing data required = Ok None ->
  get_prop data (js "disc_label") = Ok (JStr label) ->
  reads_blob P host env token fileData cur ->
  ((exists line existing,
      In line (blob_lines cur) /\
      JSON_parse P line = Some existing /\
      get_prop existing (js "disc_label") = Ok (JStr label)) ->
   contributeDisc P host data env now [] =
   (Ok (duplicate_response P), [file_request token]))
  /\
  (NoDup (labels P cur) ->
   one_line (JSON_stringify P (entry_of data now) 0) = true ->
   (exists stored,
      JSON_parse P (JSON_stringify P (entry_of data now) 0) = Some stored /\
      get_prop stored (js "disc_label") = Ok (JStr label)) ->
   snd (contributeDisc P host data env now []) = [file_request token]
   \/
   exists put message encoded sha,
     snd (contributeDisc P host data env now []) = [file_request token; put]
     /\ req_body put =
          Some (JSON_stringify P
                  (JObj [ (js "message", JStr message);
                          (js "content", JStr encoded);
                          (js "sha", sha) ]) 0)
     /\ btoa P (newContent_of P cur (entry_of data now)) = Some encoded
     /\ labels P (newContent_of P cur (entry_of data now)) = labels P cur ++ [label]
     /\ NoDup (labels P (newContent_of P cur (entry_of data now)))).
Proof.
  intros Hv Hl Hr.
  pose proof (entry_label data now label Hl) as He.
  destruct (contribute_after_read P host data env now token fileData cur Hv Hr)
    as [sha [Hsha Hrun]].
  split.
  - intros (line & existing & Hin & Hp & Hx).
    apply (contribute_duplicate P host data env now token fileData cur Hv Hr).
    rewrite some_duplicate. f_equal.
    apply (scan_finds_label P _ label _ He).
    apply in_flat_map. exists line. split; [exact Hin|].
    unfold label_of_line. rewrite Hp, Hx. now left.
  - intros Hnd Hline (stored & Hp & Hs).
    rewrite Hrun. unfold contribute_outcome.
    destruct (existsb _ _) eqn:Hdup; [left; reflexivity|].
    destruct (commit_message P _) as [message|x]; [|left; reflexivity].
    destruct (btoa P _) as [encoded|] eqn:Henc; [|left; reflexivity].
    right.
    exists (update_request token (update_payload P message encoded sha)),
      message, encoded, sha.
    cbv zeta.
    split; [apply snd_match_outcome|]. split; [reflexivity|].
    split; [reflexivity|].
    assert (Hlabels : labels P (newContent_of P cur (entry_of data now))
                      = labels P cur ++ [label]).
    { unfold labels, newContent_of.
      rewrite (blob_lines_append cur _ Hline), flat_map_app. simpl.
      unfold label_of_line at 2. rewrite Hp, Hs. reflexivity. }
    split; [exact Hlabels|].
    rewrite Hlabels. apply NoDup_snoc; [exact Hnd|].
    intros Hin. apply (scan_finds_label P _ label _ He) in Hin.
    unfold labels in Hin. congruence.
Qed.

(** C1 as stated fails for a label that is not a string.  The label of
    [array_label_input] is the array holding SC30NNW1; it passes validation,
    and it is the [disc_label] of the one line of the blob, which parses.
    Yet the scan compares two distinct arrays with [===]: the contribution is
    answered "Contribution added", not "duplicate", an update is sent, and in
    the content it carries both record lines parse to a record with that
    label. *)
Lemma array_label_is_stored_twice :
  first_missing Odd.array_label_input required = Ok None
  /\ (exists line existing,
        In line (blob_lines Odd.array_label_blob) /\
        Ref.JSON_parse line = Some existing /\
        get_prop existing (js "disc_label")
        = get_prop Odd.array_label_input (js "disc_label"))
  /\ (exists put,
        contributeDisc Ref.platform
          (Sample.contents_host Odd.array_label_blob (js "abc123") true)
          Odd.array_label_input Sample.env Sample.now [] =
        (Ok (added_response Ref.platform
               (entry_of Odd.array_label_input Sample.now)),
         [file_request (js "ghp_secret"); put])
        /\ req_method put = js "PUT"
        /\ req_body put =
             Some (Ref.JSON_stringify
                     (JObj [ (js "message",
                              JStr (js "Add disc: SC30NNW1 -> Santa Clause 3"));
                             (js "content",
                              JStr (Sample.encoded_append Odd.array_label_blob
                                      (entry_of Odd.array_label_input Sample.now)));
                             (js "sha", JStr (js "abc123")) ]) 0))
  /\ contributeDisc Ref.platform
       (Sample.contents_host Odd.array_label_blob (js "abc123") true)
       Odd.array_label_input Sample.env Sample.now [] <>
     (Ok (duplicate_response Ref.platform), [file_request (js "ghp_secret")])
  /\ map (fun line =>
            match Ref.JSON_parse line with
            | Some existing => get_prop existing (js "disc_label")
            | None => Throw SyntaxError
            end)
       (blob_lines (newContent_of Ref.platform Odd.array_label_blob
                      (entry_of Odd.array_label_input Sample.now)))
     = [ Ok (JArr [JStr (js "SC30NNW1")]); Ok (JArr [JStr (js "SC30NNW1")]) ].
Proof.
  split; [vm_compute; reflexivity|]. split.
  { eexists. eexists. split; [vm_compute; left; reflexivity|].
    split; vm_compute; reflexivity. }
  split.
  { eexists. split; [vm_compute; reflexivity|]. split; vm_compute; reflexivity. }
  split; [|vm_compute; reflexivity].
  vm_compute. intros H. discriminate H.
Qed.

Lemma sample_reads_blob (accept : bool) :
  reads_blob Ref.platform
    (Sample.contents_host Sample.santa_blob (js "abc123") accept) Sample.env
    (js "ghp_secret") (Sample.file_data Sample.santa_blob (js "abc123"))
    Sample.santa_blob.
Proof.
  split; [reflexivity|]. split; [discriminate|].
  eexists. eexists.
  split; [reflexivity|]. split; [reflexivity|].
  split; [vm_compute; reflexivity|].
  split; [reflexivity|vm_compute; reflexivity].
Defined.

Lemma duplicate_contribution_is_idempotent_witness :
  contributeDisc Ref.platform
    (Sample.contents_host Sample.santa_blob (js "abc123") true)
    Sample.santa_again Sample.env Sample.now [] =
  (Ok (duplicate_response Ref.platform), [file_request (js "ghp_secret")])
  /\
  (snd (contributeDisc Ref.platform
          (Sample.contents_host Sample.santa_blob (js "abc123") true)
          Sample.elf_input Sample.env Sample.now [])
   = [file_request (js "ghp_secret")]
   \/
   exists put message encoded sha,
     snd (contributeDisc Ref.platform
            (Sample.contents_host Sample.santa_blob (js "abc123") true)
            Sample.elf_input Sample.env Sample.now []) =
       [file_request (js "ghp_secret"); put]
     /\ req_body put =
          Some (JSON_stringify Ref.platform
                  (JObj [ (js "message", JStr message);
                          (js "content", JStr encoded);
                          (js "sha", sha) ]) 0)
     /\ btoa Ref.platform
          (newContent_of Ref.platform Sample.santa_blob
             (entry_of Sample.elf_input Sample.now)) = Some encoded
     /\ labels Ref.platform
          (newContent_of Ref.platform Sample.santa_blob
             (entry_of Sample.elf_input Sample.now))
        = labels Ref.platform Sample.santa_blob ++ [js "ELF_2003"]
     /\ NoDup (labels Ref.platform
                 (newContent_of Ref.platform Sample.santa_blob
                    (entry_of Sample.elf_input Sample.now)))).
Proof.
  split.
  - apply (proj1 (duplicate_contribution_is_idempotent Ref.platform
                    (Sample.contents_host Sample.santa_blob
                       (js "abc123") true)
                    Sample.santa_again Sample.env Sample.now (js "ghp_secret")
                    (Sample.file_data Sample.santa_blob (js "abc123"))
                    Sample.santa_blob (js "SC30NNW1")
                    ltac:(vm_compute; reflexivity) ltac:(reflexivity)
                    (sample_reads_blob true))).
    exists Sample.santa_line, Sample.santa.
    split; [vm_compute; left; reflexivity|].
    split; [vm_compute; reflexivity|reflexivity].
  - apply (proj2 (duplicate_contribution_is_idempotent Ref.platform
                    (Sample.contents_host Sample.santa_blob
                       (js "abc123") true)
                    Sample.elf_input Sample.env Sample.now (js "ghp_secret")
                    (Sample.file_data Sample.santa_blob (js "abc123"))
                    Sample.santa_blob (js "ELF_2003")
                    ltac:(vm_compute; reflexivity) ltac:(reflexivity)
                    (sample_reads_blob true))).
    + vm_compute. repeat constructor. intros [].
    + vm_compute. reflexivity.
    + exists Sample.elf_entry. split; [vm_compute; reflexivity|reflexivity].
Defined.

(** Submitting the README's label again leaves the blob alone; submitting a
    new label sends one update whose content holds both records. *)
Example second_submission :
  contributeDisc Ref.platform
    (Sample.contents_host Sample.santa_blob (js "abc123") true)
    Sample.santa_again Sample.env Sample.now [] =
  (Ok (duplicate_response Ref.platform), [file_request (js "ghp_secret")])
  /\ labels Ref.platform Sample.santa_blob = [js "SC30NNW1"]
  /\ labels Ref.platform
       (newContent_of Ref.platform Sample.santa_blob Sample.elf_entry)
     = [js "SC30NNW1"; js "ELF_2003"]
  /\ contributeDisc Ref.platform
       (Sample.contents_host
          (newContent_of Ref.platform Sample.santa_blob Sample.elf_entry)
          (js "def456") true)
       Sample.elf_input Sample.env Sample.now [] =
     (Ok (duplicate_response Ref.platform), [file_request (js "ghp_secret")]).
Proof. repeat split; vm_compute; reflexivity. Qed.


(** The host rejects the update: the caller gets the 500 with the host's
    text, and the update that was sent carried the token of the read. *)
Example rejected_update :
  contributeDisc Ref.platform
    (Sample.contents_host Sample.santa_blob (js "abc123") false)
    Sample.elf_input Sample.env Sample.now [] =
  (Ok (commit_failed_response Ref.platform
         (Sample.json_text "{'message':'is at a different sha','status':'409'}")),
   [file_request (js "ghp_secret");
    update_request (js "ghp_secret")
      (Ref.JSON_stringify
         (JObj [ (js "message", JStr (js "Add disc: ELF_2003 -> Elf"));
                 (js "content",
                  JStr (Sample.encoded_append Sample.santa_blob Sample.elf_entry));
                 (js "sha", JStr (js "abc123")) ]) 0)]).
Proof. vm_compute. reflexivity. Qed.

Lemma append_preserves_lines_witness :
  (forall c,
     is_ws c = true <->
     In c [9; 10; 11; 12; 13; 32; 160; 5760; 8192; 8193; 8194; 8195; 8196; 8197;
           8198; 8199; 8200; 8201; 8202; 8232; 8233; 8239; 8287; 12288; 65279]%N) /\
  LF = 10%N /\
  exists entry before kept after message encoded sha,
    make_entry Sample.elf_input Sample.now = Ok entry /\
    Sample.santa_blob = before ++ kept ++ after /\
    forallb is_ws before = true /\
    forallb is_ws after = true /\
    tight kept /\
    let line := JSON_stringify Ref.platform entry 0 in
    let newContent := kept ++ [LF] ++ line ++ [LF] in
    btoa Ref.platform newContent = Some encoded /\
    req_method (Sample.elf_update Sample.santa_blob (js "abc123")) = js "PUT" /\
    req_url (Sample.elf_update Sample.santa_blob (js "abc123")) =
      js "https://api.github.com/repos/paul-tastic/ripforge-disc-db/contents/disc_database.jsonl" /\
    req_body (Sample.elf_update Sample.santa_blob (js "abc123")) =
      Some (JSON_stringify Ref.platform
              (JObj [ (js "message", JStr message);
                      (js "content", JStr encoded);
                      (js "sha", sha) ]) 0) /\
    (forall upd,
       Sample.contents_host Sample.santa_blob (js "abc123") true
         [file_request (js "ghp_secret")]
         (Sample.elf_update Sample.santa_blob (js "abc123")) = Ok upd ->
       ok upd = true ->
       contributeDisc Ref.platform
         (Sample.contents_host Sample.santa_blob (js "abc123") true)
         Sample.elf_input Sample.env Sample.now [] =
       (Ok (jsonResponse Ref.platform
              (JObj [(js "success", JBool true);
                     (js "message", JStr (js "Contribution added"));
                     (js "entry", entry)]) 200),
        [file_request (js "ghp_secret");
         Sample.elf_update Sample.santa_blob (js "abc123")])) /\
    last newContent 0%N = LF /\
    (one_line line = true ->
     blob_lines newContent = blob_lines Sample.santa_blob ++ [line]).
Proof.
  apply (append_preserves_lines Ref.platform
           (Sample.contents_host Sample.santa_blob (js "abc123") true)
           Sample.elf_input Sample.env Sample.now (js "ghp_secret")
           (Sample.file_data Sample.santa_blob (js "abc123"))
           Sample.santa_blob
           (Sample.elf_update Sample.santa_blob (js "abc123"))).
  - vm_compute. reflexivity.
  - apply sample_reads_blob.
  - vm_compute. reflexivity.
Defined.

(** The content submitted for [elf_input] on the README's database, decoded:
    the old line, then the new record, each ended by a line feed. *)
Example appended_blob :
  Ref.atob (Sample.encoded_append Sample.santa_blob Sample.elf_entry)
  = Some (Sample.santa_line ++ [LF]
          ++ Sample.json_text "{'disc_label':'ELF_2003','disc_type':'dvd','duration_secs':5820,'track_count':0,'title':'Elf','year':null,'tmdb_id':null,'contributed_at':'2026-03-01T12:00:00.000Z'}"
          ++ [LF])
  /\ one_line (Ref.JSON_stringify Sample.elf_entry 0) = true
  /\ blob_lines (newContent_of Ref.platform Sample.santa_blob Sample.elf_entry)
     = [Sample.santa_line; Ref.JSON_stringify Sample.elf_entry 0].
Proof. repeat split; vm_compute; reflexivity. Qed.

(** ** The general theorems on the sample requests *)

(** [elf_input] without its [contributed_at] runs as [elf_input] does; and
    the update sent for [elf_input] carries the record stamped with the clock
    reading. *)
Lemma contributed_at_server_set_witness :
  (make_entry
     (JObj [ (js "disc_label", JStr (js "ELF_2003"));
             (js "disc_type", JStr (js "dvd"));
             (js "duration_secs", JNum 5820);
             (js "title", JStr (js "Elf"));
             (js "path", JStr (js "/home/me/rips")) ]) Sample.now
   = make_entry Sample.elf_input Sample.now
   /\ forall tr,
        contributeDisc Ref.platform
          (Sample.contents_host Sample.santa_blob (js "abc123") true)
          (JObj [ (js "disc_label", JStr (js "ELF_2003"));
                  (js "disc_type", JStr (js "dvd"));
                  (js "duration_secs", JNum 5820);
                  (js "title", JStr (js "Elf"));
                  (js "path", JStr (js "/home/me/rips")) ])
          Sample.env Sample.now tr
        = contributeDisc Ref.platform
            (Sample.contents_host Sample.santa_blob (js "abc123") true)
            Sample.elf_input Sample.env Sample.now tr)
  /\
  (exists stored message encoded sha,
     make_entry Sample.elf_input Sample.now = Ok stored /\
     get_prop stored (js "contributed_at") = Ok (JStr Sample.now) /\
     btoa Ref.platform
       (trim Sample.santa_blob ++ [LF]
        ++ JSON_stringify Ref.platform stored 0 ++ [LF])
     = Some encoded /\
     req_body (Sample.elf_update Sample.santa_blob (js "abc123")) =
       Some (JSON_stringify Ref.platform
               (JObj [ (js "message", JStr message);
                       (js "content", JStr encoded);
                       (js "sha", sha) ]) 0) /\
     (forall upd,
        Sample.contents_host Sample.santa_blob (js "abc123") true
          [file_request (js "ghp_secret")]
          (Sample.elf_update Sample.santa_blob (js "abc123")) = Ok upd ->
        ok upd = true ->
        contributeDisc Ref.platform
          (Sample.contents_host Sample.santa_blob (js "abc123") true)
          Sample.elf_input Sample.env Sample.now [] =
        (Ok (jsonResponse Ref.platform
               (JObj [(js "success", JBool true);
                      (js "message", JStr (js "Contribution added"));
                      (js "entry", stored)]) 200),
         [file_request (js "ghp_secret");
          Sample.elf_update Sample.santa_blob (js "abc123")]))).
Proof.
  pose proof (contributed_at_server_set Ref.platform
                (Sample.contents_host Sample.santa_blob (js "abc123") true)
                Sample.elf_input Sample.env Sample.now) as (_ & Hsame & Hstored).
  split.
  - apply Hsame.
    intros k Hk. unfold Sample.elf_input. cbn [get_prop lookup].
    destruct (str_eqb (js "disc_label") k); [reflexivity|].
    destruct (str_eqb (js "disc_type") k); [reflexivity|].
    destruct (str_eqb (js "duration_secs") k); [reflexivity|].
    destruct (str_eqb (js "title") k); [reflexivity|].
    destruct (str_eqb (js "contributed_at") k) eqn:E; [|reflexivity].
    apply str_eqb_eq in E. now destruct Hk.
  - apply (Hstored (js "ghp_secret")
             (Sample.file_data Sample.santa_blob (js "abc123")) Sample.santa_blob
             (Sample.elf_update Sample.santa_blob (js "abc123"))).
    + vm_compute. reflexivity.
    + apply sample_reads_blob.
    + vm_compute. reflexivity.
Defined.

(** The blob with a broken second line on the read path; and on the write
    path a contribution that throws after the scan has said "not a
    duplicate", its commit message being impossible to build. *)
Lemma parse_policy_witness :
  (getDatabase Ref.platform
     (Sample.snapshot_host (Sample.blob_of [Sample.santa_line; Sample.broken_line])) []
   = (Throw SyntaxError, [raw_request])
   /\ (forall label duration,
         label <> [] ->
         lookupDisc Ref.platform
           (Sample.snapshot_host (Sample.blob_of [Sample.santa_line; Sample.broken_line]))
           (Some label) duration [] =
         (Throw SyntaxError, [raw_request]))
   /\ (forall request env now,
         method request = js "GET" -> pathname request = js "/db" ->
         fetch Ref.platform
           (Sample.snapshot_host (Sample.blob_of [Sample.santa_line; Sample.broken_line]))
           request env now [] =
         (Ok (jsonResponse Ref.platform
                (JObj [(js "error", JStr (message Ref.platform SyntaxError))]) 500),
          [raw_request])))
  /\
  (some_ (duplicate_pred Ref.platform
            (entry_of Odd.shadowed_label_input Sample.now))
     (blob_lines (Sample.blob_of [Sample.santa_line; Sample.broken_line]))
   = Ok false /\
   ((TypeError = TypeError /\
     [file_request (js "ghp_secret")] = [file_request (js "ghp_secret")] /\
     commit_message Ref.platform (entry_of Odd.shadowed_label_input Sample.now)
     = Throw TypeError)
    \/
    (TypeError = InvalidCharacterError /\
     [file_request (js "ghp_secret")] = [file_request (js "ghp_secret")] /\
     btoa Ref.platform
       (newContent_of Ref.platform
          (Sample.blob_of [Sample.santa_line; Sample.broken_line])
          (entry_of Odd.shadowed_label_input Sample.now)) = None)
    \/
    (exists put,
       [file_request (js "ghp_secret")] = [file_request (js "ghp_secret"); put] /\
       Sample.contents_host
         (Sample.blob_of [Sample.santa_line; Sample.broken_line]) (js "abc123") true
         [file_request (js "ghp_secret")] put = Throw TypeError))).
Proof.
  split.
  - apply (proj2 (proj2 (proj2 (parse_policy Ref.platform
                                  (Sample.snapshot_host
                                     (Sample.blob_of [Sample.santa_line; Sample.broken_line])))))
             (Sample.blob_of [Sample.santa_line; Sample.broken_line])
             Sample.broken_line).
    + eexists. repeat split.
    + vm_compute. right. left. reflexivity.
    + vm_compute. reflexivity.
  - apply (proj1 (proj2 (proj2 (parse_policy Ref.platform
                                  (Sample.contents_host
                                     (Sample.blob_of [Sample.santa_line; Sample.broken_line])
                                     (js "abc123") true))))
             Odd.shadowed_label_input Sample.env Sample.now (js "ghp_secret")
             (Sample.file_data
                (Sample.blob_of [Sample.santa_line; Sample.broken_line]) (js "abc123"))
             (Sample.blob_of [Sample.santa_line; Sample.broken_line])).
    + vm_compute. reflexivity.
    + split; [reflexivity|]. split; [discriminate|].
      eexists. eexists.
      split; [reflexivity|]. split; [reflexivity|].
      split; [vm_compute; reflexivity|].
      split; [reflexivity|vm_compute; reflexivity].
    + vm_compute. reflexivity.
Defined.

Lemma entry_has_schema_fields_witness :
  (exists props,
     make_entry Sample.elf_input Sample.now = Ok (JObj props) /\
     map fst props = schema /\
     (forall k, ~ In k schema -> get_prop (JObj props) k = Ok JUndefined) /\
     (forall f, In f required ->
        get_prop (JObj props) f = get_prop Sample.elf_input f) /\
     (forall v, get_prop Sample.elf_input (js "track_count") = Ok v ->
        get_prop (JObj props) (js "track_count")
        = Ok (if truthy v then v else JNum 0)) /\
     (get_prop Sample.elf_input (js "year") = Ok JUndefined ->
        get_prop (JObj props) (js "year") = Ok JNull) /\
     (get_prop Sample.elf_input (js "tmdb_id") = Ok JUndefined ->
        get_prop (JObj props) (js "tmdb_id") = Ok JNull))
  /\
  (exists props message encoded sha,
     make_entry Sample.elf_input Sample.now = Ok (JObj props) /\
     map fst props = schema /\
     btoa Ref.platform
       (trim Sample.santa_blob ++ [LF]
        ++ JSON_stringify Ref.platform (JObj props) 0 ++ [LF])
     = Some encoded /\
     req_body (Sample.elf_update Sample.santa_blob (js "abc123")) =
       Some (JSON_stringify Ref.platform
               (JObj [ (js "message", JStr message);
                       (js "content", JStr encoded);
                       (js "sha", sha) ]) 0) /\
     (forall upd,
        Sample.contents_host Sample.santa_blob (js "abc123") true
          [file_request (js "ghp_secret")]
          (Sample.elf_update Sample.santa_blob (js "abc123")) = Ok upd ->
        ok upd = true ->
        contributeDisc Ref.platform
          (Sample.contents_host Sample.santa_blob (js "abc123") true)
          Sample.elf_input Sample.env Sample.now [] =
        (Ok (jsonResponse Ref.platform
               (JObj [(js "success", JBool true);
                      (js "message", JStr (js "Contribution added"));
                      (js "entry", JObj props)]) 200),
         [file_request (js "ghp_secret");
          Sample.elf_update Sample.santa_blob (js "abc123")]))).
Proof.
  pose proof (entry_has_schema_fields Ref.platform
                (Sample.contents_host Sample.santa_blob (js "abc123") true)
                Sample.elf_input Sample.env Sample.now) as (Hfields & Hstored).
  split.
  - apply Hfields. intros [H|H]; discriminate H.
  - apply (Hstored (js "ghp_secret")
             (Sample.file_data Sample.santa_blob (js "abc123")) Sample.santa_blob
             (Sample.elf_update Sample.santa_blob (js "abc123"))).
    + vm_compute. reflexivity.
    + apply sample_reads_blob.
    + vm_compute. reflexivity.
Defined.

(** The same rejected update seen by the caller of [POST /contribute]. *)
Example rejected_update_at_the_router :
  exists r tr,
    fetch Ref.platform
      (Sample.contents_host Sample.santa_blob (js "abc123") false)
      {| method := js "POST"; pathname := js "/contribute";
         searchParams := []; json := Ok Sample.elf_input |}
      Sample.env Sample.now [] = (Ok r, tr)
    /\ status r = 500%N
    /\ List.length tr = 2%nat.
Proof. eexists. eexists. split; [vm_compute; reflexivity|]. split; reflexivity. Qed.

(** ** The router: replies and requests of every run *)

Lemma replies_ret (Q : Response -> Prop) (r : Response) :
  Q r -> replies Q (ret r).
Proof. intros H tr r' tr' E. injection E as <- _. exact H. Qed.

Lemma replies_bind {A} (Q : Response -> Prop) (c : M A) (k : A -> M Response) :
  (forall a, replies Q (k a)) -> replies Q (bind c k).
Proof.
  intros H tr r tr'. unfold bind.
  destruct (c tr) as [[a|e] t]; [apply H|discriminate].
Qed.

Lemma replies_catch (Q : Response -> Prop) (c : M Response)
    (handler : Exn -> M Response) :
  replies Q c -> (forall e, replies Q (handler e)) -> replies Q (catch c handler).
Proof.
  intros Hc Hh tr r tr'. unfold catch.
  destruct (c tr) as [[a|e] t] eqn:E.
  - intros H. injection H as <- _. exact (Hc tr a t E).
  - apply Hh.
Qed.

Lemma json_reply_intro (P : Platform) (data : JsValue) (st : N) :
  In st [200; 400; 404; 500]%N -> json_reply P (jsonResponse P data st).
Proof. intros H. exists data, st. auto. Qed.

Ltac reply_step P :=
  first
    [ apply replies_ret; apply json_reply_intro; simpl; tauto
    | apply replies_bind; intro
    | match goal with
      | |- replies _ (match ?x with _ => _ end) => destruct x
      end ].

Lemma getDatabase_replies (P : Platform) (host : Host) :
  replies (json_reply P) (getDatabase P host).
Proof. unfold getDatabase. repeat reply_step P. Qed.

Lemma lookupDisc_replies (P : Platform) (host : Host)
    (label : option jsstring) (duration : float) :
  replies (json_reply P) (lookupDisc P host label duration).
Proof. unfold lookupDisc. repeat reply_step P. Qed.

Lemma contributeDisc_replies (P : Platform) (host : Host) (data : JsValue)
    (env : Env) (now : jsstring) :
  replies (json_reply P) (contributeDisc P host data env now).
Proof. unfold contributeDisc. repeat reply_step P. Qed.

(** Every run of the router ends in a reply: the preflight reply, or a JSON
    reply. *)
Lemma fetch_reply (P : Platform) (host : Host) (request : HttpRequest)
    (env : Env) (now : jsstring) (tr : list Request) :
  exists r tr',
    fetch P host request env now tr = (Ok r, tr') /\
    ((method request = js "OPTIONS" /\ r = preflight_response)
     \/ (method request <> js "OPTIONS" /\ json_reply P r)).
Proof.
  unfold fetch.
  destruct (str_eqb (method request) (js "OPTIONS")) eqn:Eo.
  - apply str_eqb_eq in Eo. eexists. eexists. split; [reflexivity|]. now left.
  - apply str_eqb_neq in Eo.
    match goal with
    | |- exists r tr', catch ?c ?h tr = _ /\ _ =>
        assert (Hc : replies (json_reply P) (catch c h))
    end.
    { apply replies_catch.
      - repeat match goal with
               | |- replies _ (if ?b then _ else _) => destruct b
               end.
        + apply getDatabase_replies.
        + apply lookupDisc_replies.
        + apply replies_bind. intro. apply contributeDisc_replies.
        + apply replies_ret, json_reply_intro. simpl. tauto.
        + apply replies_ret, json_reply_intro. simpl. tauto.
      - intros e. apply replies_ret, json_reply_intro. simpl. tauto. }
    match goal with
    | |- exists r tr', ?run = _ /\ _ => destruct run as [[r|e] t] eqn:E
    end.
    + exists r, t. split; [reflexivity|]. right. split; [exact Eo|].
      exact (Hc tr r t E).
    + exfalso. unfold catch in E.
      match type of E with
      | (match ?c with _ => _ end) = _ => destruct c as [[a|x] t0]
      end; discriminate.
Qed.

(** X1. The router never throws: whatever the request, the bindings, the
    clock, the host and the platform do, [fetch] ends in a reply, and its
    status is 200, 400, 404 or 500. *)
Theorem router_always_replies (P : Platform) (host : Host)
    (request : HttpRequest) (env : Env) (now : jsstring) (tr : list Request) :
  exists r tr',
    fetch P host request env now tr = (Ok r, tr') /\
    In (status r) [200; 400; 404; 500]%N.
Proof.
  destruct (fetch_reply P host request env now tr)
    as (r & tr' & Hrun & [[_ ->]|[_ (data & st & -> & Hst)]]);
    (eexists; exists tr'; split; [exact Hrun|]).
  - simpl. tauto.
  - exact Hst.
Qed.







(** X4. The routing table at its edges.  A preflight is answered on every
    path without looking at anything else; the root path (or an empty path)
    answers the API description for every other method; and a request that
    matches no route, a known path with the wrong method included, is answered
    404.  None of these sends a request. *)
Theorem routing_edges (P : Platform) (host : Host) (request : HttpRequest)
    (env : Env) (now : jsstring) (tr : list Request) :
  (method request = js "OPTIONS" ->
   fetch P host request env now tr = (Ok preflight_response, tr))
  /\
  (method request <> js "OPTIONS" ->
   pathname request = js "/" \/ pathname request = [] ->
   fetch P host request env now tr = (Ok (jsonResponse P api_info 200), tr))
  /\
  (method request <> js "OPTIONS" ->
   pathname request <> js "/" -> pathname request <> [] ->
   ~ (pathname request = js "/db" /\ method request = js "GET") ->
   ~ (pathname request = js "/lookup" /\ method request = js "GET") ->
   ~ (pathname request = js "/contribute" /\ method request = js "POST") ->
   fetch P host request env now tr = (Ok (not_found_route_response P), tr)).
Proof.
  assert (Hand : forall a b c d,
             ~ (a = b /\ c = d) -> str_eqb a b && str_eqb c d = false).
  { intros a b c d H. apply andb_false_iff.
    destruct (str_eqb a b) eqn:E1; [|now left].
    destruct (str_eqb c d) eqn:E2; [|now right].
    apply str_eqb_eq in E1, E2. destruct H. auto. }
  unfold fetch. split; [|split].
  - intros ->. reflexivity.
  - intros Ho Hp. apply str_eqb_neq in Ho. rewrite Ho.
    rewrite !Hand by (intros [E _]; destruct Hp as [Hp|Hp]; rewrite Hp in E;
                      discriminate E).
    destruct Hp as [-> | ->]; reflexivity.
  - intros Ho H1 H2 Hdb Hlk Hct. apply str_eqb_neq in Ho. rewrite Ho.
    rewrite (Hand _ _ _ _ Hdb), (Hand _ _ _ _ Hlk), (Hand _ _ _ _ Hct).
    apply str_eqb_neq in H1. rewrite H1.
    assert (E : str_eqb (pathname request) (js "") = false)
      by (apply str_eqb_neq; exact H2).
    rewrite E. reflexivity.
Qed.

(** [POST /db], [DELETE /lookup] and [GET /contribute] are 404; [POST /] is
    the API description. *)
Lemma routing_edges_witness :
  fetch Ref.platform (Sample.snapshot_host Sample.santa_blob)
    {| method := js "POST"; pathname := js "/db"; searchParams := [];
       json := Throw SyntaxError |} Sample.env Sample.now []
  = (Ok (not_found_route_response Ref.platform), [])
  /\ fetch Ref.platform (Sample.snapshot_host Sample.santa_blob)
       {| method := js "GET"; pathname := js "/contribute"; searchParams := [];
          json := Ok Sample.elf_input |} Sample.env Sample.now []
     = (Ok (not_found_route_response Ref.platform), [])
  /\ fetch Ref.platform (Sample.snapshot_host Sample.santa_blob)
       {| method := js "POST"; pathname := js "/"; searchParams := [];
          json := Ok Sample.elf_input |} Sample.env Sample.now []
     = (Ok (jsonResponse Ref.platform api_info 200), [])
  /\ fetch Ref.platform (Sample.snapshot_host Sample.santa_blob)
       {| method := js "OPTIONS"; pathname := js "/contribute"; searchParams := [];
          json := Ok Sample.elf_input |} Sample.env Sample.now []
     = (Ok preflight_response, []).
Proof.
  split; [|split; [|split]].
  - apply (proj2 (proj2 (routing_edges Ref.platform
                           (Sample.snapshot_host Sample.santa_blob)
                           {| method := js "POST"; pathname := js "/db";
                              searchParams := []; json := Throw SyntaxError |}
                           Sample.env Sample.now [])));
      try discriminate; intros [H1 H2]; discriminate.
  - apply (proj2 (proj2 (routing_edges Ref.platform
                           (Sample.snapshot_host Sample.santa_blob)
                           {| method := js "GET"; pathname := js "/contribute";
                              searchParams := []; json := Ok Sample.elf_input |}
                           Sample.env Sample.now [])));
      try discriminate; intros [H1 H2]; discriminate.
  - apply (proj1 (proj2 (routing_edges Ref.platform
                           (Sample.snapshot_host Sample.santa_blob)
                           {| method := js "POST"; pathname := js "/";
                              searchParams := []; json := Ok Sample.elf_input |}
                           Sample.env Sample.now []))).
    + discriminate.
    + left. reflexivity.
  - apply (proj1 (routing_edges Ref.platform
                    (Sample.snapshot_host Sample.santa_blob)
                    {| method := js "OPTIONS"; pathname := js "/contribute";
                       searchParams := []; json := Ok Sample.elf_input |}
                    Sample.env Sample.now [])).
    reflexivity.
Defined.

(** ** Edge behaviour of the handlers *)

(** X5. A lookup without a label, or with an empty one, is answered 400
    before the snapshot is fetched, whatever the duration parameter says. *)
Theorem lookup_without_label (P : Platform) (host : Host)
    (request : HttpRequest) (env : Env) (now : jsstring) (tr : list Request) :
  method request = js "GET" ->
  pathname request = js "/lookup" ->
  searchParams_get (js "label") (searchParams request) = None
  \/ searchParams_get (js "label") (searchParams request) = Some [] ->
  fetch P host request env now tr = (Ok (missing_label_response P), tr).
Proof.
  intros Hm Hp Hl. unfold fetch. rewrite Hm, Hp.
  change (str_eqb (js "GET") (js "OPTIONS")) with false.
  change (str_eqb (js "/lookup") (js "/db")) with false.
  change (str_eqb (js "/lookup") (js "/lookup")) with true.
  change (str_eqb (js "GET") (js "GET")) with true.
  cbn [andb]. destruct Hl as [-> | ->]; reflexivity.
Qed.

Lemma lookup_without_label_witness :
  fetch Ref.platform (Sample.snapshot_host Sample.santa_blob)
    {| method := js "GET"; pathname := js "/lookup";
       searchParams := [(js "duration", js "5501"); (js "label", [])];
       json := Throw SyntaxError |} Sample.env Sample.now []
  = (Ok (missing_label_response Ref.platform), []).
Proof.
  apply (lookup_without_label Ref.platform
           (Sample.snapshot_host Sample.santa_blob)
           {| method := js "GET"; pathname := js "/lookup";
              searchParams := [(js "duration", js "5501"); (js "label", [])];
              json := Throw SyntaxError |} Sample.env Sample.now []).
  - reflexivity.
  - reflexivity.
  - right. reflexivity.
Defined.

(** X6. Without a configured token (unset or empty) a contribution sends no
    request, and validation still comes first: an input with a falsy required
    field is answered 400 naming it, a valid one is answered 500 "Server not
    configured for contributions", and a [null] body throws. *)
Theorem contribute_without_token (P : Platform) (host : Host)
    (data : JsValue) (env : Env) (now : jsstring) (tr : list Request) :
  GITHUB_TOKEN env = None \/ GITHUB_TOKEN env = Some [] ->
  contributeDisc P host data env now tr =
  (match first_missing data required with
   | Ok (Some field) => Ok (missing_field_response P field)
   | Ok None => Ok (not_configured_response P)
   | Throw e => Throw e
   end, tr).
Proof.
  intros Ht. unfold contributeDisc.
  destruct (first_missing data required) as [[field|]|e]; try reflexivity.
  rewrite bind_lift_ok. destruct Ht as [-> | ->]; reflexivity.
Qed.

Lemma contribute_without_token_witness :
  contributeDisc Ref.platform
    (Sample.contents_host Sample.santa_blob (js "abc123") true)
    Sample.elf_input {| GITHUB_TOKEN := Some [] |} Sample.now []
  = (match first_missing Sample.elf_input required with
     | Ok (Some field) => Ok (missing_field_response Ref.platform field)
     | Ok None => Ok (not_configured_response Ref.platform)
     | Throw e => Throw e
     end, []).
Proof.
  apply (contribute_without_token Ref.platform
           (Sample.contents_host Sample.santa_blob (js "abc123") true)
           Sample.elf_input {| GITHUB_TOKEN := Some [] |} Sample.now []).
  right. reflexivity.
Defined.

Example unconfigured_contribution :
  contributeDisc Ref.platform
    (Sample.contents_host Sample.santa_blob (js "abc123") true)
    Sample.elf_input {| GITHUB_TOKEN := None |} Sample.now []
  = (Ok (not_configured_response Ref.platform), [])
  /\ contributeDisc Ref.platform
       (Sample.contents_host Sample.santa_blob (js "abc123") true)
       Sample.zero_duration_input {| GITHUB_TOKEN := None |} Sample.now []
     = (Ok (missing_field_response Ref.platform (js "duration_secs")), [])
  /\ contributeDisc Ref.platform
       (Sample.contents_host Sample.santa_blob (js "abc123") true)
       JNull {| GITHUB_TOKEN := None |} Sample.now []
     = (Throw TypeError, []).
Proof. repeat split. Qed.

(** X7. A contribution whose read fails never writes.  When the contents API
    answers the read with a non-success status the reply is the 500 "Failed to
    fetch current database"; when its body is not JSON, its [content] is not a
    string, or the content is not base64, the handler throws.  In each case
    the read is the only request sent and [POST /contribute] answers 500. *)
Theorem failed_read_never_writes (P : Platform) (host : Host)
    (data : JsValue) (env : Env) (now token : jsstring)
    (fileResponse : FetchResponse) :
  first_missing data required = Ok None ->
  GITHUB_TOKEN env = Some token -> token <> [] ->
  host [] (file_request token) = Ok fileResponse ->
  (ok fileResponse = false ->
   contributeDisc P host data env now [] =
   (Ok (read_failed_response P), [file_request token]))
  /\
  (ok fileResponse = true ->
   JSON_parse P (text fileResponse) = None
   \/ (exists fileData,
         JSON_parse P (text fileResponse) = Some fileData /\
         forall s, get_prop fileData (js "content") <> Ok (JStr s))
   \/ (exists fileData s,
         JSON_parse P (text fileResponse) = Some fileData /\
         get_prop fileData (js "content") = Ok (JStr s) /\
         atob P (remove_newlines s) = None) ->
   exists e,
     contributeDisc P host data env now [] = (Throw e, [file_request token]))
  /\
  (forall request,
     method request = js "POST" ->
     pathname request = js "/contribute" ->
     json request = Ok data ->
     ok fileResponse = false
     \/ JSON_parse P (text fileResponse) = None
     \/ (exists fileData,
           JSON_parse P (text fileResponse) = Some fileData /\
           forall s, get_prop fileData (js "content") <> Ok (JStr s))
     \/ (exists fileData s,
           JSON_parse P (text fileResponse) = Some fileData /\
           get_prop fileData (js "content") = Ok (JStr s) /\
           atob P (remove_newlines s) = None) ->
     exists r,
       fetch P host request env now [] = (Ok r, [file_request token])
       /\ status r = 500%N).
Proof.
  intros Hv Ht Hne Hget.
  destruct (validated_object data Hv) as [props ->].
  assert (Hstart :
            contributeDisc P host (JObj props) env now [] =
            (if negb (ok fileResponse) then
               ret (read_failed_response P)
             else
               (fileData <- lift (response_json P fileResponse) ;;
                content <- lift (get_prop fileData (js "content")) ;;
                stripped <- lift (content_replace content) ;;
                currentContent <-
                  lift (of_option InvalidCharacterError (atob P stripped)) ;;
                isDuplicate <-
                  lift (some_ (duplicate_pred P (entry_of (JObj props) now))
                          (blob_lines currentContent)) ;;
                if isDuplicate then ret (duplicate_response P)
                else
                  (message <-
                     lift (commit_message P (entry_of (JObj props) now)) ;;
                   encoded <-
                     lift (of_option InvalidCharacterError
                             (btoa P (newContent_of P currentContent
                                        (entry_of (JObj props) now)))) ;;
                   sha <- lift (get_prop fileData (js "sha")) ;;
                   updateResponse <-
                     fetch_ host
                       (update_request token
                          (JSON_stringify P
                             (JObj [ (js "message", JStr message);
                                     (js "content", JStr encoded);
                                     (js "sha", sha) ]) 0)) ;;
                   if negb (ok updateResponse) then
                     ret (commit_failed_response P (text updateResponse))
                   else ret (added_response P (entry_of (JObj props) now)))))
              [file_request token]).
  { unfold contributeDisc. rewrite Hv, bind_lift_ok, Ht.
    destruct token as [|t0 token]; [contradiction|].
    rewrite make_entry_object, bind_lift_ok, bind_fetch, Hget. reflexivity. }
  assert (Hbad :
            ok fileResponse = true ->
            JSON_parse P (text fileResponse) = None
            \/ (exists fileData,
                  JSON_parse P (text fileResponse) = Some fileData /\
                  forall s, get_prop fileData (js "content") <> Ok (JStr s))
            \/ (exists fileData s,
                  JSON_parse P (text fileResponse) = Some fileData /\
                  get_prop fileData (js "content") = Ok (JStr s) /\
                  atob P (remove_newlines s) = None) ->
            exists e,
              contributeDisc P host (JObj props) env now [] =
              (Throw e, [file_request token])).
  { intros Hok Hcase. rewrite Hstart, Hok. cbn [negb]. unfold response_json.
    destruct Hcase as [Hp|[(fileData & Hp & Hc)|(fileData & s & Hp & Hc & Ha)]];
      rewrite Hp; cbn [of_option].
    - eexists. reflexivity.
    - rewrite bind_lift_ok.
      destruct (get_prop fileData (js "content")) as [content|e];
        [|eexists; reflexivity].
      rewrite bind_lift_ok.
      destruct content; try (eexists; reflexivity).
      destruct (Hc s eq_refl).
    - rewrite bind_lift_ok, Hc, bind_lift_ok. cbn [content_replace].
      rewrite bind_lift_ok, Ha. eexists. reflexivity. }
  split; [|split].
  - intros Hok. rewrite Hstart, Hok. reflexivity.
  - exact Hbad.
  - intros request Hm Hp Hj Hcase.
    rewrite (fetch_contribute P host request (JObj props) env now Hm Hp Hj).
    destruct (ok fileResponse) eqn:Hok.
    + destruct Hcase as [Hf|Hcase]; [discriminate|].
      destruct (Hbad eq_refl Hcase) as [e He]. rewrite He.
      eexists. split; reflexivity.
    + rewrite Hstart. try rewrite Hok. eexists. split; reflexivity.
Qed.

Lemma failed_read_never_writes_witness :
  contributeDisc Ref.platform
    (fun _ _ => Ok {| ok := false; text := js "Bad credentials" |})
    Sample.elf_input Sample.env Sample.now []
  = (Ok (read_failed_response Ref.platform), [file_request (js "ghp_secret")]).
Proof.
  apply (proj1 (failed_read_never_writes Ref.platform
                  (fun _ _ => Ok {| ok := false; text := js "Bad credentials" |})
                  Sample.elf_input Sample.env Sample.now (js "ghp_secret")
                  {| ok := false; text := js "Bad credentials" |}
                  ltac:(vm_compute; reflexivity) eq_refl
                  ltac:(discriminate) eq_refl)).
  reflexivity.
Defined.

(** A read answered 200 with a body that is not JSON, and one whose content
    is not base64: the handler throws after the read alone. *)
Example unreadable_file_data :
  contributeDisc Ref.platform
    (fun _ _ => Ok {| ok := true; text := js "<html>rate limited</html>" |})
    Sample.elf_input Sample.env Sample.now []
  = (Throw SyntaxError, [file_request (js "ghp_secret")])
  /\ contributeDisc Ref.platform
       (fun _ _ => Ok {| ok := true;
                         text := Sample.json_text "{'content':'***','sha':'abc123'}" |})
       Sample.elf_input Sample.env Sample.now []
     = (Throw InvalidCharacterError, [file_request (js "ghp_secret")])
  /\ contributeDisc Ref.platform
       (fun _ _ => Ok {| ok := true; text := Sample.json_text "{'sha':'abc123'}" |})
       Sample.elf_input Sample.env Sample.now []
     = (Throw TypeError, [file_request (js "ghp_secret")]).
Proof. repeat split; vm_compute; reflexivity. Qed.

(** ** The read handlers as pure functions of the snapshot *)

Lemma find_as_list_find (pred : JsValue -> Outcome bool) (b : JsValue -> bool)
    (entries : list JsValue) :
  Forall (fun e => pred e = Ok (b e)) entries ->
  find_ pred entries =
  Ok (match find b entries with Some e => e | None => JUndefined end).
Proof.
  induction 1 as [|e entries He _ IH]; simpl; [reflexivity|].
  rewrite He. simpl. destruct (b e); [reflexivity|exact IH].
Qed.

Lemma exact_pred_has_label (label : jsstring) (e : JsValue) :
  ~ nullish e -> exact_pred label e = Ok (has_label label e).
Proof.
  intros H. destruct (get_prop_total e (js "disc_label") H) as [l Hl].
  unfold exact_pred, has_label. rewrite Hl. reflexivity.
Qed.

Lemma fuzzy_pred_qualifies (P : Platform) (duration : float) (e : JsValue) :
  duration_converts P e ->
  fuzzy_pred P duration (PrimFloat.mul duration 0.05) e
  = Ok (qualifies P duration e).
Proof.
  intros (d & x & Hd & Hx).
  destruct (get_prop_total e (js "disc_type")
              (get_prop_not_nullish _ _ _ Hd)) as [t Ht].
  unfold fuzzy_pred, qualifies, within_tolerance. rewrite Hd, Ht. simpl.
  rewrite Hx. simpl.
  destruct (PrimFloat.leb _ _); reflexivity.
Qed.

Lemma duration_converts_not_nullish (P : Platform) (e : JsValue) :
  duration_converts P e -> ~ nullish e.
Proof. intros (d & x & Hd & _). exact (get_prop_not_nullish _ _ _ Hd). Qed.

Lemma has_label_truthy (label : jsstring) (e : JsValue) :
  label <> [] -> has_label label e = true -> truthy e = true.
Proof.
  unfold has_label. intros Hl H.
  destruct (get_prop e (js "disc_label")) as [l|x] eqn:E; [|discriminate].
  apply strict_eq_str in H. subst l.
  exact (exact_match_truthy label e E Hl).
Qed.

Lemma qualifies_truthy (P : Platform) (duration : float) (e : JsValue) :
  qualifies P duration e = true -> truthy e = true.
Proof.
  unfold qualifies. intros H. apply andb_true_iff in H as [_ H].
  destruct (get_prop e (js "disc_type")) as [t|x] eqn:E; [|discriminate].
  apply strict_eq_str in H. subst t. exact (dvd_truthy e E).
Qed.

(** X8. On a snapshot that parses into entries whose [duration_secs] can
    be read and converts to a number (every entry that is not [null], unless
    its [duration_secs] is an object with an own [toString] property or an
    array holding one), [lookupDisc] is a two-stage first-match search: the
    first entry in insertion order whose [disc_label] is the label; failing
    that, and only for a duration above zero, the first entry in insertion
    order that is within tolerance and of type dvd; failing that,
    [found: false]. *)
Theorem lookup_is_two_stage_find (P : Platform) (host : Host)
    (label blob : jsstring) (entries : list JsValue) (duration : float) :
  label <> [] ->
  serves_snapshot host blob ->
  parse_lines P (blob_lines blob) = Ok entries ->
  Forall (duration_converts P) entries ->
  lookupDisc P host (Some label) duration [] =
  (Ok (match find (has_label label) entries with
       | Some e => found_response P e
       | None =>
           if PrimFloat.ltb 0 duration then
             match find (qualifies P duration) entries with
             | Some e => found_response P e
             | None => not_found_response P label duration
             end
           else not_found_response P label duration
       end),
   [raw_request]).
Proof.
  intros Hl Hs Hp Hall.
  rewrite (lookup_after_fetch P host label duration blob entries Hl Hs Hp).
  rewrite (find_as_list_find (exact_pred label) (has_label label)).
  2:{ rewrite Forall_forall in *. intros e He.
      apply exact_pred_has_label.
      apply (duration_converts_not_nullish P). now apply Hall. }
  destruct (find (has_label label) entries) as [e|] eqn:Ef.
  - apply find_some in Ef as [_ Hb].
    rewrite (has_label_truthy label e Hl Hb). cbn [negb andb].
    rewrite (has_label_truthy label e Hl Hb). reflexivity.
  - cbn [truthy negb andb].
    destruct (PrimFloat.ltb 0 duration); [|reflexivity].
    rewrite (find_as_list_find _ (qualifies P duration)).
    2:{ rewrite Forall_forall in *. intros e He.
        apply fuzzy_pred_qualifies. now apply Hall. }
    destruct (find (qualifies P duration) entries) as [e|] eqn:Eq; [|reflexivity].
    apply find_some in Eq as [_ Hb].
    now rewrite (qualifies_truthy P duration e Hb).
Qed.

(** Two DVDs within tolerance of 5560 seconds, behind a Blu-ray that is too:
    the first DVD in the file wins, not the closer one. *)
Lemma lookup_is_two_stage_find_witness :
  lookupDisc Ref.platform
    (Sample.snapshot_host
       (Sample.blob_of [Sample.bluray_line; Sample.santa_line; Sample.other_dvd_line]))
    (Some (js "UNKNOWN")) 5560 [] =
  (Ok (match find (has_label (js "UNKNOWN"))
               [Sample.bluray; Sample.santa; Sample.other_dvd] with
       | Some e => found_response Ref.platform e
       | None =>
           if PrimFloat.ltb 0 5560 then
             match find (qualifies Ref.platform 5560)
                     [Sample.bluray; Sample.santa; Sample.other_dvd] with
             | Some e => found_response Ref.platform e
             | None => not_found_response Ref.platform (js "UNKNOWN") 5560
             end
           else not_found_response Ref.platform (js "UNKNOWN") 5560
       end),
   [raw_request]).
Proof.
  apply (lookup_is_two_stage_find Ref.platform
           (Sample.snapshot_host
              (Sample.blob_of [Sample.bluray_line; Sample.santa_line; Sample.other_dvd_line]))
           (js "UNKNOWN")
           (Sample.blob_of [Sample.bluray_line; Sample.santa_line; Sample.other_dvd_line])
           [Sample.bluray; Sample.santa; Sample.other_dvd] 5560).
  - discriminate.
  - eexists. repeat split.
  - vm_compute. reflexivity.
  - repeat constructor; eexists; eexists; split; reflexivity.
Defined.

Example first_dvd_in_file_wins :
  find (qualifies Ref.platform 5560) [Sample.bluray; Sample.santa; Sample.other_dvd]
  = Some Sample.santa
  /\ qualifies Ref.platform 5560 Sample.other_dvd = true
  /\ lookupDisc Ref.platform
       (Sample.snapshot_host
          (Sample.blob_of [Sample.bluray_line; Sample.santa_line; Sample.other_dvd_line]))
       (Some (js "UNKNOWN")) 5560 []
     = (Ok (found_response Ref.platform Sample.santa), [raw_request]).
Proof. repeat split; vm_compute; reflexivity. Qed.

Lemma parse_lines_Forall2 (P : Platform) (lines : list jsstring)
    (entries : list JsValue) :
  parse_lines P lines = Ok entries <->
  Forall2 (fun line e => JSON_parse P line = Some e) lines entries.
Proof.
  split.
  - revert entries. induction lines as [|l lines IH]; simpl; intros entries H.
    + injection H as <-. constructor.
    + destruct (JSON_parse P l) as [e|] eqn:El; simpl in H; [|discriminate].
      destruct (parse_lines P lines) as [es|x]; simpl in H; [|discriminate].
      injection H as <-. constructor; auto.
  - induction 1 as [|l e lines entries Hl _ IH]; simpl; [reflexivity|].
    rewrite Hl. simpl. rewrite IH. reflexivity.
Qed.

(** X9. The listing.  When the snapshot is served and every record line
    parses, [getDatabase] answers 200 with one entry per record line, in line
    order, each the parse of its line, and [count] is the number of record
    lines: blank lines and surrounding whitespace do not count. *)
Theorem listing_follows_record_lines (P : Platform) (host : Host)
    (blob : jsstring) (entries : list JsValue) :
  serves_snapshot host blob ->
  parse_lines P (blob_lines blob) = Ok entries ->
  getDatabase P host [] =
    (Ok (jsonResponse P
           (JObj [(js "count",
                   JNum (float_of_nat (List.length (blob_lines blob))));
                  (js "entries", JArr entries)]) 200),
     [raw_request])
  /\ Forall2 (fun line e => JSON_parse P line = Some e) (blob_lines blob) entries.
Proof.
  intros (response & Hget & Hok & Htext) Hp.
  pose proof (proj1 (parse_lines_Forall2 P _ _) Hp) as Hall.
  split; [|exact Hall].
  unfold getDatabase. rewrite bind_fetch, Hget, Hok. cbn [negb].
  rewrite Htext, Hp, bind_lift_ok.
  rewrite (Forall2_length Hall). reflexivity.
Qed.

Lemma listing_follows_record_lines_witness :
  getDatabase Ref.platform
    (Sample.snapshot_host
       (Sample.blob_of [Sample.santa_line; []; Sample.other_dvd_line; []])) [] =
    (Ok (jsonResponse Ref.platform
           (JObj [(js "count",
                   JNum (float_of_nat
                           (List.length
                              (blob_lines
                                 (Sample.blob_of
                                    [Sample.santa_line; []; Sample.other_dvd_line; []])))));
                  (js "entries", JArr [Sample.santa; Sample.other_dvd])]) 200),
     [raw_request])
  /\ Forall2 (fun line e => JSON_parse Ref.platform line = Some e)
       (blob_lines (Sample.blob_of [Sample.santa_line; []; Sample.other_dvd_line; []]))
       [Sample.santa; Sample.other_dvd].
Proof.
  apply (listing_follows_record_lines Ref.platform
           (Sample.snapshot_host
              (Sample.blob_of [Sample.santa_line; []; Sample.other_dvd_line; []]))
           (Sample.blob_of [Sample.santa_line; []; Sample.other_dvd_line; []])
           [Sample.santa; Sample.other_dvd]).
  - eexists. repeat split.
  - vm_compute. reflexivity.
Defined.

Example listing_of_two_records :
  getDatabase Ref.platform
    (Sample.snapshot_host
       (Sample.blob_of [Sample.santa_line; []; Sample.other_dvd_line; []])) []
  = (Ok (jsonResponse Ref.platform
           (JObj [(js "count", JNum 2);
                  (js "entries", JArr [Sample.santa; Sample.other_dvd])]) 200),
     [raw_request]).
Proof. vm_compute. reflexivity. Qed.

(** X10. When the static host answers the snapshot request with a
    non-success status, both read handlers answer 500 "Failed to fetch
    database" without parsing the body, so an unparseable body does not turn
    into an exception. *)
Theorem snapshot_failure_is_reported (P : Platform) (host : Host)
    (response : FetchResponse) (tr : list Request) :
  host tr raw_request = Ok response ->
  ok response = false ->
  getDatabase P host tr = (Ok (fetch_failed_response P), tr ++ [raw_request])
  /\ forall c label duration,
       lookupDisc P host (Some (c :: label)) duration tr =
       (Ok (fetch_failed_response P), tr ++ [raw_request]).
Proof.
  intros Hget Hok. split.
  - unfold getDatabase. rewrite bind_fetch, Hget, Hok. reflexivity.
  - intros c label duration.
    unfold lookupDisc. rewrite bind_fetch, Hget, Hok. reflexivity.
Qed.

Lemma snapshot_failure_is_reported_witness :
  getDatabase Ref.platform
    (fun _ _ => Ok {| ok := false; text := Sample.broken_line |}) []
  = (Ok (fetch_failed_response Ref.platform), [] ++ [raw_request])
  /\ forall c label duration,
       lookupDisc Ref.platform
         (fun _ _ => Ok {| ok := false; text := Sample.broken_line |})
         (Some (c :: label)) duration [] =
       (Ok (fetch_failed_response Ref.platform), [] ++ [raw_request]).
Proof.
  apply (snapshot_failure_is_reported Ref.platform
           (fun _ _ => Ok {| ok := false; text := Sample.broken_line |})
           {| ok := false; text := Sample.broken_line |} []);
    reflexivity.
Defined.

(** ** The line layout of the blob *)

Lemma trim_padding (p s q : jsstring) :
  forallb is_ws p = true -> forallb is_ws q = true ->
  trim (p ++ s ++ q) = trim s.
Proof.
  intros Hp Hq.
  destruct (trim_split s) as (p' & q' & Hs & Hp' & Hq').
  rewrite Hs at 1.
  replace (p ++ (p' ++ trim s ++ q') ++ q)
    with ((p ++ p') ++ trim s ++ (q' ++ q))
    by (rewrite <- !app_assoc; reflexivity).
  apply trim_frame; try (apply forallb_app_true; assumption).
  apply tight_trim.
Qed.

Lemma split_on_pieces (sep : N) (s piece : jsstring) :
  In piece (split_on sep s) ->
  forallb (fun x => negb (N.eqb x sep)) piece = true.
Proof.
  revert piece. induction s as [|c s IH]; simpl; intros piece H.
  - destruct H as [<-|[]]. reflexivity.
  - destruct (N.eqb c sep) eqn:Ec.
    + destruct H as [<-|H]; [reflexivity|now apply IH].
    + destruct (split_on sep s) as [|h t] eqn:Es.
      * destruct H as [<-|[]]. simpl. now rewrite Ec.
      * destruct H as [<-|H].
        -- simpl. rewrite Ec. simpl. apply IH. now left.
        -- apply IH. now right.
Qed.

(** X11. The record lines of a blob, as all three handlers compute them
    ([text.trim().split('\n').filter(Boolean)]): no record line is empty or
    holds a line feed; whitespace around the blob changes nothing; and a blob
    of whitespace alone has no record line. *)
Theorem record_lines_ignore_padding (text : jsstring) :
  (forall line,
     In line (blob_lines text) -> line <> [] /\ ~ In LF line)
  /\ (forall p q,
        forallb is_ws p = true -> forallb is_ws q = true ->
        blob_lines (p ++ text ++ q) = blob_lines text)
  /\ (forallb is_ws text = true -> blob_lines text = []).
Proof.
  split; [|split].
  - intros line H. unfold blob_lines in H.
    apply filter_In in H as [Hin Hne]. split.
    + intros ->. discriminate.
    + pose proof (split_on_pieces LF _ _ Hin) as Hp.
      rewrite forallb_forall in Hp. intros HLF.
      specialize (Hp LF HLF). now rewrite N.eqb_refl in Hp.
  - intros p q Hp Hq. unfold blob_lines. now rewrite trim_padding.
  - intros Hw. unfold blob_lines.
    replace text with (text ++ [] ++ []) by (now rewrite !app_nil_r).
    rewrite trim_frame by (try reflexivity; exact Hw || exact I).
    reflexivity.
Qed.

(** X12. Successive appends.  Starting from any blob, appending records one
    after the other the way [contributeDisc] builds [newContent] gives a blob
    whose record lines are those of the start, unchanged and in order,
    followed by the serialized records in the order of their appends,
    whenever each serialized record is one line. *)
Theorem successive_appends_keep_order (P : Platform) (cur : jsstring)
    (entries : list JsValue) :
  Forall (fun e => one_line (JSON_stringify P e 0) = true) entries ->
  blob_lines (fold_left (newContent_of P) entries cur) =
  blob_lines cur ++ map (fun e => JSON_stringify P e 0) entries.
Proof.
  intros H. revert cur.
  induction H as [|e entries He _ IH]; intros cur; simpl.
  - now rewrite app_nil_r.
  - rewrite IH. unfold newContent_of at 1.
    rewrite (blob_lines_append cur _ He), <- app_assoc. reflexivity.
Qed.

(** From an empty file, appending the README's record and then another. *)
Lemma successive_appends_keep_order_witness :
  blob_lines (fold_left (newContent_of Ref.platform)
                [Sample.santa; Sample.elf_entry] []) =
  blob_lines [] ++ map (fun e => JSON_stringify Ref.platform e 0)
                     [Sample.santa; Sample.elf_entry].
Proof.
  apply (successive_appends_keep_order Ref.platform []
           [Sample.santa; Sample.elf_entry]).
  repeat constructor.
Defined.

(** ** A contribution seen by the next request *)

Lemma parse_lines_app (P : Platform) (a b : list jsstring)
    (ea eb : list JsValue) :
  parse_lines P a = Ok ea -> parse_lines P b = Ok eb ->
  parse_lines P (a ++ b) = Ok (ea ++ eb).
Proof.
  rewrite !parse_lines_Forall2. apply Forall2_app.
Qed.

Lemma find_skip (pred : JsValue -> Outcome bool) (pre rest : list JsValue) :
  Forall (fun e => pred e = Ok false) pre ->
  find_ pred (pre ++ rest) = find_ pred rest.
Proof.
  induction 1 as [|e pre He _ IH]; simpl; [reflexivity|].
  rewrite He. exact IH.
Qed.

Lemma labels_absent (P : Platform) (label : jsstring)
    (lines : list jsstring) (entries : list JsValue) :
  Forall2 (fun line e => JSON_parse P line = Some e) lines entries ->
  ~ In label (flat_map (label_of_line P) lines) ->
  Forall (fun e => get_prop e (js "disc_label") <> Ok (JStr label)) entries.
Proof.
  induction 1 as [|l e lines es Hl _ IH]; intros Hno; [constructor|].
  simpl in Hno. rewrite in_app_iff in Hno.
  constructor.
  - intros Hx. apply Hno. left.
    unfold label_of_line. rewrite Hl, Hx. now left.
  - apply IH. intros Hin. apply Hno. now right.
Qed.

Section AfterAppend.

Variable P : Platform.
Variables (cur : jsstring) (entry stored : JsValue) (entries : list JsValue).

Hypothesis Hparse : parse_lines P (blob_lines cur) = Ok entries.
Hypothesis Hline : one_line (JSON_stringify P entry 0) = true.
Hypothesis Hback : JSON_parse P (JSON_stringify P entry 0) = Some stored.

Lemma parse_after_append :
  parse_lines P (blob_lines (newContent_of P cur entry))
  = Ok (entries ++ [stored]).
Proof.
  unfold newContent_of. rewrite (blob_lines_append cur _ Hline).
  apply parse_lines_app; [exact Hparse|].
  simpl. rewrite Hback. reflexivity.
Qed.

Lemma scan_false_no_label (label : jsstring) :
  get_prop entry (js "disc_label") = Ok (JStr label) ->
  some_ (duplicate_pred P entry) (blob_lines cur) = Ok false ->
  Forall (fun e => get_prop e (js "disc_label") <> Ok (JStr label)) entries.
Proof.
  intros He Hscan. rewrite some_duplicate in Hscan. injection Hscan as Hscan.
  apply (labels_absent P label (blob_lines cur) entries).
  - apply parse_lines_Forall2. exact Hparse.
  - intros Hin. apply (scan_finds_label P entry label _ He) in Hin. congruence.
Qed.

End AfterAppend.

(** X13. Contribute, then look up.  Let a blob parse into non-null entries
    and let a record whose label is not yet in it be appended the way
    [contributeDisc] does.  If the serialized record is one line that parses
    back to a record with that label, then a lookup of the label on a snapshot
    of the new content finds that record, for every duration. *)
Theorem contributed_record_is_found (P : Platform) (host : Host)
    (cur label : jsstring) (entry stored : JsValue) (entries : list JsValue) :
  parse_lines P (blob_lines cur) = Ok entries ->
  Forall (fun e => ~ nullish e) entries ->
  label <> [] ->
  get_prop entry (js "disc_label") = Ok (JStr label) ->
  some_ (duplicate_pred P entry) (blob_lines cur) = Ok false ->
  one_line (JSON_stringify P entry 0) = true ->
  JSON_parse P (JSON_stringify P entry 0) = Some stored ->
  get_prop stored (js "disc_label") = Ok (JStr label) ->
  serves_snapshot host (newContent_of P cur entry) ->
  forall duration,
    lookupDisc P host (Some label) duration [] =
    (Ok (found_response P stored), [raw_request]).
Proof.
  intros Hp Hall Hl He Hscan Hline Hback Hs Hhost duration.
  pose proof (parse_after_append P cur entry stored entries Hp Hline Hback) as Hnew.
  rewrite (lookup_after_fetch P host label duration _ _ Hl Hhost Hnew).
  rewrite find_skip.
  - simpl. rewrite (proj2 (exact_pred_true label stored) Hs). simpl.
    rewrite (exact_match_truthy label stored Hs Hl). cbn [negb andb].
    rewrite (exact_match_truthy label stored Hs Hl). reflexivity.
  - pose proof (scan_false_no_label P cur entry entries Hp label He Hscan) as Hno.
    rewrite Forall_forall in *. intros e Hin.
    destruct (exact_pred_total label e (Hall e Hin)) as [b Hb].
    destruct b; [|exact Hb].
    apply exact_pred_true in Hb. destruct (Hno e Hin Hb).
Qed.

Lemma contributed_record_is_found_witness :
  lookupDisc Ref.platform
    (Sample.snapshot_host
       (newContent_of Ref.platform Sample.santa_blob Sample.elf_entry))
    (Some (js "ELF_2003")) 5501 [] =
  (Ok (found_response Ref.platform Sample.elf_entry), [raw_request]).
Proof.
  refine (contributed_record_is_found Ref.platform
            (Sample.snapshot_host
               (newContent_of Ref.platform Sample.santa_blob Sample.elf_entry))
            Sample.santa_blob (js "ELF_2003") Sample.elf_entry Sample.elf_entry
            [Sample.santa] _ _ _ _ _ _ _ _ _ 5501).
  - vm_compute. reflexivity.
  - repeat constructor; intros [H|H]; discriminate H.
  - discriminate.
  - reflexivity.
  - vm_compute. reflexivity.
  - vm_compute. reflexivity.
  - vm_compute. reflexivity.
  - reflexivity.
  - eexists. repeat split.
Defined.

(** X14. Contribute, then list.  Under the same conditions on the appended
    record, the listing of the new content is the old entries, in order,
    followed by the new record, and [count] is one more than before. *)
Theorem contributed_record_is_listed (P : Platform) (host : Host)
    (cur : jsstring) (entry stored : JsValue) (entries : list JsValue) :
  parse_lines P (blob_lines cur) = Ok entries ->
  one_line (JSON_stringify P entry 0) = true ->
  JSON_parse P (JSON_stringify P entry 0) = Some stored ->
  serves_snapshot host (newContent_of P cur entry) ->
  getDatabase P host [] =
  (Ok (jsonResponse P
         (JObj [(js "count", JNum (float_of_nat (S (List.length entries))));
                (js "entries", JArr (entries ++ [stored]))]) 200),
   [raw_request]).
Proof.
  intros Hp Hline Hback (response & Hget & Hok & Htext).
  pose proof (parse_after_append P cur entry stored entries Hp Hline Hback) as Hnew.
  unfold getDatabase. rewrite bind_fetch, Hget, Hok. cbn [negb].
  rewrite Htext, Hnew, bind_lift_ok.
  rewrite length_app, Nat.add_comm. reflexivity.
Qed.

Lemma contributed_record_is_listed_witness :
  getDatabase Ref.platform
    (Sample.snapshot_host
       (newContent_of Ref.platform Sample.santa_blob Sample.elf_entry)) [] =
  (Ok (jsonResponse Ref.platform
         (JObj [(js "count", JNum (float_of_nat (S (List.length [Sample.santa]))));
                (js "entries", JArr ([Sample.santa] ++ [Sample.elf_entry]))]) 200),
   [raw_request]).
Proof.
  apply (contributed_record_is_listed Ref.platform
           (Sample.snapshot_host
              (newContent_of Ref.platform Sample.santa_blob Sample.elf_entry))
           Sample.santa_blob Sample.elf_entry Sample.elf_entry [Sample.santa]).
  - vm_compute. reflexivity.
  - vm_compute. reflexivity.
  - vm_compute. reflexivity.
  - eexists. repeat split.
Defined.

(** X15. Contribute, then contribute again.  Once the content submitted for
    an input has become the blob, a later contribution of the same input, at
    whatever time, reads it, answers [duplicate: true] and sends no update,
    provided the serialized record of the first contribution is one line that
    parses back to a record with the same label. *)
Theorem resubmission_is_a_duplicate (P : Platform) (host : Host)
    (data : JsValue) (env : Env) (first_now token : jsstring)
    (fileData stored : JsValue) (cur label : jsstring) :
  first_missing data required = Ok None ->
  get_prop data (js "disc_label") = Ok (JStr label) ->
  one_line (JSON_stringify P (entry_of data first_now) 0) = true ->
  JSON_parse P (JSON_stringify P (entry_of data first_now) 0) = Some stored ->
  get_prop stored (js "disc_label") = Ok (JStr label) ->
  reads_blob P host env token fileData
    (newContent_of P cur (entry_of data first_now)) ->
  forall now,
    contributeDisc P host data env now [] =
    (Ok (duplicate_response P), [file_request token]).
Proof.
  intros Hv Hl Hline Hback Hs Hr now.
  apply (contribute_duplicate P host data env now token fileData _ Hv Hr).
  rewrite some_duplicate. f_equal.
  apply (scan_finds_label P _ label _ (entry_label data now label Hl)).
  unfold newContent_of.
  rewrite (blob_lines_append cur _ Hline), flat_map_app, in_app_iff.
  right. simpl. unfold label_of_line. rewrite Hback, Hs. now left.
Qed.

Lemma resubmission_is_a_duplicate_witness :
  contributeDisc Ref.platform
    (Sample.contents_host
       (newContent_of Ref.platform Sample.santa_blob
          (entry_of Sample.elf_input Sample.now)) (js "def456") true)
    Sample.elf_input Sample.env (js "2026-03-02T08:30:00.000Z") [] =
  (Ok (duplicate_response Ref.platform), [file_request (js "ghp_secret")]).
Proof.
  refine (resubmission_is_a_duplicate Ref.platform
            (Sample.contents_host
               (newContent_of Ref.platform Sample.santa_blob
                  (entry_of Sample.elf_input Sample.now)) (js "def456") true)
            Sample.elf_input Sample.env Sample.now (js "ghp_secret")
            (Sample.file_data
               (newContent_of Ref.platform Sample.santa_blob
                  (entry_of Sample.elf_input Sample.now)) (js "def456"))
            Sample.elf_entry Sample.santa_blob (js "ELF_2003")
            _ _ _ _ _ _ (js "2026-03-02T08:30:00.000Z")).
  - vm_compute. reflexivity.
  - reflexivity.
  - vm_compute. reflexivity.
  - vm_compute. reflexivity.
  - reflexivity.
  - split; [reflexivity|]. split; [discriminate|].
    eexists. eexists.
    split; [reflexivity|]. split; [reflexivity|].
    split; [vm_compute; reflexivity|].
    split; [reflexivity|vm_compute; reflexivity].
Defined.

(** ** Inputs outside the data model *)

Lemma first_missing_non_object (data : JsValue) :
  ~ nullish data -> (forall props, data <> JObj props) ->
  first_missing data required = Ok (Some (js "disc_label")).
Proof.
  unfold nullish. intros Hn Ho.
  destruct data; try reflexivity.
  - destruct Hn. now right.
  - destruct Hn. now left.
  - destruct (Ho props eq_refl).
Qed.

(** X16. Bodies of [POST /contribute] that are not objects.  A body that is
    not JSON is answered 500 with the message of the parse error; the body
    [null] is answered 500 with the message of the TypeError raised by the
    first field read, not 400; and a boolean, number, string or array is
    answered 400 naming [disc_label].  None of them sends a request. *)
Theorem non_object_bodies (P : Platform) (host : Host) (request : HttpRequest)
    (env : Env) (now : jsstring) (tr : list Request) :
  method request = js "POST" ->
  pathname request = js "/contribute" ->
  (forall e,
     json request = Throw e ->
     fetch P host request env now tr =
     (Ok (jsonResponse P (JObj [(js "error", JStr (message P e))]) 500), tr))
  /\
  (json request = Ok JNull ->
   fetch P host request env now tr =
   (Ok (jsonResponse P (JObj [(js "error", JStr (message P TypeError))]) 500), tr))
  /\
  (forall data,
     json request = Ok data ->
     ~ nullish data -> (forall props, data <> JObj props) ->
     fetch P host request env now tr =
     (Ok (missing_field_response P (js "disc_label")), tr)).
Proof.
  intros Hm Hp.
  assert (Hroute : fetch P host request env now tr =
                   catch (data <- lift (json request) ;;
                          contributeDisc P host data env now)
                     (fun err =>
                        ret (jsonResponse P
                               (JObj [(js "error", JStr (message P err))]) 500))
                     tr).
  { unfold fetch. rewrite Hm, Hp. reflexivity. }
  rewrite Hroute. split; [|split].
  - intros e Hj. rewrite Hj. reflexivity.
  - intros Hj. rewrite Hj. reflexivity.
  - intros data Hj Hn Ho. rewrite Hj. unfold catch.
    rewrite bind_lift_ok. unfold contributeDisc.
    rewrite (first_missing_non_object data Hn Ho). reflexivity.
Qed.

Lemma non_object_bodies_witness :
  (fetch Ref.platform (Sample.contents_host Sample.santa_blob (js "abc123") true)
     {| method := js "POST"; pathname := js "/contribute";
        searchParams := []; json := Throw SyntaxError |}
     Sample.env Sample.now [] =
   (Ok (jsonResponse Ref.platform
          (JObj [(js "error", JStr (message Ref.platform SyntaxError))]) 500), []))
  /\
  (fetch Ref.platform (Sample.contents_host Sample.santa_blob (js "abc123") true)
     {| method := js "POST"; pathname := js "/contribute";
        searchParams := []; json := Ok JNull |}
     Sample.env Sample.now [] =
   (Ok (jsonResponse Ref.platform
          (JObj [(js "error", JStr (message Ref.platform TypeError))]) 500), []))
  /\
  (fetch Ref.platform (Sample.contents_host Sample.santa_blob (js "abc123") true)
     {| method := js "POST"; pathname := js "/contribute";
        searchParams := []; json := Ok (JArr [Sample.elf_input]) |}
     Sample.env Sample.now [] =
   (Ok (missing_field_response Ref.platform (js "disc_label")), [])).
Proof.
  split; [|split].
  - apply (proj1 (non_object_bodies Ref.platform
                    (Sample.contents_host Sample.santa_blob (js "abc123") true)
                    {| method := js "POST"; pathname := js "/contribute";
                       searchParams := []; json := Throw SyntaxError |}
                    Sample.env Sample.now [] eq_refl eq_refl)).
    reflexivity.
  - apply (proj1 (proj2 (non_object_bodies Ref.platform
                           (Sample.contents_host Sample.santa_blob (js "abc123") true)
                           {| method := js "POST"; pathname := js "/contribute";
                              searchParams := []; json := Ok JNull |}
                           Sample.env Sample.now [] eq_refl eq_refl))).
    reflexivity.
  - apply (proj2 (proj2 (non_object_bodies Ref.platform
                           (Sample.contents_host Sample.santa_blob (js "abc123") true)
                           {| method := js "POST"; pathname := js "/contribute";
                              searchParams := [];
                              json := Ok (JArr [Sample.elf_input]) |}
                           Sample.env Sample.now [] eq_refl eq_refl))
             (JArr [Sample.elf_input])).
    + reflexivity.
    + intros [H|H]; discriminate H.
    + intros props H. discriminate H.
Defined.

Example bodies_that_are_not_objects :
  fst (fetch Ref.platform (Sample.contents_host Sample.santa_blob (js "abc123") true)
         {| method := js "POST"; pathname := js "/contribute";
            searchParams := []; json := Ok JNull |} Sample.env Sample.now [])
  = Ok (jsonResponse Ref.platform
          (JObj [(js "error", JStr (js "Cannot read properties of null"))]) 500)
  /\ fst (fetch Ref.platform (Sample.contents_host Sample.santa_blob (js "abc123") true)
            {| method := js "POST"; pathname := js "/contribute";
               searchParams := []; json := Ok (JArr [Sample.elf_input]) |}
            Sample.env Sample.now [])
     = Ok (missing_field_response Ref.platform (js "disc_label")).
Proof. split; vm_compute; reflexivity. Qed.

Lemma same_label_reference (P : Platform) (entry : JsValue) (line : jsstring) :
  (exists items, get_prop entry (js "disc_label") = Ok (JArr items))
  \/ (exists props, get_prop entry (js "disc_label") = Ok (JObj props)) ->
  same_label P entry line = false.
Proof.
  intros H. unfold same_label.
  destruct (JSON_parse P line) as [existing|]; [|reflexivity].
  destruct (get_prop existing (js "disc_label")) as [a|e]; [|reflexivity].
  destruct H as [[items ->]|[props ->]]; destruct a; reflexivity.
Qed.

(** X17. Validation checks truthiness, not types, and the duplicate scan
    compares with [===]: an input whose [disc_label] is an array or an object
    passes validation and is never recognised as a duplicate, whatever the
    blob holds.  So each such contribution whose commit message can be built
    and whose content [btoa] accepts sends its update; when the message cannot
    be built (the label or the title is an object with an own [toString]
    property, or an array holding one) the contribution throws a TypeError
    after the read. *)
Theorem reference_label_is_never_a_duplicate (P : Platform) (host : Host)
    (data : JsValue) (env : Env) (now token : jsstring)
    (fileData : JsValue) (cur : jsstring) :
  first_missing data required = Ok None ->
  (exists items, get_prop data (js "disc_label") = Ok (JArr items))
  \/ (exists props, get_prop data (js "disc_label") = Ok (JObj props)) ->
  reads_blob P host env token fileData cur ->
  some_ (duplicate_pred P (entry_of data now)) (blob_lines cur) = Ok false
  /\ (forall message encoded,
        commit_message P (entry_of data now) = Ok message ->
        btoa P (newContent_of P cur (entry_of data now)) = Some encoded ->
        exists sha put,
          get_prop fileData (js "sha") = Ok sha /\
          snd (contributeDisc P host data env now []) = [file_request token; put] /\
          req_method put = js "PUT" /\
          req_url put =
            js "https://api.github.com/repos/paul-tastic/ripforge-disc-db/contents/disc_database.jsonl" /\
          req_body put =
            Some (JSON_stringify P
                    (JObj [ (js "message", JStr message);
                            (js "content", JStr encoded);
                            (js "sha", sha) ]) 0))
  /\ (commit_message P (entry_of data now) = Throw TypeError ->
      contributeDisc P host data env now [] =
      (Throw TypeError, [file_request token])).
Proof.
  intros Hv Hl Hr.
  assert (Hscan : some_ (duplicate_pred P (entry_of data now)) (blob_lines cur)
                  = Ok false).
  { rewrite some_duplicate. f_equal.
    destruct (existsb _ _) eqn:E; [|reflexivity].
    apply existsb_exists in E as (line & _ & Hs).
    rewrite same_label_reference in Hs; [discriminate|].
    destruct Hl as [[items Hi]|[props Hp]]; [left; exists items|right; exists props];
      change (get_prop (entry_of data now) (js "disc_label"))
        with (Ok (match get_prop data (js "disc_label") with
                  | Ok v => v | Throw _ => JUndefined end));
      [rewrite Hi|rewrite Hp]; reflexivity. }
  split; [exact Hscan|]. split.
  - intros message encoded Hmsg Henc.
    destruct (contribute_appends P host data env now token fileData cur Hv Hr
                message encoded Hscan Hmsg Henc) as [sha [Hsha Hrun]].
    exists sha, (update_request token (update_payload P message encoded sha)).
    split; [exact Hsha|]. split; [rewrite Hrun; apply snd_match_outcome|].
    repeat split.
  - intros Hmsg.
    destruct (contribute_after_read P host data env now token fileData cur Hv Hr)
      as [sha [_ Hrun]].
    rewrite Hrun. unfold contribute_outcome.
    rewrite some_duplicate in Hscan. injection Hscan as ->.
    rewrite Hmsg. reflexivity.
Qed.

(** The array label of the input is already the label of the one record of
    the blob, and the contribution is appended all the same. *)
Lemma reference_label_is_never_a_duplicate_witness :
  some_ (duplicate_pred Ref.platform (entry_of Odd.array_label_input Sample.now))
    (blob_lines Odd.array_label_blob) = Ok false
  /\ (exists sha put,
        get_prop (Sample.file_data Odd.array_label_blob (js "abc123")) (js "sha")
        = Ok sha /\
        snd (contributeDisc Ref.platform
               (Sample.contents_host Odd.array_label_blob (js "abc123") true)
               Odd.array_label_input Sample.env Sample.now []) =
        [file_request (js "ghp_secret"); put] /\
        req_method put = js "PUT" /\
        req_url put =
          js "https://api.github.com/repos/paul-tastic/ripforge-disc-db/contents/disc_database.jsonl" /\
        req_body put =
          Some (JSON_stringify Ref.platform
                  (JObj [ (js "message",
                           JStr (js "Add disc: SC30NNW1 -> Santa Clause 3"));
                          (js "content",
                           JStr (Sample.encoded_append Odd.array_label_blob
                                   (entry_of Odd.array_label_input Sample.now)));
                          (js "sha", sha) ]) 0)).
Proof.
  pose proof (reference_label_is_never_a_duplicate Ref.platform
                (Sample.contents_host Odd.array_label_blob (js "abc123") true)
                Odd.array_label_input Sample.env Sample.now (js "ghp_secret")
                (Sample.file_data Odd.array_label_blob (js "abc123"))
                Odd.array_label_blob) as H.
  destruct H as (Hscan & Hsend & _).
  - vm_compute. reflexivity.
  - left. eexists. reflexivity.
  - split; [reflexivity|]. split; [discriminate|].
    eexists. eexists.
    split; [reflexivity|]. split; [reflexivity|].
    split; [vm_compute; reflexivity|].
    split; [reflexivity|vm_compute; reflexivity].
  - split; [exact Hscan|].
    apply Hsend; vm_compute; reflexivity.
Defined.

(** A label that is an object with an own [toString] property: the record is
    not a duplicate, the commit message cannot be built, and the caller of
    [POST /contribute] gets a 500 after the read alone. *)
Example shadowed_label_throws :
  first_missing Odd.shadowed_label_input required = Ok None
  /\ commit_message Ref.platform (entry_of Odd.shadowed_label_input Sample.now)
     = Throw TypeError
  /\ contributeDisc Ref.platform
       (Sample.contents_host Sample.santa_blob (js "abc123") true)
       Odd.shadowed_label_input Sample.env Sample.now []
     = (Throw TypeError, [file_request (js "ghp_secret")])
  /\ fetch Ref.platform
       (Sample.contents_host Sample.santa_blob (js "abc123") true)
       {| method := js "POST"; pathname := js "/contribute";
          searchParams := []; json := Ok Odd.shadowed_label_input |}
       Sample.env Sample.now []
     = (Ok (jsonResponse Ref.platform
              (JObj [(js "error", JStr (message Ref.platform TypeError))]) 500),
        [file_request (js "ghp_secret")]).
Proof. repeat split; vm_compute; reflexivity. Qed.

(** A record whose [duration_secs] is such an object: the fuzzy scan throws
    on it, and [GET /lookup] answers 500; the exact scan never converts it. *)
Example shadowed_duration_throws :
  Ref.JSON_parse Odd.shadowed_duration_line = Some Odd.shadowed_duration
  /\ lookupDisc Ref.platform
       (Sample.snapshot_host (Sample.blob_of [Odd.shadowed_duration_line]))
       (Some (js "UNKNOWN")) 5501 []
     = (Throw TypeError, [raw_request])
  /\ fetch Ref.platform
       (Sample.snapshot_host (Sample.blob_of [Odd.shadowed_duration_line]))
       {| method := js "GET"; pathname := js "/lookup";
          searchParams := [(js "label", js "UNKNOWN"); (js "duration", js "5501")];
          json := Throw SyntaxError |}
       Sample.env Sample.now []
     = (Ok (jsonResponse Ref.platform
              (JObj [(js "error", JStr (message Ref.platform TypeError))]) 500),
        [raw_request])
  /\ lookupDisc Ref.platform
       (Sample.snapshot_host (Sample.blob_of [Odd.shadowed_duration_line]))
       (Some (js "ODD_1")) 5501 []
     = (Ok (found_response Ref.platform Odd.shadowed_duration), [raw_request]).
Proof. repeat split; vm_compute; reflexivity. Qed.

Lemma nan_never_within (d tolerance : float) :
  PrimFloat.leb (PrimFloat.abs (PrimFloat.sub nan d)) tolerance = false.
Proof.
  rewrite FloatAxioms.leb_spec, FloatAxioms.abs_spec, FloatAxioms.sub_spec.
  change (Prim2SF nan) with S754_nan.
  unfold SF64sub, SFsub.
  destruct (Prim2SF d); reflexivity.
Qed.

Lemma qualifies_needs_duration (P : Platform) (duration : float) (e : JsValue) :
  get_prop e (js "duration_secs") = Ok JUndefined ->
  qualifies P duration e = false.
Proof.
  intros H. unfold qualifies, within_tolerance. rewrite H.
  cbn [ToNumber]. now rewrite nan_never_within.
Qed.

(** X18. A record without [duration_secs] is never returned by the fuzzy
    scan: its duration reads as [undefined], the difference is NaN, and no
    comparison with NaN holds.  On a snapshot none of whose records has a
    duration, a lookup is decided by the exact scan alone, whatever the
    duration asked for. *)
Theorem untimed_records_need_their_label (P : Platform) (host : Host)
    (label blob : jsstring) (entries : list JsValue) (duration : float) :
  label <> [] ->
  serves_snapshot host blob ->
  parse_lines P (blob_lines blob) = Ok entries ->
  Forall (fun e => get_prop e (js "duration_secs") = Ok JUndefined) entries ->
  lookupDisc P host (Some label) duration [] =
  (Ok (match find (has_label label) entries with
       | Some e => found_response P e
       | None => not_found_response P label duration
       end),
   [raw_request]).
Proof.
  intros Hl Hs Hp Hun.
  assert (Hall : Forall (fun e => ~ nullish e) entries).
  { rewrite Forall_forall in *. intros e He.
    exact (get_prop_not_nullish _ _ _ (Hun e He)). }
  rewrite (lookup_after_fetch P host label duration blob entries Hl Hs Hp).
  rewrite (find_as_list_find (exact_pred label) (has_label label)).
  2:{ rewrite Forall_forall in *. intros e He.
      apply exact_pred_has_label. now apply Hall. }
  destruct (find (has_label label) entries) as [e|] eqn:Ef.
  - apply find_some in Ef as [_ Hb].
    rewrite (has_label_truthy label e Hl Hb). cbn [negb andb].
    rewrite (has_label_truthy label e Hl Hb). reflexivity.
  - cbn [truthy negb andb].
    destruct (PrimFloat.ltb 0 duration); [|reflexivity].
    rewrite find_none; [reflexivity|].
    rewrite Forall_forall in *. intros e He.
    rewrite (fuzzy_pred_qualifies P duration e).
    + now rewrite (qualifies_needs_duration P duration e (Hun e He)).
    + exists JUndefined, nan. split; [exact (Hun e He)|reflexivity].
Qed.

Lemma untimed_records_need_their_label_witness :
  lookupDisc Ref.platform
    (Sample.snapshot_host (Sample.blob_of [Odd.no_duration_line]))
    (Some (js "UNKNOWN")) 5501 [] =
  (Ok (match find (has_label (js "UNKNOWN")) [Odd.no_duration] with
       | Some e => found_response Ref.platform e
       | None => not_found_response Ref.platform (js "UNKNOWN") 5501
       end),
   [raw_request]).
Proof.
  apply (untimed_records_need_their_label Ref.platform
           (Sample.snapshot_host (Sample.blob_of [Odd.no_duration_line]))
           (js "UNKNOWN") (Sample.blob_of [Odd.no_duration_line])
           [Odd.no_duration] 5501).
  - discriminate.
  - eexists. repeat split.
  - vm_compute. reflexivity.
  - repeat constructor.
Defined.
